(** * HTTP address routines of CUPS (cups/http-addr.c)

    A shallow embedding of the address predicates, the comparator, the
    formatter, the loader and the name resolver of [cups/http-addr.c],
    with the properties the specification states about them.

    Conventions of the embedding.
    - A C integer is a [Z]; an [unsigned] is kept below [2^32] with the
      wrap-around written out ([u32]).
    - A byte ([char]) is an [ascii]; raw storage is a [list byte].
    - A [string] holds the characters of a C character array; the functions
      of the C library read it up to its first NUL ([cstr]), and a pointer
      into a string is the suffix that starts there ([peek] reads the
      character under the pointer, NUL at the end).
    - What the headers and the C library decide is a parameter, the record
      [platform]: the byte order of the host (from which [htonl] and [ntohl]
      are defined), the width of [unsigned long], the sizes of the buffers
      and the resolver.  The statements hold for every platform.
    - The routines that write the library globals take the globals and
      return them; a pointer into them is a constructor that names the place
      ([CgHostent], [IpAddrsPtr]), so two pointers to the same place are
      equal and read the same contents.
    - A call that reads through a NULL pointer has no result: the routine
      that can do so returns an [option], [None] for the fault. *)

From Stdlib Require Import ZArith List String Ascii Bool Lia.
From Stdlib Require DecimalString HexadecimalString DecimalPos HexadecimalPos.
Import ListNotations.
Open Scope string_scope.
Open Scope list_scope.
Open Scope Z_scope.

(** ** Bytes *)

Definition byte := ascii.

Definition byte_of_Z (z : Z) : byte := ascii_of_N (Z.to_N (z mod 256)).
Definition Z_of_byte (b : byte) : Z := Z.of_N (N_of_ascii b).

Definition NUL : byte := zero.

(** [bs[i]] of a byte buffer, as a number; 0 past the end of the list. *)
Definition byte_at (bs : list byte) (i : nat) : Z := Z_of_byte (nth i bs NUL).

(** An [unsigned] value: arithmetic modulo [2^32]. *)
Definition u32 (x : Z) : Z := x mod 4294967296.

(** ** Byte order *)

Inductive endianness := BigEndian | LittleEndian.

(** The four bytes of a 32-bit value, most significant first. *)
Definition be_bytes32 (x : Z) : list byte :=
  [byte_of_Z (Z.shiftr x 24); byte_of_Z (Z.shiftr x 16);
   byte_of_Z (Z.shiftr x 8); byte_of_Z x].

(** The value whose most significant byte is [bs[0]]. *)
Definition be_value32 (bs : list byte) : Z :=
  byte_at bs 0 * 16777216 + byte_at bs 1 * 65536 + byte_at bs 2 * 256 + byte_at bs 3.

(** Storing and loading an [unsigned] in memory. *)
Definition store32 (o : endianness) (x : Z) : list byte :=
  match o with
  | BigEndian => be_bytes32 x
  | LittleEndian => rev (be_bytes32 x)
  end.

Definition load32 (o : endianness) (bs : list byte) : Z :=
  let b i := nth i bs NUL in
  match o with
  | BigEndian => be_value32 [b 0%nat; b 1%nat; b 2%nat; b 3%nat]
  | LittleEndian => be_value32 [b 3%nat; b 2%nat; b 1%nat; b 0%nat]
  end.

(** [htonl x] is the host value whose bytes in memory are [x] in network
    (big-endian) order; [ntohl] reads a host value's bytes in that order. *)
Definition htonl (o : endianness) (x : Z) : Z := load32 o (be_bytes32 x).
Definition ntohl (o : endianness) (x : Z) : Z := be_value32 (store32 o x).

Definition htons (o : endianness) (x : Z) : Z :=
  let x := x mod 65536 in
  match o with
  | BigEndian => x
  | LittleEndian => (x mod 256) * 256 + x / 256
  end.

(** Storing and loading an [unsigned short] in memory. *)
Definition store16 (o : endianness) (x : Z) : list byte :=
  match o with
  | BigEndian => [byte_of_Z (Z.shiftr x 8); byte_of_Z x]
  | LittleEndian => [byte_of_Z x; byte_of_Z (Z.shiftr x 8)]
  end.

Definition load16 (o : endianness) (bs : list byte) : Z :=
  match o with
  | BigEndian => byte_at bs 0 * 256 + byte_at bs 1
  | LittleEndian => byte_at bs 1 * 256 + byte_at bs 0
  end.

(** [memcpy(dst, src, n)] seen from [dst]: [src] holds the [n] bytes copied.
    Bytes of [dst] past the copy are kept. *)
Definition memcpy (dst src : list byte) : list byte :=
  src ++ skipn (List.length src) dst.

(** Zero-extension of a buffer to at least [n] bytes. *)
Definition pad_to (n : nat) (bs : list byte) : list byte :=
  bs ++ repeat NUL (n - List.length bs).

(** Writing [src] at byte offset [off] of [dst]. *)
Definition write_at (off : nat) (dst src : list byte) : list byte :=
  firstn off (pad_to off dst) ++ memcpy (skipn off dst) src.

(** ** C strings *)

Definition is_nul (c : byte) : bool := Ascii.eqb c NUL.

(** [*p] and [p + 1] for a pointer [p] into a string. *)
Definition peek (s : string) : byte :=
  match s with EmptyString => NUL | String c _ => c end.

Definition advance (s : string) : string :=
  match s with EmptyString => EmptyString | String _ s' => s' end.

(** The characters before the first NUL. *)
Fixpoint cstr (s : string) : string :=
  match s with
  | EmptyString => EmptyString
  | String c s' => if is_nul c then EmptyString else String c (cstr s')
  end.

Definition strlen (s : string) : Z := Z.of_nat (String.length (cstr s)).

Fixpoint strcmp (a b : string) : Z :=
  match a with
  | EmptyString => 0 - Z_of_byte (peek b)
  | String ca a' =>
      if Ascii.eqb ca (peek b)
      then if is_nul ca then 0 else strcmp a' (advance b)
      else Z_of_byte ca - Z_of_byte (peek b)
  end.

Fixpoint take (n : nat) (s : string) : string :=
  match n, s with
  | S n', String c s' => String c (take n' s')
  | _, _ => EmptyString
  end.

(** What a buffer of [size] bytes holds after [text] is written to it with
    truncation and a terminating NUL ([strlcpy] of BSD, which CUPS supplies
    where the C library lacks it, and [snprintf]): nothing is written to a
    buffer of size 0.  Sizes are not negative. *)
Definition store_str (dst : string) (size : nat) (text : string) : string :=
  match size with
  | O => dst
  | S n => take n text
  end.

Definition strlcpy (dst src : string) (size : nat) : string :=
  store_str dst size (cstr src).

Definition snprintf (dst : string) (size : nat) (text : string) : string :=
  store_str dst size text.

(** The bytes that [strlcpy(dst, src, size)] writes from the start of [dst]:
    the characters kept and the terminating NUL; none for a size of 0. *)
Definition strlcpy_written (src : string) (size : nat) : list byte :=
  match size with
  | O => []
  | S n => list_ascii_of_string (take n (cstr src)) ++ [NUL]
  end.

(** [memcmp(a, b, n)], comparing from index [i] on. *)
Fixpoint memcmp_from (i n : nat) (a b : list byte) : Z :=
  match n with
  | O => 0
  | S n' =>
      let d := byte_at a i - byte_at b i in
      if d =? 0 then memcmp_from (S i) n' a b else d
  end.

Definition memcmp (a b : list byte) (n : nat) : Z := memcmp_from 0 n a b.

(** ** Character classes and number conversions of the C library *)

Definition isdigit (c : Z) : bool := (48 <=? c) && (c <=? 57).

Definition isspace (c : Z) : bool := (c =? 32) || ((9 <=? c) && (c <=? 13)).

(** The value of a hexadecimal digit. *)
Definition xdigit_val (c : Z) : option Z :=
  if (48 <=? c) && (c <=? 57) then Some (c - 48)
  else if (97 <=? c) && (c <=? 102) then Some (c - 87)
  else if (65 <=? c) && (c <=? 70) then Some (c - 55)
  else None.

Definition digit_char (d : Z) : byte :=
  byte_of_Z (if d <? 10 then 48 + d else 87 + d).

(** The digits of [n] in [base], most significant first, in front of [acc]. *)
Fixpoint render (base : Z) (fuel : nat) (n : Z) (acc : string) : string :=
  match fuel with
  | O => acc
  | S f =>
      let acc' := String (digit_char (n mod base)) acc in
      if n / base =? 0 then acc' else render base f (n / base) acc'
  end.

(** [%d] (of a value that is not negative) and [%x]. *)
Definition fmt_d (n : Z) : string := render 10 (S (Z.to_nat (Z.log2 n))) n "".
Definition fmt_x (n : Z) : string := render 16 (S (Z.to_nat (Z.log2 n))) n "".

Fixpoint skip_space (s : string) : string :=
  match s with
  | String c s' => if isspace (Z_of_byte c) then skip_space s' else s
  | EmptyString => s
  end.

(** An optional sign. *)
Definition scan_sign (s : string) : bool * string :=
  match s with
  | String c s' =>
      if Ascii.eqb c "-" then (true, s')
      else if Ascii.eqb c "+" then (false, s')
      else (false, s)
  | EmptyString => (false, s)
  end.

Fixpoint scan_digits (acc : Z) (s : string) : Z * string :=
  match s with
  | String c s' =>
      if isdigit (Z_of_byte c) then scan_digits (acc * 10 + (Z_of_byte c - 48)) s'
      else (acc, s)
  | EmptyString => (acc, s)
  end.

Fixpoint scan_xdigits (acc : Z) (s : string) : Z * string :=
  match s with
  | String c s' =>
      match xdigit_val (Z_of_byte c) with
      | Some d => scan_xdigits (acc * 16 + d) s'
      | None => (acc, s)
      end
  | EmptyString => (acc, s)
  end.

(** The result of [strtoul] for the digits' value [v]: [ULONG_MAX] when [v]
    does not fit, the negation in [unsigned long] after a minus sign. *)
Definition strtoul_value (ULONG_MAX : Z) (neg : bool) (v : Z) : Z :=
  if ULONG_MAX <? v then ULONG_MAX
  else if neg then (- v) mod (ULONG_MAX + 1) else v.

(** A [0x] or [0X] in front of a hexadecimal digit is skipped. *)
Definition skip_0x (s : string) : string :=
  match s with
  | String c0 (String c1 (String c2 s')) =>
      if Ascii.eqb c0 "0" && (Ascii.eqb c1 "x" || Ascii.eqb c1 "X")
      then match xdigit_val (Z_of_byte c2) with
           | Some _ => String c2 s'
           | None => s
           end
      else s
  | _ => s
  end.

(** [strtoul(nptr, &endptr, 16)]: the value and [endptr].  When no digit is
    found the value is 0 and [endptr] is [nptr]. *)
Definition strtoul16 (ULONG_MAX : Z) (nptr : string) : Z * string :=
  let '(neg, s) := scan_sign (skip_space nptr) in
  let s := skip_0x s in
  match xdigit_val (Z_of_byte (peek s)) with
  | Some _ =>
      let '(v, endptr) := scan_xdigits 0 s in
      (strtoul_value ULONG_MAX neg v, endptr)
  | None => (0, nptr)
  end.

(** The conversion [%u] of [sscanf]: white space, an optional sign, then at
    least one decimal digit.  The digits are converted as [strtoul] does and
    the result is stored in an [unsigned] (ISO C leaves a value that does not
    fit undefined; this is what the GNU and musl libraries do). *)
Definition scan_u (ULONG_MAX : Z) (s : string) : option (Z * string) :=
  let '(neg, s1) := scan_sign (skip_space s) in
  if isdigit (Z_of_byte (peek s1)) then
    let '(v, rest) := scan_digits 0 s1 in
    Some (u32 (strtoul_value ULONG_MAX neg v), rest)
  else None.

Inductive directive :=
| ConvU                 (* %u *)
| Lit (c : byte).       (* an ordinary character *)

(** The values [sscanf] assigns, in order; scanning stops at the first
    directive that fails. *)
Fixpoint sscanf_run (ULONG_MAX : Z) (fmt : list directive) (s : string)
    (assigned : list Z) : list Z :=
  match fmt with
  | [] => assigned
  | ConvU :: fmt' =>
      match scan_u ULONG_MAX s with
      | Some (v, s') => sscanf_run ULONG_MAX fmt' s' (assigned ++ [v])
      | None => assigned
      end
  | Lit c :: fmt' =>
      if Ascii.eqb (peek s) c && negb (is_nul c)
      then sscanf_run ULONG_MAX fmt' (advance s) assigned
      else assigned
  end.

(** [sscanf(s, fmt, ...)]: the return value and the values assigned.  The
    return value is [EOF] (-1) when the input ends before the first
    conversion. *)
Definition sscanf (ULONG_MAX : Z) (s : string) (fmt : list directive) : Z * list Z :=
  let assigned := sscanf_run ULONG_MAX fmt s [] in
  match assigned with
  | [] => if is_nul (peek (skip_space s)) then (-1, []) else (0, [])
  | _ => (Z.of_nat (List.length assigned), assigned)
  end.

(** ["%u.%u.%u.%u"] *)
Definition fmt_dotted_quad : list directive :=
  [ConvU; Lit "."%char; ConvU; Lit "."%char; ConvU; Lit "."%char; ConvU].

(** ** The data model *)

(** Address families ([<sys/socket.h>]; the values are those of Linux, the
    development only uses that they differ). *)
Definition AF_LOCAL : Z := 1.
Definition AF_INET : Z := 2.
Definition AF_INET6 : Z := 10.

(** Modelled from the spec: the declaration of [http_addr_t] ([cups/http.h])
    is not among the sources; the fields are those the routines use, and
    they are the specification's address value: a family tag, a port, a
    32-bit IPv4 address, a 128-bit IPv6 address and a path.
    [http_addr_t] is a union of [struct sockaddr], [sockaddr_in],
    [sockaddr_in6] and [sockaddr_un].  The family tag and the port are at
    the same place in the members that have them and are one field each
    here; the address of each member is a field of its own, kept as the bytes
    it has in memory.  Every routine reads the member that the family tag
    selects.
    The members share their storage: [un.sun_path] starts where the port
    is, two bytes before [ipv4.sin_addr] and six bytes before
    [ipv6.sin6_addr] (the socket address structures of Linux and of the
    BSDs: two bytes for the family tag, then the port, then for IPv4 the
    address, for IPv6 the flow information and the address).  So a path
    that is written to [un.sun_path] replaces the bytes of the port and of
    the addresses that are under it, which [httpAddrLoad] below carries
    out.  The path is kept as a string and not as the bytes under it: what
    the load of an IPv4 or IPv6 address leaves in [un.sun_path] is not
    modelled, and no routine reads the path of such an address.
    - [sa_family]: [addr.sa_family], [ipv4.sin_family], [ipv6.sin6_family],
      [un.sun_family];
    - [sin_port]: [ipv4.sin_port], [ipv6.sin6_port];
    - [sin_addr]: the 4 bytes of [ipv4.sin_addr];
    - [sin6_addr]: the 16 bytes of [ipv6.sin6_addr];
    - [sun_path]: [un.sun_path]. *)
Record http_addr_t := {
  sa_family : Z;
  sin_port : Z;
  sin_addr : list byte;
  sin6_addr : list byte;
  sun_path : string
}.

(** Pointers to characters that the host entries hold. *)
Inductive char_ptr :=
| NULL
| StrPtr (s : string)       (* a string of the caller, or a string literal *)
| IpAddrsPtr (i : nat)      (* (char * )cg->ip_addrs[i] *)
| HostnamePtr               (* cg->hostname *)
| BufPtr (bs : list byte).  (* storage of the resolver library *)

(** What [h_addr_list] points to. *)
Inductive addr_list_ptr :=
| IpPtrs                          (* cg->ip_ptrs *)
| AddrList (l : list char_ptr).   (* a list of the resolver library *)

Record struct_hostent := {
  h_name : char_ptr;
  h_aliases : option (list string);    (* [None] is the NULL pointer *)
  h_addrtype : Z;
  h_length : Z;
  h_addr_list : addr_list_ptr
}.

(** Modelled from the spec: the declaration of [_cups_globals_t]
    ([cups/globals.h]) is not among the sources; the fields are those
    [httpGetHostByName] uses, the specification's resolved name (a canonical
    name and a bounded list of addresses).
    The part of [_cups_globals_t] that the resolver uses: one host entry,
    the pointers of its address list, the addresses themselves (a row of 16
    bytes per address, [unsigned ip_addrs[CUPS_MAX_ADDRS][4]]) and the
    canonical name.  A row shorter than 16 bytes stands for the row with
    zeros after it. *)
Record cups_globals := {
  hostent : struct_hostent;
  ip_ptrs : list char_ptr;
  ip_addrs : list (list byte);
  hostname : string
}.

(** A [struct hostent *] as [httpGetHostByName] returns it. *)
Inductive hostent_ptr :=
| HostNULL
| CgHostent                           (* &cg->hostent *)
| LibcHostent (h : struct_hostent).   (* what gethostbyname() returned *)

(** One entry of the list that [getaddrinfo] returns.  [ai_canonname] is a
    pointer to a string or NULL ([None]): with [AI_CANONNAME] the library
    sets it in the first entry of the list and leaves it NULL in the
    others. *)
Record addrinfo := {
  ai_family : Z;
  ai_canonname : option string;
  ai_addr : http_addr_t
}.

(** The width of [unsigned long]: 32 bits (ILP32, LLP64) or 64 bits (LP64). *)
Inductive long_model := Long32 | Long64.

(** What the headers and the C library provide: the byte order, the width
    of [unsigned long], the sizes and the resolver.  [gethostbyname] and
    [getaddrinfo] give [None] when they fail ([getaddrinfo] always does where
    the library is built without it); [gethostbyaddr] gives the [h_name] of
    the entry it finds. *)
Record platform := {
  host_order : endianness;
  long_size : long_model;
  sun_path_size : nat;              (* sizeof(addr->un.sun_path) *)
  hostname_size : nat;              (* sizeof(cg->hostname) *)
  CUPS_MAX_ADDRS : nat;
  gethostbyname : string -> option struct_hostent;
  getaddrinfo : string -> option (list addrinfo);
  gethostbyaddr : list byte -> Z -> Z -> option string
}.

(** [l[i] = x]; a list too short is extended with [d]. *)
Fixpoint set_nth {A : Type} (d : A) (i : nat) (x : A) (l : list A) : list A :=
  match i, l with
  | O, [] => [x]
  | O, _ :: t => x :: t
  | S i', [] => d :: set_nth d i' x []
  | S i', h :: t => h :: set_nth d i' x t
  end.

(** The 16 bytes of [cg->ip_addrs[i]]. *)
Definition ip_row (cg : cups_globals) (i : nat) : list byte :=
  pad_to 16 (nth i (ip_addrs cg) []).

(** [n] bytes read at a pointer; [None] when the read leaves the object. *)
Definition read_bytes (cg : cups_globals) (p : char_ptr) (n : Z) : option (list byte) :=
  let within (bs : list byte) :=
    if (0 <=? n) && (n <=? Z.of_nat (List.length bs))
    then Some (firstn (Z.to_nat n) bs) else None in
  match p with
  | NULL => None
  | StrPtr s => within (list_ascii_of_string s ++ [NUL])
  | IpAddrsPtr i => within (ip_row cg i)
  | HostnamePtr => within (list_ascii_of_string (hostname cg) ++ [NUL])
  | BufPtr bs => within bs
  end.

(** The string read at a pointer; [None] when no NUL ends it in the object. *)
Definition read_string (cg : cups_globals) (p : char_ptr) : option string :=
  let terminated (bs : list byte) :=
    if existsb is_nul bs then Some (cstr (string_of_list_ascii bs)) else None in
  match p with
  | NULL => None
  | StrPtr s => Some (cstr s)
  | IpAddrsPtr i => terminated (ip_row cg i)
  | HostnamePtr => Some (cstr (hostname cg))
  | BufPtr bs => terminated bs
  end.

(** [host->h_addr_list[n]] *)
Definition h_addr_list_nth (cg : cups_globals) (host : struct_hostent) (n : nat) : char_ptr :=
  match h_addr_list host with
  | IpPtrs => nth n (ip_ptrs cg) NULL
  | AddrList l => nth n l NULL
  end.

(** [*p] for a host entry pointer. *)
Definition deref (cg : cups_globals) (p : hostent_ptr) : option struct_hostent :=
  match p with
  | HostNULL => None
  | CgHostent => Some (hostent cg)
  | LibcHostent h => Some h
  end.

Definition IN6_IS_ADDR_UNSPECIFIED (a : list byte) : bool :=
  forallb (fun i => byte_at a i =? 0) (seq 0 16).

Definition IN6_IS_ADDR_LOOPBACK (a : list byte) : bool :=
  forallb (fun i => byte_at a i =? 0) (seq 0 15) && (byte_at a 15 =? 1).

(** Field assignments. *)
Definition set_hostent (h : struct_hostent) (cg : cups_globals) : cups_globals :=
  {| hostent := h; ip_ptrs := ip_ptrs cg; ip_addrs := ip_addrs cg;
     hostname := hostname cg |}.

Definition set_ip_ptr (i : nat) (p : char_ptr) (cg : cups_globals) : cups_globals :=
  {| hostent := hostent cg; ip_ptrs := set_nth NULL i p (ip_ptrs cg);
     ip_addrs := ip_addrs cg; hostname := hostname cg |}.

Definition set_ip_row (i : nat) (row : list byte) (cg : cups_globals) : cups_globals :=
  {| hostent := hostent cg; ip_ptrs := ip_ptrs cg;
     ip_addrs := set_nth [] i row (ip_addrs cg); hostname := hostname cg |}.

Definition set_hostname (s : string) (cg : cups_globals) : cups_globals :=
  {| hostent := hostent cg; ip_ptrs := ip_ptrs cg; ip_addrs := ip_addrs cg;
     hostname := s |}.

(** A member of [http_addr_t] after [written] has been written from the
    start of [un.sun_path]: the bytes of [written] that fall on the member,
    the [n] bytes from offset [off] of the path, replace the member's. *)
Definition under_path (off n : nat) (member written : list byte) : list byte :=
  memcpy member (firstn n (skipn off written)).

(** The same for the port, a 16-bit value at the start of the path. *)
Definition port_under_path (o : endianness) (port : Z) (written : list byte) : Z :=
  match written with
  | [] => port
  | _ => load16 o (under_path 0 2 (store16 o port) written)
  end.

Section Routines.

Variable P : platform.

Definition ULONG_MAX : Z :=
  match long_size P with
  | Long32 => 4294967295
  | Long64 => 18446744073709551615
  end.

(** [addr->ipv4.sin_addr.s_addr] and [addr->ipv6.sin6_addr.s6_addr32[i]] *)
Definition s_addr (addr : http_addr_t) : Z :=
  load32 (host_order P) (sin_addr addr).

Definition s6_addr32 (addr : http_addr_t) (i : nat) : Z :=
  load32 (host_order P) (skipn (4 * i) (sin6_addr addr)).

(** [cg->ip_addrs[r][i] = w] *)
Definition set_ip_word (r i : nat) (w : Z) (cg : cups_globals) : cups_globals :=
  set_ip_row r (write_at (4 * i) (nth r (ip_addrs cg) []) (store32 (host_order P) w)) cg.

(** *** httpAddrAny *)

Definition httpAddrAny (addr : http_addr_t) : Z :=
  if (sa_family addr =? AF_INET6) && IN6_IS_ADDR_UNSPECIFIED (sin6_addr addr) then 1
  else if (sa_family addr =? AF_INET) && (ntohl (host_order P) (s_addr addr) =? 0) then 1
  else 0.

(** *** httpAddrEqual *)

Definition httpAddrEqual (addr1 addr2 : http_addr_t) : Z :=
  if negb (sa_family addr1 =? sa_family addr2) then 0
  else if sa_family addr1 =? AF_LOCAL then
    (if strcmp (sun_path addr1) (sun_path addr2) =? 0 then 1 else 0)
  else if sa_family addr1 =? AF_INET6 then
    (if memcmp (sin6_addr addr1) (sin6_addr addr2) 16 =? 0 then 1 else 0)
  else
    (if s_addr addr1 =? s_addr addr2 then 1 else 0).

(** *** httpAddrLoad

    The result is the address after the call; [None] when the entry's address
    cannot be read ([h_addr_list[n]] is NULL or shorter than [h_length]).
    For a Unix domain entry the path is copied to [un.sun_path], over the
    port and the addresses of the other members. *)

Definition httpAddrLoad (cg : cups_globals) (host : struct_hostent) (port : Z)
    (n : nat) (addr : http_addr_t) : option http_addr_t :=
  if h_addrtype host =? AF_INET6 then
    match read_bytes cg (h_addr_list_nth cg host n) (h_length host) with
    | Some src =>
        Some {| sa_family := AF_INET6;
                sin_port := htons (host_order P) port;
                sin_addr := sin_addr addr;
                sin6_addr := memcpy (sin6_addr addr) src;
                sun_path := sun_path addr |}
    | None => None
    end
  else if h_addrtype host =? AF_LOCAL then
    match read_string cg (h_addr_list_nth cg host n) with
    | Some src =>
        let written := strlcpy_written src (sun_path_size P) in
        Some {| sa_family := AF_LOCAL;
                sin_port := port_under_path (host_order P) (sin_port addr) written;
                sin_addr := under_path 2 4 (sin_addr addr) written;
                sin6_addr := under_path 6 16 (sin6_addr addr) written;
                sun_path := strlcpy (sun_path addr) src (sun_path_size P) |}
    | None => None
    end
  else if h_addrtype host =? AF_INET then
    match read_bytes cg (h_addr_list_nth cg host n) (h_length host) with
    | Some src =>
        Some {| sa_family := AF_INET;
                sin_port := htons (host_order P) port;
                sin_addr := memcpy (sin_addr addr) src;
                sin6_addr := sin6_addr addr;
                sun_path := sun_path addr |}
    | None => None
    end
  else Some addr.

(** *** httpAddrLocalhost *)

Definition httpAddrLocalhost (addr : http_addr_t) : Z :=
  if (sa_family addr =? AF_INET6) &&
     (IN6_IS_ADDR_LOOPBACK (sin6_addr addr) || IN6_IS_ADDR_UNSPECIFIED (sin6_addr addr))
  then 1
  else if sa_family addr =? AF_LOCAL then 1
  else if (sa_family addr =? AF_INET) &&
          (ntohl (host_order P) (s_addr addr) =? 2130706433)   (* 0x7f000001 *)
  then 1
  else 0.

(** *** httpAddrString

    [s] is what the buffer holds before the call, the result is what it
    holds after it. *)

Definition httpAddrString (addr : http_addr_t) (s : string) (slen : nat) : string :=
  if sa_family addr =? AF_INET6 then
    snprintf s slen
      ("[" ++ fmt_x (ntohl (host_order P) (s6_addr32 addr 0)) ++
       ":" ++ fmt_x (ntohl (host_order P) (s6_addr32 addr 1)) ++
       ":" ++ fmt_x (ntohl (host_order P) (s6_addr32 addr 2)) ++
       ":" ++ fmt_x (ntohl (host_order P) (s6_addr32 addr 3)) ++ "]")%string
  else if sa_family addr =? AF_LOCAL then
    strlcpy s (sun_path addr) slen
  else if sa_family addr =? AF_INET then
    let temp := ntohl (host_order P) (s_addr addr) in
    snprintf s slen
      (fmt_d (Z.land (Z.shiftr temp 24) 255) ++
       "." ++ fmt_d (Z.land (Z.shiftr temp 16) 255) ++
       "." ++ fmt_d (Z.land (Z.shiftr temp 8) 255) ++
       "." ++ fmt_d (Z.land temp 255))%string
  else
    strlcpy s "UNKNOWN" slen.

(** *** httpAddrLookup

    The result is the pointer returned ([None] for NULL, [Some name] for the
    buffer, with what it holds) and what the buffer [name] holds after the
    call. *)

Definition httpAddrLookup (addr : http_addr_t) (name : string) (namelen : nat)
    : option string * string :=
  let finish (host : option string) :=
    match host with
    | None => (None, httpAddrString addr name namelen)
    | Some hname =>
        let name := strlcpy name hname namelen in
        (Some name, name)
    end in
  if sa_family addr =? AF_INET6 then
    finish (gethostbyaddr P (firstn 16 (sin6_addr addr)) 16 AF_INET6)
  else if sa_family addr =? AF_LOCAL then
    let name := strlcpy name (sun_path addr) namelen in
    (Some name, name)
  else if sa_family addr =? AF_INET then
    finish (gethostbyaddr P (firstn 4 (sin_addr addr)) 4 AF_INET)
  else
    finish None.

(** *** httpGetHostByName *)

(** The loop over the groups of a bracket literal; [k] counts the iterations
    that are left, [4 - i]. *)
Fixpoint ipv6_loop (k i : nat) (nameptr : string) (cg : cups_globals)
    : nat * string * cups_globals :=
  match k with
  | O => (i, nameptr, cg)
  | S k' =>
      if is_nul (peek nameptr) then (i, nameptr, cg)
      else if Ascii.eqb (peek nameptr) "]" then (i, nameptr, cg)
      else
        let '(nameptr, cg) :=
          if Ascii.eqb (peek nameptr) ":" then (nameptr, set_ip_word 0 i 0 cg)
          else
            let '(v, endptr) := strtoul16 ULONG_MAX nameptr in
            (endptr, set_ip_word 0 i (htonl (host_order P) (u32 v)) cg) in
        let nameptr :=
          if Ascii.eqb (peek nameptr) ":" || Ascii.eqb (peek nameptr) "]"
          then advance nameptr else nameptr in
        ipv6_loop k' (S i) nameptr cg
  end.

(** [while (i < 4) { cg->ip_addrs[0][i] = 0; i ++; }] *)
Fixpoint zero_fill (k i : nat) (cg : cups_globals) : cups_globals :=
  match k with
  | O => cg
  | S k' => zero_fill k' (S i) (set_ip_word 0 i 0 cg)
  end.

(** [for (nameptr = name; isdigit( *nameptr & 255) || *nameptr == '.'; nameptr ++);] *)
Fixpoint skip_digits_dots (nameptr : string) : string :=
  match nameptr with
  | String c s' =>
      if isdigit (Z.land (Z_of_byte c) 255) || Ascii.eqb c "."
      then skip_digits_dots s' else nameptr
  | EmptyString => nameptr
  end.

(** The first entry of a family. *)
Fixpoint find_family (family : Z) (results : list addrinfo) : option addrinfo :=
  match results with
  | [] => None
  | current :: next =>
      if ai_family current =? family then Some current else find_family family next
  end.

(** The loop that copies the addresses of the chosen family. *)
Fixpoint copy_addrs (results : list addrinfo) (i : nat) (cg : cups_globals)
    : nat * cups_globals :=
  match results with
  | [] => (i, cg)
  | current :: next =>
      if (i <? CUPS_MAX_ADDRS P)%nat then
        if ai_family current =? h_addrtype (hostent cg) then
          let address := ai_addr current in
          let row := nth i (ip_addrs cg) [] in
          let cg :=
            if ai_family current =? AF_INET
            then set_ip_row i (memcpy row (firstn 4 (pad_to 4 (sin_addr address)))) cg
            else set_ip_row i (memcpy row (firstn 16 (pad_to 16 (sin6_addr address)))) cg in
          copy_addrs next (S i) (set_ip_ptr i (IpAddrsPtr i) cg)
        else copy_addrs next i cg
      else (i, cg)
  end.

Definition libc_hostent (r : option struct_hostent) : hostent_ptr :=
  match r with
  | Some h => LibcHostent h
  | None => HostNULL
  end.

(** The call: [Some] of the pointer returned and the globals after the
    call, or [None] when the call does not return because it reads through
    a NULL pointer.  That is the case in the [getaddrinfo] branch, where
    [current->ai_canonname] is given to [strlcpy] without a test, when the
    entry chosen has no canonical name; nothing has been written to the
    globals then. *)
Definition httpGetHostByName_run (cg : cups_globals) (name : string)
    : option (hostent_ptr * cups_globals) :=
  let name := if strcmp name "localhost" =? 0 then "127.0.0.1" else name in
  if Ascii.eqb (peek name) "/" then
    let cg := set_hostent {| h_name := StrPtr name;
                             h_aliases := None;
                             h_addrtype := AF_LOCAL;
                             h_length := strlen name + 1;
                             h_addr_list := IpPtrs |} cg in
    let cg := set_ip_ptr 0 (StrPtr name) cg in
    let cg := set_ip_ptr 1 NULL cg in
    Some (CgHostent, cg)
  else if Ascii.eqb (peek name) "[" then
    let cg := set_hostent {| h_name := StrPtr name;
                             h_aliases := None;
                             h_addrtype := AF_INET6;
                             h_length := 16;
                             h_addr_list := IpPtrs |} cg in
    let cg := set_ip_ptr 0 (IpAddrsPtr 0) cg in
    let cg := set_ip_ptr 1 NULL cg in
    let '(i, nameptr, cg) := ipv6_loop 4 0 (advance name) cg in
    let cg := zero_fill (4 - i) i cg in
    if negb (is_nul (peek nameptr)) then Some (HostNULL, cg)
    else Some (CgHostent, cg)
  else
    let nameptr := skip_digits_dots name in
    if is_nul (peek nameptr) then
      let '(count, ip) := sscanf ULONG_MAX name fmt_dotted_quad in
      if negb (count =? 4) then Some (HostNULL, cg)
      else
        let ip0 := nth 0 ip 0 in
        let ip1 := nth 1 ip 0 in
        let ip2 := nth 2 ip 0 in
        let ip3 := nth 3 ip 0 in
        if (255 <? ip0) || (255 <? ip1) || (255 <? ip2) || (255 <? ip3)
        then Some (HostNULL, cg)
        else
          let cg :=
            set_ip_word 0 0
              (htonl (host_order P)
                 (Z.lor (u32 (Z.shiftl
                    (Z.lor (u32 (Z.shiftl
                       (Z.lor (u32 (Z.shiftl ip0 8)) ip1) 8)) ip2) 8)) ip3)) cg in
          let cg := set_hostent {| h_name := StrPtr name;
                                   h_aliases := None;
                                   h_addrtype := AF_INET;
                                   h_length := 4;
                                   h_addr_list := IpPtrs |} cg in
          let cg := set_ip_ptr 0 (IpAddrsPtr 0) cg in
          let cg := set_ip_ptr 1 NULL cg in
          Some (CgHostent, cg)
    else
      match getaddrinfo P name with
      | None => Some (libc_hostent (gethostbyname P name), cg)
      | Some results =>
          let current :=
            match find_family AF_INET6 results with
            | Some c => Some c
            | None => find_family AF_INET results
            end in
          match current with
          | None => Some (libc_hostent (gethostbyname P name), cg)
          | Some current =>
              match ai_canonname current with
              | None => None
              | Some canonname =>
                  let cg := set_hostname
                              (strlcpy (hostname cg) canonname (hostname_size P)) cg in
                  let cg := set_hostent {| h_name := HostnamePtr;
                                           h_aliases := None;
                                           h_addrtype := ai_family current;
                                           h_length := if ai_family current =? AF_INET6
                                                       then 16 else 4;
                                           h_addr_list := IpPtrs |} cg in
                  let '(i, cg) := copy_addrs results 0 cg in
                  let cg := set_ip_ptr i NULL cg in
                  Some (CgHostent, cg)
              end
          end
      end.

(** The pointer returned and the globals after the call, for the calls that
    return.  For a call that does not, the pair is NULL and the globals as
    they were; it stands for no result of the code. *)
Definition httpGetHostByName (cg : cups_globals) (name : string)
    : hostent_ptr * cups_globals :=
  match httpGetHostByName_run cg name with
  | Some r => r
  | None => (HostNULL, cg)
  end.

End Routines.

(** A 64-bit little-endian Linux host whose resolver knows no name. *)
Definition linux_x86_64 : platform :=
  {| host_order := LittleEndian;
     long_size := Long64;
     sun_path_size := 108;
     hostname_size := 1024;
     CUPS_MAX_ADDRS := 100;
     gethostbyname := fun _ => None;
     getaddrinfo := fun _ => None;
     gethostbyaddr := fun _ _ _ => None |}.

Definition empty_hostent : struct_hostent :=
  {| h_name := NULL; h_aliases := None; h_addrtype := 0; h_length := 0;
     h_addr_list := IpPtrs |}.

(** The globals before any call (the structure is allocated zeroed). *)
Definition cg0 : cups_globals :=
  {| hostent := empty_hostent; ip_ptrs := []; ip_addrs := []; hostname := "" |}.

(** An address with every byte zero. *)
Definition addr0 : http_addr_t :=
  {| sa_family := 0; sin_port := 0; sin_addr := repeat NUL 4;
     sin6_addr := repeat NUL 16; sun_path := "" |}.

(** ** The specification's vocabulary *)

(** The same address with another port. *)
Definition with_port (port : Z) (a : http_addr_t) : http_addr_t :=
  {| sa_family := sa_family a; sin_port := port; sin_addr := sin_addr a;
     sin6_addr := sin6_addr a; sun_path := sun_path a |}.

(** An IPv4 address from its four bytes in network order. *)
Definition ipv4_addr (port : Z) (b0 b1 b2 b3 : Z) : http_addr_t :=
  {| sa_family := AF_INET; sin_port := port;
     sin_addr := [byte_of_Z b0; byte_of_Z b1; byte_of_Z b2; byte_of_Z b3];
     sin6_addr := []; sun_path := "" |}.

(** The first [n] bytes of two buffers agree. *)
Definition same_bytes (n : nat) (a b : list byte) : Prop :=
  forall i, (i < n)%nat -> nth i a NUL = nth i b NUL.

(** Equality as the specification words it: the families agree and, by
    family, the path strings, the 16 address bytes or the 4 address bytes. *)
Definition same_address (a b : http_addr_t) : Prop :=
  sa_family a = sa_family b /\
  if sa_family a =? AF_LOCAL then cstr (sun_path a) = cstr (sun_path b)
  else if sa_family a =? AF_INET6 then same_bytes 16 (sin6_addr a) (sin6_addr b)
  else same_bytes 4 (sin_addr a) (sin_addr b).

(** The IPv6 addresses [::] and [::1]. *)
Definition is_unspecified6 (a : list byte) : Prop :=
  forall i, (i < 16)%nat -> byte_at a i = 0.

Definition is_loopback6 (a : list byte) : Prop :=
  (forall i, (i < 15)%nat -> byte_at a i = 0) /\ byte_at a 15 = 1.

(** The local addresses as the specification words them. *)
Definition is_local (a : http_addr_t) : Prop :=
  (sa_family a = AF_INET6 /\ (is_loopback6 (sin6_addr a) \/ is_unspecified6 (sin6_addr a))) \/
  sa_family a = AF_LOCAL \/
  (sa_family a = AF_INET /\
   List.map (byte_at (sin_addr a)) [0; 1; 2; 3]%nat = [127; 0; 0; 1]).

(** The 32-bit group [i] of a buffer, most significant byte first. *)
Definition group32 (bs : list byte) (i : nat) : Z :=
  be_value32 (skipn (4 * i) bs).

(** A decimal number as a text: one digit or more, and its value. *)
Fixpoint all_digits (s : string) : bool :=
  match s with
  | EmptyString => true
  | String c s' => isdigit (Z_of_byte c) && all_digits s'
  end.

Definition is_number (s : string) : bool :=
  match s with
  | EmptyString => false
  | _ => all_digits s
  end.

Definition dec_value (s : string) : Z := fst (scan_digits 0 s).

(** Four components with dots between them. *)
Definition dotted (s0 s1 s2 s3 : string) : string :=
  (s0 ++ "." ++ s1 ++ "." ++ s2 ++ "." ++ s3)%string.

(** The text "a.b.c.d", each octet in decimal without leading zeros. *)
Definition quad_text (a b c d : Z) : string :=
  dotted (fmt_d a) (fmt_d b) (fmt_d c) (fmt_d d).

(** The text of an address as the specification words it. *)
Definition addr_text (a : http_addr_t) : string :=
  if sa_family a =? AF_INET6 then
    ("[" ++ fmt_x (group32 (sin6_addr a) 0) ++ ":" ++ fmt_x (group32 (sin6_addr a) 1) ++
     ":" ++ fmt_x (group32 (sin6_addr a) 2) ++ ":" ++ fmt_x (group32 (sin6_addr a) 3) ++
     "]")%string
  else if sa_family a =? AF_LOCAL then cstr (sun_path a)
  else if sa_family a =? AF_INET then
    quad_text (byte_at (sin_addr a) 0) (byte_at (sin_addr a) 1)
              (byte_at (sin_addr a) 2) (byte_at (sin_addr a) 3)
  else "UNKNOWN".

(** Numbers as texts, by the printers of the Standard Library: the decimal
    digits and the hexadecimal digits (0-9, then a-f in lower case) of a
    number that is not negative, most significant digit first, without
    leading zeros; the text of 0 is one digit 0. *)
Definition decimal (n : Z) : string :=
  DecimalString.NilZero.string_of_uint (N.to_uint (Z.to_N n)).

Definition hexadecimal (n : Z) : string :=
  HexadecimalString.NilZero.string_of_uint (N.to_hex_uint (Z.to_N n)).

(** The text of an address, following the specification's words and not the
    formatter: for IPv4 the four bytes of the address in decimal with dots
    between them; for IPv6 the four 32-bit groups of the address in
    hexadecimal with colons between them, in brackets; for a Unix domain
    address the path; UNKNOWN for any other family. *)
Definition address_text (a : http_addr_t) : string :=
  if sa_family a =? AF_INET then
    (decimal (byte_at (sin_addr a) 0) ++ "." ++ decimal (byte_at (sin_addr a) 1) ++ "." ++
     decimal (byte_at (sin_addr a) 2) ++ "." ++ decimal (byte_at (sin_addr a) 3))%string
  else if sa_family a =? AF_INET6 then
    ("[" ++ hexadecimal (group32 (sin6_addr a) 0) ++ ":" ++
     hexadecimal (group32 (sin6_addr a) 1) ++ ":" ++
     hexadecimal (group32 (sin6_addr a) 2) ++ ":" ++
     hexadecimal (group32 (sin6_addr a) 3) ++ "]")%string
  else if sa_family a =? AF_LOCAL then cstr (sun_path a)
  else "UNKNOWN".

(** An IPv6 address from its four 32-bit groups, and a Unix domain address
    from its path. *)
Definition ipv6_addr (port : Z) (g0 g1 g2 g3 : Z) : http_addr_t :=
  {| sa_family := AF_INET6; sin_port := port; sin_addr := [];
     sin6_addr := be_bytes32 g0 ++ be_bytes32 g1 ++ be_bytes32 g2 ++ be_bytes32 g3;
     sun_path := "" |}.

Definition unix_addr (path : string) : http_addr_t :=
  {| sa_family := AF_LOCAL; sin_port := 0; sin_addr := []; sin6_addr := [];
     sun_path := path |}.

(** The bytes of the first address of a resolution result, as a caller reads
    them through the pointer returned. *)
Definition first_address (r : hostent_ptr * cups_globals) : option (list byte) :=
  match deref (snd r) (fst r) with
  | Some h => read_bytes (snd r) (h_addr_list_nth (snd r) h 0) (h_length h)
  | None => None
  end.

(** The address family of a resolution result. *)
Definition result_family (r : hostent_ptr * cups_globals) : option Z :=
  match deref (snd r) (fst r) with
  | Some h => Some (h_addrtype h)
  | None => None
  end.

(** Resolution, then [httpAddrLoad] of the first address into [addr]. *)
Definition resolve_and_load (P : platform) (cg : cups_globals) (name : string)
    (port : Z) (addr : http_addr_t) : option http_addr_t :=
  let r := httpGetHostByName P cg name in
  match deref (snd r) (fst r) with
  | Some h => httpAddrLoad P (snd r) h port 0 addr
  | None => None
  end.

(** Resolution, [httpAddrLoad], then [httpAddrString] into a buffer of
    [slen] bytes. *)
Definition resolve_to_string (P : platform) (cg : cups_globals) (name : string)
    (port : Z) (addr : http_addr_t) (s : string) (slen : nat) : option string :=
  match resolve_and_load P cg name port addr with
  | Some a => Some (httpAddrString P a s slen)
  | None => None
  end.

(** The reverse lookup that [httpAddrLookup] asks of the resolver. *)
Definition reverse_lookup (P : platform) (a : http_addr_t) : option string :=
  if sa_family a =? AF_INET6 then gethostbyaddr P (firstn 16 (sin6_addr a)) 16 AF_INET6
  else if sa_family a =? AF_INET then gethostbyaddr P (firstn 4 (sin_addr a)) 4 AF_INET
  else None.

(** The globals after the dotted quad [name], of octets [a], [b], [c] and
    [d], has been resolved. *)
Definition cg_after_quad (P : platform) (cg : cups_globals) (name : string)
    (a b c d : Z) : cups_globals :=
  set_ip_ptr 1 NULL
    (set_ip_ptr 0 (IpAddrsPtr 0)
       (set_hostent {| h_name := StrPtr name; h_aliases := None; h_addrtype := AF_INET;
                       h_length := 4; h_addr_list := IpPtrs |}
          (set_ip_word P 0 0
             (htonl (host_order P) (a * 16777216 + b * 65536 + c * 256 + d)) cg))).

(** Four 32-bit groups as 16 bytes in network order. *)
Definition groups_bytes (g0 g1 g2 g3 : Z) : list byte :=
  be_bytes32 g0 ++ be_bytes32 g1 ++ be_bytes32 g2 ++ be_bytes32 g3.

(** The bytes of a dotted quad in network order. *)
Definition quad_bytes (a b c d : Z) : list byte :=
  [byte_of_Z a; byte_of_Z b; byte_of_Z c; byte_of_Z d].

(** A hexadecimal number as a text: one digit or more, and its value. *)
Fixpoint all_xdigits (s : string) : bool :=
  match s with
  | EmptyString => true
  | String c s' =>
      match xdigit_val (Z_of_byte c) with
      | Some _ => all_xdigits s'
      | None => false
      end
  end.

Definition is_hex_number (s : string) : bool :=
  match s with
  | EmptyString => false
  | _ => all_xdigits s
  end.

Definition hex_value (s : string) : Z := fst (scan_xdigits 0 s).

(** Four groups between brackets, with colons between them, and the text
    [rest] after the closing bracket. *)
Definition bracketed (x0 x1 x2 x3 rest : string) : string :=
  ("[" ++ x0 ++ ":" ++ x1 ++ ":" ++ x2 ++ ":" ++ x3 ++ "]" ++ rest)%string.

(** The globals after the bracket literal [name], of four groups of values
    [g0], [g1], [g2] and [g3], has been read. *)
Definition cg_after_bracket (P : platform) (cg : cups_globals) (name : string)
    (g0 g1 g2 g3 : Z) : cups_globals :=
  set_ip_word P 0 3 (htonl (host_order P) (u32 g3))
    (set_ip_word P 0 2 (htonl (host_order P) (u32 g2))
       (set_ip_word P 0 1 (htonl (host_order P) (u32 g1))
          (set_ip_word P 0 0 (htonl (host_order P) (u32 g0))
             (set_ip_ptr 1 NULL
                (set_ip_ptr 0 (IpAddrsPtr 0)
                   (set_hostent {| h_name := StrPtr name; h_aliases := None;
                                   h_addrtype := AF_INET6; h_length := 16;
                                   h_addr_list := IpPtrs |} cg)))))).

(** ** The rest of the file: httpAddrLength and httpGetHostname *)

(** The sizes that [httpAddrLength] returns ([sizeof] of the members of
    [http_addr_t], from the system headers). *)
Record struct_sizes := {
  sizeof_ipv6 : Z;          (* sizeof(addr->ipv6) *)
  sizeof_ipv4 : Z;          (* sizeof(addr->ipv4) *)
  sizeof_sun_family : Z     (* sizeof(addr->un.sun_family) *)
}.

Definition linux_sizes : struct_sizes :=
  {| sizeof_ipv6 := 28; sizeof_ipv4 := 16; sizeof_sun_family := 2 |}.

Definition httpAddrLength (S : struct_sizes) (addr : http_addr_t) : Z :=
  if sa_family addr =? AF_INET6 then sizeof_ipv6 S
  else if sa_family addr =? AF_LOCAL then sizeof_sun_family S + strlen (sun_path addr)
  else if sa_family addr =? AF_INET then sizeof_ipv4 S
  else 0.

(** [strchr(s, c) != NULL] for a character [c] that is not NUL. *)
Fixpoint strchr (s : string) (c : byte) : bool :=
  match s with
  | EmptyString => false
  | String c' s' =>
      if is_nul c' then false
      else if Ascii.eqb c' c then true
      else strchr s' c
  end.

(** [httpGetHostname]: [gethostname] gives what the buffer holds after
    [gethostname(s, slen)]; the globals are the memory in which the name of
    the entry that [gethostbyname] returns is read ([None] when it cannot
    be read).  The result is what the buffer holds at the end. *)
Definition httpGetHostname (P : platform) (gethostname : string -> nat -> string)
    (cg : cups_globals) (s : string) (slen : nat) : option string :=
  let s := gethostname s slen in
  if negb (strchr s "."%char) then
    match gethostbyname P s with
    | Some host =>
        match read_string cg (h_name host) with
        | Some hname => Some (strlcpy s hname slen)
        | None => None
        end
    | None => Some s
    end
  else Some s.

(** ** More of the specification's vocabulary *)

(** The IPv4 address 0.0.0.0 or the IPv6 address [::]. *)
Definition is_any (a : http_addr_t) : Prop :=
  (sa_family a = AF_INET6 /\ is_unspecified6 (sin6_addr a)) \/
  (sa_family a = AF_INET /\
   List.map (byte_at (sin_addr a)) [0; 1; 2; 3]%nat = [0; 0; 0; 0]).

(** The first [n] bytes of a buffer, with zeros where it is shorter. *)
Definition bytes_upto (n : nat) (bs : list byte) : list byte :=
  firstn n (pad_to n bs).


(** A name that [httpGetHostByName] hands to the resolver: it is not
    localhost, starts with neither a slash nor a bracket, and has a
    character that is neither a digit nor a dot. *)
Definition needs_lookup (name : string) : bool :=
  negb (strcmp name "localhost" =? 0) &&
  negb (Ascii.eqb (peek name) "/") &&
  negb (Ascii.eqb (peek name) "[") &&
  negb (is_nul (peek (skip_digits_dots name))).

(** The entries of a family, in the order of the list. *)
Definition of_family (family : Z) (results : list addrinfo) : list addrinfo :=
  filter (fun c => ai_family c =? family) results.

(** The address bytes of an entry as [httpGetHostByName] copies them. *)
Definition ai_bytes (c : addrinfo) : list byte :=
  if ai_family c =? AF_INET then bytes_upto 4 (sin_addr (ai_addr c))
  else bytes_upto 16 (sin6_addr (ai_addr c)).

(** The family that [httpGetHostByName] picks in a list of entries. *)
Definition preferred_family (results : list addrinfo) : option Z :=
  if existsb (fun c => ai_family c =? AF_INET6) results then Some AF_INET6
  else if existsb (fun c => ai_family c =? AF_INET) results then Some AF_INET
  else None.

(** The groups of a bracket literal: every group but the last is followed
    by a colon, the last by the closing bracket. *)
Fixpoint join_groups (gs : list string) : string :=
  match gs with
  | [] => "]"
  | [x] => (x ++ "]")%string
  | x :: rest => (x ++ ":" ++ join_groups rest)%string
  end.

Definition bracket_literal (gs : list string) : string :=
  String "[" (join_groups gs).

(** A group is empty or a hexadecimal number that fits 32 bits; the value
    of the empty group is 0. *)
Definition is_group (x : string) : bool :=
  match x with
  | EmptyString => true
  | _ => all_xdigits x && (hex_value x <=? 4294967295)
  end.

Definition group_value (gs : list string) (i : nat) : Z :=
  hex_value (nth i gs "").

(** Numbers with dots between them. *)
Fixpoint join_dots (ns : list string) : string :=
  match ns with
  | [] => ""
  | [x] => x
  | x :: rest => (x ++ "." ++ join_dots rest)%string
  end.

Definition is_small_number (s : string) : bool :=
  is_number s && (dec_value s <=? 4294967295).

(** ** A resolver that knows two hosts *)

(** The entries of the host "printer": an IPv6 address with the canonical
    name, then an IPv4 address and a second IPv6 address without one. *)
Definition lan_entries : list addrinfo :=
  [ {| ai_family := AF_INET6; ai_canonname := Some "printer.example.com";
       ai_addr := ipv6_addr 0 4269801472 0 0 1 |};
    {| ai_family := AF_INET; ai_canonname := None;
       ai_addr := ipv4_addr 0 192 0 2 20 |};
    {| ai_family := AF_INET6; ai_canonname := None;
       ai_addr := ipv6_addr 0 536939960 0 0 20 |} ].

(** The entries of the host "scanner": an IPv4 address with the canonical
    name, then an IPv6 address without one. *)
Definition scanner_entries : list addrinfo :=
  [ {| ai_family := AF_INET; ai_canonname := Some "scanner.example.com";
       ai_addr := ipv4_addr 0 192 0 2 30 |};
    {| ai_family := AF_INET6; ai_canonname := None;
       ai_addr := ipv6_addr 0 4269801472 0 0 2 |} ].

Definition lan_resolver : platform :=
  {| host_order := LittleEndian;
     long_size := Long64;
     sun_path_size := 108;
     hostname_size := 1024;
     CUPS_MAX_ADDRS := 100;
     gethostbyname := fun name =>
       if String.eqb name "printer" then
         Some {| h_name := StrPtr "printer.example.com"; h_aliases := None;
                 h_addrtype := AF_INET; h_length := 4;
                 h_addr_list := AddrList [BufPtr (List.map byte_of_Z [192; 0; 2; 20]); NULL] |}
       else None;
     getaddrinfo := fun name =>
       if String.eqb name "printer" then Some lan_entries
       else if String.eqb name "scanner" then Some scanner_entries
       else None;
     gethostbyaddr := fun _ _ _ => None |}.

(** * Properties *)

(** ** Facts on bytes and byte order *)

Lemma byte_of_Z_of_byte (b : byte) : byte_of_Z (Z_of_byte b) = b.
Proof.
  unfold byte_of_Z, Z_of_byte.
  assert (H : (N_of_ascii b < 256)%N) by apply N_ascii_bounded.
  rewrite Z.mod_small by lia.
  rewrite N2Z.id. apply ascii_N_embedding.
Qed.

Lemma Z_of_byte_of_Z (z : Z) : Z_of_byte (byte_of_Z z) = z mod 256.
Proof.
  unfold byte_of_Z, Z_of_byte.
  assert (H : 0 <= z mod 256 < 256) by (apply Z.mod_pos_bound; lia).
  rewrite N_ascii_embedding by lia.
  rewrite Z2N.id; lia.
Qed.

Lemma Z_of_byte_range (b : byte) : 0 <= Z_of_byte b < 256.
Proof.
  unfold Z_of_byte. pose proof (N_ascii_bounded b). lia.
Qed.

Lemma be_value32_range (bs : list byte) : 0 <= be_value32 bs < 4294967296.
Proof.
  unfold be_value32, byte_at.
  pose proof (Z_of_byte_range (nth 0 bs NUL)).
  pose proof (Z_of_byte_range (nth 1 bs NUL)).
  pose proof (Z_of_byte_range (nth 2 bs NUL)).
  pose proof (Z_of_byte_range (nth 3 bs NUL)).
  lia.
Qed.

Lemma be_value32_bytes (x : Z) : be_value32 (be_bytes32 x) = u32 x.
Proof.
  unfold be_value32, be_bytes32, byte_at, u32; simpl nth.
  rewrite !Z_of_byte_of_Z, !Z.shiftr_div_pow2 by lia.
  change (2 ^ 24) with 16777216; change (2 ^ 16) with 65536; change (2 ^ 8) with 256.
  Z.div_mod_to_equations. lia.
Qed.

Lemma be_bytes32_value (b0 b1 b2 b3 : byte) :
  be_bytes32 (be_value32 [b0; b1; b2; b3]) = [b0; b1; b2; b3].
Proof.
  unfold be_value32, be_bytes32, byte_at; simpl nth.
  pose proof (Z_of_byte_range b0); pose proof (Z_of_byte_range b1).
  pose proof (Z_of_byte_range b2); pose proof (Z_of_byte_range b3).
  rewrite !Z.shiftr_div_pow2 by lia.
  change (2 ^ 24) with 16777216; change (2 ^ 16) with 65536; change (2 ^ 8) with 256.
  set (v := Z_of_byte b0 * 16777216 + Z_of_byte b1 * 65536 + Z_of_byte b2 * 256 + Z_of_byte b3).
  assert (E0 : (v / 16777216) mod 256 = Z_of_byte b0) by (subst v; Z.div_mod_to_equations; lia).
  assert (E1 : (v / 65536) mod 256 = Z_of_byte b1) by (subst v; Z.div_mod_to_equations; lia).
  assert (E2 : (v / 256) mod 256 = Z_of_byte b2) by (subst v; Z.div_mod_to_equations; lia).
  assert (E3 : v mod 256 = Z_of_byte b3) by (subst v; Z.div_mod_to_equations; lia).
  unfold byte_of_Z. rewrite E0, E1, E2, E3.
  unfold Z_of_byte. now rewrite !N2Z.id, !ascii_N_embedding.
Qed.

Lemma be_bytes32_length (x : Z) : List.length (be_bytes32 x) = 4%nat.
Proof. reflexivity. Qed.

(** Whatever the host's byte order, the bytes that [htonl x] leaves in memory
    are [x] most significant byte first. *)
Lemma store32_htonl (o : endianness) (x : Z) : store32 o (htonl o x) = be_bytes32 x.
Proof.
  unfold htonl, load32, store32.
  change (be_bytes32 x)
    with [byte_of_Z (Z.shiftr x 24); byte_of_Z (Z.shiftr x 16);
          byte_of_Z (Z.shiftr x 8); byte_of_Z x].
  destruct o; cbn [nth rev app]; now rewrite be_bytes32_value.
Qed.

(** Whatever the host's byte order, [ntohl] of a word loaded from memory is
    the big-endian value of its four bytes. *)
Lemma ntohl_load32 (o : endianness) (bs : list byte) :
  ntohl o (load32 o bs) =
  be_value32 [nth 0 bs NUL; nth 1 bs NUL; nth 2 bs NUL; nth 3 bs NUL].
Proof.
  unfold ntohl, load32, store32. destruct o; rewrite be_bytes32_value; reflexivity.
Qed.

Lemma ntohl_htonl (o : endianness) (x : Z) : ntohl o (htonl o x) = u32 x.
Proof. unfold ntohl. rewrite store32_htonl. apply be_value32_bytes. Qed.


(** ** Facts on the C library's string functions *)

Lemma Z_of_byte_inj (a b : byte) : Z_of_byte a = Z_of_byte b -> a = b.
Proof.
  intros H. rewrite <- (byte_of_Z_of_byte a), <- (byte_of_Z_of_byte b). now rewrite H.
Qed.

Lemma Z_of_byte_NUL (c : byte) : Z_of_byte c = 0 <-> is_nul c = true.
Proof.
  unfold is_nul. rewrite Ascii.eqb_eq. split.
  - intros H. apply Z_of_byte_inj. exact H.
  - intros ->. reflexivity.
Qed.

Lemma strcmp_zero (a b : string) : strcmp a b = 0 <-> cstr a = cstr b.
Proof.
  revert b. induction a as [|ca a IH]; intros b.
  - cbn [strcmp cstr]. destruct b as [|cb b]; cbn [peek cstr].
    + split; reflexivity.
    + pose proof (Z_of_byte_NUL cb) as Hn.
      destruct (is_nul cb) eqn:E.
      * split; [reflexivity|]. intros _. destruct Hn as [_ Hn]. rewrite Hn; auto.
      * split; [|discriminate]. intros H. assert (Z_of_byte cb = 0) by lia.
        destruct Hn as [Hn _]. specialize (Hn H0). discriminate.
  - cbn [strcmp cstr]. destruct b as [|cb b]; cbn [peek advance cstr].
    + destruct (Ascii.eqb ca NUL) eqn:E.
      * unfold is_nul. rewrite E. split; reflexivity.
      * unfold is_nul. rewrite E. split; [|discriminate].
        intros H. change (Z_of_byte NUL) with 0 in H.
        assert (Hz : Z_of_byte ca = 0) by lia.
        apply Z_of_byte_NUL in Hz. unfold is_nul in Hz. congruence.
    + destruct (Ascii.eqb ca cb) eqn:E.
      * apply Ascii.eqb_eq in E. subst cb.
        destruct (is_nul ca); [split; reflexivity|].
        rewrite IH. split; [intros ->; reflexivity | intros H; now inversion H].
      * apply Ascii.eqb_neq in E.
        assert (Hd : Z_of_byte ca - Z_of_byte cb <> 0).
        { intros H. apply E. apply Z_of_byte_inj. lia. }
        split; [intros H; contradiction|].
        intros H. exfalso.
        destruct (is_nul ca) eqn:Ea, (is_nul cb) eqn:Eb; try discriminate.
        -- unfold is_nul in Ea, Eb. apply Ascii.eqb_eq in Ea, Eb. congruence.
        -- inversion H. contradiction.
Qed.

Lemma memcmp_from_zero (n i : nat) (a b : list byte) :
  memcmp_from i n a b = 0 <-> forall j, (i <= j < i + n)%nat -> nth j a NUL = nth j b NUL.
Proof.
  revert i. induction n as [|n IH]; intros i; cbn [memcmp_from].
  - split; [intros _ j Hj; lia | reflexivity].
  - destruct (byte_at a i - byte_at b i =? 0) eqn:E.
    + apply Z.eqb_eq in E. rewrite IH. split.
      * intros H j Hj. destruct (Nat.eq_dec j i) as [->|Hne].
        -- apply Z_of_byte_inj. unfold byte_at in E. lia.
        -- apply H. lia.
      * intros H j Hj. apply H. lia.
    + apply Z.eqb_neq in E. split; [intros H; contradiction|].
      intros H. exfalso. apply E. unfold byte_at. rewrite (H i) by lia. lia.
Qed.

Lemma memcmp_zero (n : nat) (a b : list byte) :
  memcmp a b n = 0 <-> same_bytes n a b.
Proof.
  unfold memcmp, same_bytes. rewrite memcmp_from_zero.
  split; intros H j Hj; apply H; lia.
Qed.

Lemma be_value32_inj (a0 a1 a2 a3 b0 b1 b2 b3 : byte) :
  be_value32 [a0; a1; a2; a3] = be_value32 [b0; b1; b2; b3] ->
  a0 = b0 /\ a1 = b1 /\ a2 = b2 /\ a3 = b3.
Proof.
  intros H.
  assert (E : be_bytes32 (be_value32 [a0; a1; a2; a3]) = be_bytes32 (be_value32 [b0; b1; b2; b3]))
    by now rewrite H.
  rewrite !be_bytes32_value in E. inversion E. auto.
Qed.

Lemma load32_eq (o : endianness) (a b : list byte) :
  load32 o a = load32 o b <-> same_bytes 4 a b.
Proof.
  unfold load32, same_bytes. split.
  - intros H. destruct o; apply be_value32_inj in H; destruct H as (H0 & H1 & H2 & H3);
      intros i Hi; destruct i as [|[|[|[|i]]]]; try lia; assumption.
  - intros H. destruct o;
      rewrite (H 0%nat), (H 1%nat), (H 2%nat), (H 3%nat) by lia; reflexivity.
Qed.


(** ** Decimal text: what [%d] prints, [%u] reads back *)

Lemma digit_char_val (d : Z) : 0 <= d < 10 -> Z_of_byte (digit_char d) = 48 + d.
Proof.
  intros H. unfold digit_char. destruct (Z.ltb_spec d 10); [|lia].
  rewrite Z_of_byte_of_Z. apply Z.mod_small. lia.
Qed.

Lemma scan_digits_digit (acc d : Z) (tl : string) :
  0 <= d < 10 ->
  scan_digits acc (String (digit_char d) tl) = scan_digits (acc * 10 + d) tl.
Proof.
  intros H. cbn [scan_digits]. rewrite digit_char_val by assumption.
  unfold isdigit. destruct (Z.leb_spec 48 (48 + d)); [|lia].
  destruct (Z.leb_spec (48 + d) 57); [|lia].
  cbn [andb]. f_equal. lia.
Qed.

Lemma scan_digits_render (f : nat) (n : Z) (tl : string) :
  0 <= n < 2 ^ Z.of_nat f ->
  exists m, 0 <= m /\ forall acc,
    scan_digits acc (render 10 f n tl) = scan_digits (acc * 10 ^ m + n) tl.
Proof.
  revert n tl. induction f as [|f IH]; intros n tl Hn.
  - exists 0. split; [lia|]. intros acc. cbn [render].
    change (2 ^ Z.of_nat 0) with 1 in Hn. f_equal. lia.
  - cbn [render].
    assert (Hd : 0 <= n mod 10 < 10) by (apply Z.mod_pos_bound; lia).
    destruct (Z.eqb_spec (n / 10) 0) as [E|E].
    + exists 1. split; [lia|]. intros acc.
      rewrite scan_digits_digit by assumption. f_equal.
      change (10 ^ 1) with 10. Z.div_mod_to_equations. lia.
    + assert (H2 : 0 <= n / 10 < 2 ^ Z.of_nat f).
      { rewrite Nat2Z.inj_succ, Z.pow_succ_r in Hn by lia.
        Z.div_mod_to_equations. lia. }
      destruct (IH (n / 10) (String (digit_char (n mod 10)) tl) H2) as (m & Hm & Hs).
      exists (m + 1). split; [lia|]. intros acc.
      rewrite Hs, scan_digits_digit by assumption. f_equal.
      rewrite Z.pow_add_r by lia. change (10 ^ 1) with 10.
      Z.div_mod_to_equations. lia.
Qed.

Lemma render_app (base : Z) (f : nat) (n : Z) (acc rest : string) :
  (render base f n acc ++ rest)%string = render base f n (acc ++ rest)%string.
Proof.
  revert n acc. induction f as [|f IH]; intros n acc; cbn [render]; [reflexivity|].
  destruct (n / base =? 0); [reflexivity|]. rewrite IH. reflexivity.
Qed.

Lemma fmt_d_fuel (n : Z) : 0 <= n -> 0 <= n < 2 ^ Z.of_nat (S (Z.to_nat (Z.log2 n))).
Proof.
  intros Hn. split; [assumption|].
  rewrite Nat2Z.inj_succ, Z2Nat.id by apply Z.log2_nonneg.
  destruct (Z.eq_dec n 0) as [->|Hz]; [reflexivity|].
  apply Z.log2_spec. lia.
Qed.

Lemma scan_digits_fmt_d (n : Z) (rest : string) :
  0 <= n -> scan_digits 0 (fmt_d n ++ rest) = scan_digits n rest.
Proof.
  intros Hn. unfold fmt_d. rewrite render_app. cbn [append].
  destruct (scan_digits_render (S (Z.to_nat (Z.log2 n))) n rest (fmt_d_fuel n Hn))
    as (m & Hm & Hs).
  rewrite Hs. f_equal.
Qed.

Lemma land_255_byte (c : byte) : Z.land (Z_of_byte c) 255 = Z_of_byte c.
Proof.
  change 255 with (Z.ones 8). rewrite Z.land_ones by lia.
  apply Z.mod_small. apply Z_of_byte_range.
Qed.

Lemma isdigit_digit_char (d : Z) : 0 <= d < 10 -> isdigit (Z_of_byte (digit_char d)) = true.
Proof.
  intros H. rewrite digit_char_val by assumption. unfold isdigit.
  destruct (Z.leb_spec 48 (48 + d)); [|lia].
  destruct (Z.leb_spec (48 + d) 57); [|lia]. reflexivity.
Qed.

Lemma render_all_digits (f : nat) (n : Z) (tl : string) :
  all_digits tl = true -> all_digits (render 10 f n tl) = true.
Proof.
  revert n tl. induction f as [|f IH]; intros n tl Htl; cbn [render]; [assumption|].
  assert (Hd : 0 <= n mod 10 < 10) by (apply Z.mod_pos_bound; lia).
  assert (Hs : all_digits (String (digit_char (n mod 10)) tl) = true).
  { cbn [all_digits]. now rewrite isdigit_digit_char, Htl. }
  destruct (n / 10 =? 0); [exact Hs|]. apply IH. exact Hs.
Qed.

Lemma render_cons (base : Z) (f : nat) (n : Z) (c : byte) (acc : string) :
  exists c' t, render base f n (String c acc) = String c' t.
Proof.
  revert n c acc. induction f as [|f IH]; intros n c acc; cbn [render].
  - eauto.
  - destruct (n / base =? 0); [eauto|apply IH].
Qed.

Lemma fmt_nonempty (base : Z) (f : nat) (n : Z) :
  exists c t, render base (S f) n "" = String c t.
Proof.
  cbn [render]. destruct (n / base =? 0); [eauto|apply render_cons].
Qed.

(** What [%d] prints is a number, and its value is the integer printed. *)
Lemma fmt_d_number (n : Z) : is_number (fmt_d n) = true.
Proof.
  assert (H : all_digits (fmt_d n) = true) by (apply render_all_digits; reflexivity).
  unfold fmt_d in *.
  destruct (fmt_nonempty 10 (Z.to_nat (Z.log2 n)) n) as (c & t & E).
  rewrite E in *. exact H.
Qed.

Lemma returned_if {A : Type} (b : bool) (x y d : A) :
  match (if b then Some x else Some y) with Some r => r | None => d end =
  if b then x else y.
Proof. destruct b; reflexivity. Qed.

Lemma append_assoc (a b c : string) : ((a ++ b) ++ c = a ++ (b ++ c))%string.
Proof. induction a as [|x a IH]; cbn [append]; [reflexivity|now rewrite IH]. Qed.

Lemma append_nil_r (s : string) : (s ++ "")%string = s.
Proof. induction s as [|c s IH]; cbn [append]; [reflexivity|now rewrite IH]. Qed.

Lemma fmt_d_value (n : Z) : 0 <= n -> dec_value (fmt_d n) = n.
Proof.
  intros Hn. unfold dec_value.
  rewrite <- (append_nil_r (fmt_d n)), scan_digits_fmt_d by assumption. reflexivity.
Qed.

(** ** Numbers in a text *)

Lemma scan_digits_app (s rest : string) (acc : Z) :
  all_digits s = true ->
  scan_digits acc (s ++ rest) = scan_digits (fst (scan_digits acc s)) rest.
Proof.
  revert acc. induction s as [|c s IH]; intros acc H; [reflexivity|].
  cbn [all_digits] in H. apply andb_true_iff in H. destruct H as [Hc Hs].
  cbn [append scan_digits]. rewrite Hc. now apply IH.
Qed.

Lemma scan_digits_nonneg (s : string) (acc : Z) :
  0 <= acc -> 0 <= fst (scan_digits acc s).
Proof.
  revert acc. induction s as [|c s IH]; intros acc H; cbn [scan_digits]; [assumption|].
  destruct (isdigit (Z_of_byte c)) eqn:E; [|assumption].
  apply IH. unfold isdigit in E. apply andb_true_iff in E. destruct E as [E _].
  apply Z.leb_le in E. lia.
Qed.

Lemma dec_value_nonneg (s : string) : 0 <= dec_value s.
Proof. apply scan_digits_nonneg. lia. Qed.

Lemma isdigit_range (c : byte) :
  isdigit (Z_of_byte c) = true -> 48 <= Z_of_byte c <= 57.
Proof.
  unfold isdigit. intros H. apply andb_true_iff in H. destruct H as [H1 H2].
  apply Z.leb_le in H1, H2. lia.
Qed.

Lemma isdigit_neq (c c' : byte) :
  isdigit (Z_of_byte c) = true -> (Z_of_byte c' < 48 \/ 57 < Z_of_byte c') ->
  Ascii.eqb c c' = false.
Proof.
  intros Hc Hc'. apply Ascii.eqb_neq. intros ->. apply isdigit_range in Hc. lia.
Qed.

Lemma number_head (s : string) :
  is_number s = true ->
  exists c t, s = String c t /\ isdigit (Z_of_byte c) = true /\ all_digits s = true.
Proof.
  destruct s as [|c t]; [discriminate|]. cbn [is_number]. intros H.
  exists c, t. split; [reflexivity|]. split; [|exact H].
  cbn [all_digits] in H. now apply andb_true_iff in H.
Qed.

Lemma skip_digits_dots_number (s rest : string) :
  all_digits s = true -> skip_digits_dots (s ++ rest) = skip_digits_dots rest.
Proof.
  induction s as [|c s IH]; intros H; [reflexivity|].
  cbn [all_digits] in H. apply andb_true_iff in H. destruct H as [Hc Hs].
  cbn [append skip_digits_dots]. rewrite land_255_byte, Hc. now apply IH.
Qed.

Lemma skip_digits_dots_dotted (s0 s1 s2 s3 : string) :
  is_number s0 = true -> is_number s1 = true ->
  is_number s2 = true -> is_number s3 = true ->
  skip_digits_dots (dotted s0 s1 s2 s3) = "".
Proof.
  intros H0 H1 H2 H3.
  destruct (number_head s0 H0) as (? & ? & _ & _ & A0).
  destruct (number_head s1 H1) as (? & ? & _ & _ & A1).
  destruct (number_head s2 H2) as (? & ? & _ & _ & A2).
  destruct (number_head s3 H3) as (? & ? & _ & _ & A3).
  unfold dotted.
  rewrite skip_digits_dots_number by assumption.
  cbn [append skip_digits_dots]. rewrite orb_true_r.
  rewrite skip_digits_dots_number by assumption.
  cbn [append skip_digits_dots]. rewrite orb_true_r.
  rewrite skip_digits_dots_number by assumption.
  cbn [append skip_digits_dots]. rewrite orb_true_r.
  rewrite <- (append_nil_r s3). now apply skip_digits_dots_number.
Qed.

(** ** Numbers as the Standard Library prints them

    What [%x] and [%d] print is the hexadecimal and the decimal text of the
    Standard Library's printers. *)

Lemma hex_string_revapp (l acc : Hexadecimal.uint) :
  HexadecimalString.NilEmpty.string_of_uint (Hexadecimal.revapp l acc) =
  (HexadecimalString.NilEmpty.string_of_uint (Hexadecimal.rev l) ++
   HexadecimalString.NilEmpty.string_of_uint acc)%string.
Proof.
  revert acc. unfold Hexadecimal.rev.
  induction l; intros acc; cbn [Hexadecimal.revapp]; [reflexivity|..];
    rewrite IHl; symmetry; rewrite IHl; rewrite append_assoc; reflexivity.
Qed.

Lemma hex_to_lu_add (k : nat) (n : N) :
  HexadecimalPos.Unsigned.to_lu (n + N.of_nat k) =
  Nat.iter k Hexadecimal.Little.succ (HexadecimalPos.Unsigned.to_lu n).
Proof.
  induction k as [|k IH].
  - now rewrite N.add_0_r.
  - replace (n + N.of_nat (S k))%N with (N.succ (n + N.of_nat k)) by lia.
    rewrite HexadecimalPos.Unsigned.to_lu_succ, IH. reflexivity.
Qed.

Lemma hex_to_lu_digit (p : positive) (r : Z) :
  0 <= r < 16 ->
  HexadecimalString.NilEmpty.string_of_uint
    (Hexadecimal.rev (HexadecimalPos.Unsigned.to_lu (16 * N.pos p + Z.to_N r))) =
  (HexadecimalString.NilEmpty.string_of_uint
     (Hexadecimal.rev (HexadecimalPos.Unsigned.to_lu (N.pos p))) ++
   String (digit_char r) "")%string.
Proof.
  intros Hr.
  replace (Z.to_N r) with (N.of_nat (Z.to_nat r)) by lia.
  rewrite hex_to_lu_add, HexadecimalPos.Unsigned.to_lhex_tenfold.
  assert (E : r = 0 \/ r = 1 \/ r = 2 \/ r = 3 \/ r = 4 \/ r = 5 \/ r = 6 \/ r = 7 \/
              r = 8 \/ r = 9 \/ r = 10 \/ r = 11 \/ r = 12 \/ r = 13 \/ r = 14 \/ r = 15)
    by lia.
  repeat destruct E as [E|E]; subst r;
    match goal with
    | |- context [Z.to_nat ?z] =>
        let k := eval vm_compute in (Z.to_nat z) in change (Z.to_nat z) with k
    end;
    cbn [Nat.iter nat_rect Hexadecimal.Little.succ];
    unfold Hexadecimal.rev at 1; cbn [Hexadecimal.revapp];
    rewrite hex_string_revapp; reflexivity.
Qed.

Lemma render_hexadecimal (fuel : nat) (n : Z) (acc : string) :
  0 < n < 2 ^ Z.of_nat fuel ->
  render 16 fuel n acc =
  (HexadecimalString.NilEmpty.string_of_uint
     (Hexadecimal.rev (HexadecimalPos.Unsigned.to_lu (Z.to_N n))) ++ acc)%string.
Proof.
  revert n acc. induction fuel as [|f IH]; intros n acc Hn.
  - change (2 ^ Z.of_nat 0) with 1 in Hn. lia.
  - cbn [render]. rewrite Nat2Z.inj_succ, Z.pow_succ_r in Hn by lia.
    pose proof (Z.div_mod n 16 ltac:(lia)) as Hdm.
    pose proof (Z.mod_pos_bound n 16 ltac:(lia)) as Hr.
    destruct (Z.eqb_spec (n / 16) 0) as [Hq|Hq].
    + assert (E : n = 1 \/ n = 2 \/ n = 3 \/ n = 4 \/ n = 5 \/ n = 6 \/ n = 7 \/
                  n = 8 \/ n = 9 \/ n = 10 \/ n = 11 \/ n = 12 \/ n = 13 \/ n = 14 \/
                  n = 15) by lia.
      repeat destruct E as [E|E]; subst n; reflexivity.
    + assert (Hq' : 0 < n / 16) by (pose proof (Z.div_pos n 16); lia).
      rewrite IH by lia.
      destruct (Z.to_N (n / 16)) as [|p] eqn:Ep; [lia|].
      replace (Z.to_N n) with (16 * N.pos p + Z.to_N (n mod 16))%N by lia.
      rewrite hex_to_lu_digit by lia.
      rewrite append_assoc. reflexivity.
Qed.

Lemma fmt_x_hexadecimal (n : Z) : 0 <= n -> fmt_x n = hexadecimal n.
Proof.
  intros Hn. destruct (Z.eq_dec n 0) as [->|Hz]; [reflexivity|].
  unfold fmt_x, hexadecimal.
  rewrite render_hexadecimal.
  - destruct (Z.to_N n) as [|p] eqn:Ep; [lia|].
    cbn [N.to_hex_uint HexadecimalPos.Unsigned.to_lu].
    change (Hexadecimal.rev (Pos.to_little_hex_uint p)) with (Pos.to_hex_uint p).
    pose proof (HexadecimalPos.Unsigned.to_uint_nonnil p) as Hnn.
    unfold HexadecimalString.NilZero.string_of_uint.
    destruct (Pos.to_hex_uint p); [contradiction|..]; apply append_nil_r.
  - pose proof (Z.log2_spec n ltac:(lia)). rewrite Nat2Z.inj_succ, Z2Nat.id by apply Z.log2_nonneg. lia.
Qed.

Lemma dec_string_revapp (l acc : Decimal.uint) :
  DecimalString.NilEmpty.string_of_uint (Decimal.revapp l acc) =
  (DecimalString.NilEmpty.string_of_uint (Decimal.rev l) ++
   DecimalString.NilEmpty.string_of_uint acc)%string.
Proof.
  revert acc. unfold Decimal.rev.
  induction l; intros acc; cbn [Decimal.revapp]; [reflexivity|..];
    rewrite IHl; symmetry; rewrite IHl; rewrite append_assoc; reflexivity.
Qed.

Lemma dec_to_lu_add (k : nat) (n : N) :
  DecimalPos.Unsigned.to_lu (n + N.of_nat k) =
  Nat.iter k Decimal.Little.succ (DecimalPos.Unsigned.to_lu n).
Proof.
  induction k as [|k IH].
  - now rewrite N.add_0_r.
  - replace (n + N.of_nat (S k))%N with (N.succ (n + N.of_nat k)) by lia.
    rewrite DecimalPos.Unsigned.to_lu_succ, IH. reflexivity.
Qed.

Lemma dec_to_lu_digit (p : positive) (r : Z) :
  0 <= r < 10 ->
  DecimalString.NilEmpty.string_of_uint
    (Decimal.rev (DecimalPos.Unsigned.to_lu (10 * N.pos p + Z.to_N r))) =
  (DecimalString.NilEmpty.string_of_uint
     (Decimal.rev (DecimalPos.Unsigned.to_lu (N.pos p))) ++
   String (digit_char r) "")%string.
Proof.
  intros Hr.
  replace (Z.to_N r) with (N.of_nat (Z.to_nat r)) by lia.
  rewrite dec_to_lu_add, DecimalPos.Unsigned.to_ldec_tenfold.
  assert (E : r = 0 \/ r = 1 \/ r = 2 \/ r = 3 \/ r = 4 \/ r = 5 \/ r = 6 \/ r = 7 \/
              r = 8 \/ r = 9) by lia.
  repeat destruct E as [E|E]; subst r;
    match goal with
    | |- context [Z.to_nat ?z] =>
        let k := eval vm_compute in (Z.to_nat z) in change (Z.to_nat z) with k
    end;
    cbn [Nat.iter nat_rect Decimal.Little.succ];
    unfold Decimal.rev at 1; cbn [Decimal.revapp];
    rewrite dec_string_revapp; reflexivity.
Qed.

Lemma render_decimal (fuel : nat) (n : Z) (acc : string) :
  0 < n < 2 ^ Z.of_nat fuel ->
  render 10 fuel n acc =
  (DecimalString.NilEmpty.string_of_uint
     (Decimal.rev (DecimalPos.Unsigned.to_lu (Z.to_N n))) ++ acc)%string.
Proof.
  revert n acc. induction fuel as [|f IH]; intros n acc Hn.
  - change (2 ^ Z.of_nat 0) with 1 in Hn. lia.
  - cbn [render]. rewrite Nat2Z.inj_succ, Z.pow_succ_r in Hn by lia.
    pose proof (Z.div_mod n 10 ltac:(lia)) as Hdm.
    pose proof (Z.mod_pos_bound n 10 ltac:(lia)) as Hr.
    destruct (Z.eqb_spec (n / 10) 0) as [Hq|Hq].
    + assert (E : n = 1 \/ n = 2 \/ n = 3 \/ n = 4 \/ n = 5 \/ n = 6 \/ n = 7 \/
                  n = 8 \/ n = 9) by lia.
      repeat destruct E as [E|E]; subst n; reflexivity.
    + assert (Hq' : 0 < n / 10) by (pose proof (Z.div_pos n 10); lia).
      rewrite IH by lia.
      destruct (Z.to_N (n / 10)) as [|p] eqn:Ep; [lia|].
      replace (Z.to_N n) with (10 * N.pos p + Z.to_N (n mod 10))%N by lia.
      rewrite dec_to_lu_digit by lia.
      rewrite append_assoc. reflexivity.
Qed.

Lemma fmt_d_decimal (n : Z) : 0 <= n -> fmt_d n = decimal n.
Proof.
  intros Hn. destruct (Z.eq_dec n 0) as [->|Hz]; [reflexivity|].
  unfold fmt_d, decimal.
  rewrite render_decimal.
  - destruct (Z.to_N n) as [|p] eqn:Ep; [lia|].
    cbn [N.to_uint DecimalPos.Unsigned.to_lu].
    change (Decimal.rev (Pos.to_little_uint p)) with (Pos.to_uint p).
    pose proof (DecimalPos.Unsigned.to_uint_nonnil p) as Hnn.
    unfold DecimalString.NilZero.string_of_uint.
    destruct (Pos.to_uint p); [contradiction|..]; apply append_nil_r.
  - pose proof (Z.log2_spec n ltac:(lia)). rewrite Nat2Z.inj_succ, Z2Nat.id by apply Z.log2_nonneg. lia.
Qed.

Section Properties.

Variable P : platform.

(** ** httpAddrEqual *)

Lemma httpAddrEqual_bool (a b : http_addr_t) :
  httpAddrEqual P a b = 0 \/ httpAddrEqual P a b = 1.
Proof.
  unfold httpAddrEqual.
  repeat match goal with |- context [if ?c then _ else _] => destruct c end; auto.
Qed.

Lemma httpAddrEqual_same_address (a b : http_addr_t) :
  httpAddrEqual P a b = 1 <-> same_address a b.
Proof.
  unfold httpAddrEqual, same_address.
  destruct (sa_family a =? sa_family b) eqn:Ef; cbn [negb].
  - apply Z.eqb_eq in Ef.
    destruct (sa_family a =? AF_LOCAL).
    + pose proof (strcmp_zero (sun_path a) (sun_path b)) as Hs.
      destruct (strcmp (sun_path a) (sun_path b) =? 0) eqn:E.
      * apply Z.eqb_eq in E. tauto.
      * apply Z.eqb_neq in E. split; [discriminate|]. tauto.
    + destruct (sa_family a =? AF_INET6).
      * pose proof (memcmp_zero 16 (sin6_addr a) (sin6_addr b)) as Hm.
        destruct (memcmp (sin6_addr a) (sin6_addr b) 16 =? 0) eqn:E.
        -- apply Z.eqb_eq in E. tauto.
        -- apply Z.eqb_neq in E. split; [discriminate|]. tauto.
      * pose proof (load32_eq (host_order P) (sin_addr a) (sin_addr b)) as Hl.
        unfold s_addr.
        destruct (load32 (host_order P) (sin_addr a) =? load32 (host_order P) (sin_addr b)) eqn:E.
        -- apply Z.eqb_eq in E. tauto.
        -- apply Z.eqb_neq in E. split; [discriminate|]. tauto.
  - apply Z.eqb_neq in Ef. split; [discriminate|]. tauto.
Qed.

(** C5. [httpAddrEqual] answers 0 or 1; it answers 1 exactly when the
    families agree and the path strings (Unix domain), the 16 address bytes
    (IPv6) or the 32-bit address (every other family) agree; it answers 0
    when the families differ; and the ports play no part: changing the port
    of either address never changes the answer, so two addresses with the
    same family and address and different ports are equal. *)
Theorem httpAddrEqual_ignores_port (a b : http_addr_t) :
  (httpAddrEqual P a b = 0 \/ httpAddrEqual P a b = 1) /\
  (httpAddrEqual P a b = 1 <-> same_address a b) /\
  (sa_family a <> sa_family b -> httpAddrEqual P a b = 0) /\
  (forall p q, httpAddrEqual P (with_port p a) (with_port q b) = httpAddrEqual P a b) /\
  (forall p q, httpAddrEqual P (with_port p a) (with_port q a) = 1).
Proof.
  split; [apply httpAddrEqual_bool|].
  split; [apply httpAddrEqual_same_address|].
  split.
  - intros Hne. destruct (httpAddrEqual_bool a b) as [H|H]; [exact H|].
    apply httpAddrEqual_same_address in H. destruct H as [H _]. contradiction.
  - split; [reflexivity|].
    intros p q. apply httpAddrEqual_same_address.
    unfold same_address, same_bytes; cbn [with_port sa_family sin_addr sin6_addr sun_path].
    split; [reflexivity|].
    destruct (sa_family a =? AF_LOCAL); [reflexivity|].
    destruct (sa_family a =? AF_INET6); intros; reflexivity.
Qed.

(** ** httpAddrLocalhost *)

Lemma forallb_below (f : nat -> bool) (n : nat) :
  forallb f (seq 0 n) = true <-> forall i, (i < n)%nat -> f i = true.
Proof.
  rewrite forallb_forall. split.
  - intros H i Hi. apply H. apply in_seq. lia.
  - intros H i Hi. apply in_seq in Hi. apply H. lia.
Qed.

Lemma IN6_IS_ADDR_UNSPECIFIED_spec (a : list byte) :
  IN6_IS_ADDR_UNSPECIFIED a = true <-> is_unspecified6 a.
Proof.
  unfold IN6_IS_ADDR_UNSPECIFIED, is_unspecified6. rewrite forallb_below.
  split; intros H i Hi; specialize (H i Hi); now apply Z.eqb_eq.
Qed.

Lemma IN6_IS_ADDR_LOOPBACK_spec (a : list byte) :
  IN6_IS_ADDR_LOOPBACK a = true <-> is_loopback6 a.
Proof.
  unfold IN6_IS_ADDR_LOOPBACK, is_loopback6.
  rewrite andb_true_iff, forallb_below, Z.eqb_eq.
  split; intros [H H15]; (split; [|exact H15]); intros i Hi; specialize (H i Hi);
    now apply Z.eqb_eq.
Qed.

Lemma ntohl_s_addr (a : http_addr_t) :
  ntohl (host_order P) (s_addr P a) =
  byte_at (sin_addr a) 0 * 16777216 + byte_at (sin_addr a) 1 * 65536 +
  byte_at (sin_addr a) 2 * 256 + byte_at (sin_addr a) 3.
Proof. unfold s_addr. rewrite ntohl_load32. reflexivity. Qed.

Lemma byte_at_range (bs : list byte) (i : nat) : 0 <= byte_at bs i < 256.
Proof. apply Z_of_byte_range. Qed.

Lemma loopback4_bytes (a : http_addr_t) :
  ntohl (host_order P) (s_addr P a) = 2130706433 <->
  List.map (byte_at (sin_addr a)) [0; 1; 2; 3]%nat = [127; 0; 0; 1].
Proof.
  rewrite ntohl_s_addr. cbn [List.map].
  pose proof (byte_at_range (sin_addr a) 0). pose proof (byte_at_range (sin_addr a) 1).
  pose proof (byte_at_range (sin_addr a) 2). pose proof (byte_at_range (sin_addr a) 3).
  split.
  - intros E.
    assert (byte_at (sin_addr a) 0 = 127) by lia.
    assert (byte_at (sin_addr a) 1 = 0) by lia.
    assert (byte_at (sin_addr a) 2 = 0) by lia.
    assert (byte_at (sin_addr a) 3 = 1) by lia.
    congruence.
  - intros E. injection E as E0 E1 E2 E3. lia.
Qed.

Lemma httpAddrLocalhost_is_local (a : http_addr_t) :
  httpAddrLocalhost P a = 1 <-> is_local a.
Proof.
  unfold httpAddrLocalhost, is_local.
  pose proof (IN6_IS_ADDR_LOOPBACK_spec (sin6_addr a)) as Hl.
  pose proof (IN6_IS_ADDR_UNSPECIFIED_spec (sin6_addr a)) as Hu.
  pose proof (loopback4_bytes a) as H4.
  destruct (Z.eqb_spec (sa_family a) AF_INET6) as [E6|E6];
  destruct (Z.eqb_spec (sa_family a) AF_LOCAL) as [El|El];
  destruct (Z.eqb_spec (sa_family a) AF_INET) as [E4|E4];
  try (exfalso; unfold AF_INET6, AF_LOCAL, AF_INET in *; lia);
  cbn [andb].
  - destruct (IN6_IS_ADDR_LOOPBACK (sin6_addr a)), (IN6_IS_ADDR_UNSPECIFIED (sin6_addr a));
      cbn [orb]; try tauto.
    split; [discriminate|].
    intros [[_ [H|H]]|[H|[H _]]]; try contradiction;
      [apply Hl in H | apply Hu in H]; discriminate.
  - tauto.
  - destruct (Z.eqb_spec (ntohl (host_order P) (s_addr P a)) 2130706433) as [E|E].
    + tauto.
    + split; [discriminate|]. intros [[H _]|[H|[_ H]]]; try contradiction.
      apply H4 in H. contradiction.
  - split; [discriminate|]. intros [[H _]|[H|[H _]]]; contradiction.
Qed.

(** C6. [httpAddrLocalhost] answers 1 exactly for the IPv6 loopback
    address, the IPv6 unspecified address, every Unix domain address and the
    IPv4 address whose bytes are 127.0.0.1, and 0 for every other address; so
    it answers 1 for 127.0.0.1 and 0 for 127.0.0.2, whatever the port. *)
Theorem httpAddrLocalhost_only_loopback (a : http_addr_t) :
  (httpAddrLocalhost P a = 1 <-> is_local a) /\
  (httpAddrLocalhost P a = 0 <-> ~ is_local a) /\
  (forall port, httpAddrLocalhost P (ipv4_addr port 127 0 0 1) = 1) /\
  (forall port, httpAddrLocalhost P (ipv4_addr port 127 0 0 2) = 0).
Proof.
  pose proof (httpAddrLocalhost_is_local a) as H1.
  split; [exact H1|]. split.
  - assert (Hb : httpAddrLocalhost P a = 0 \/ httpAddrLocalhost P a = 1).
    { unfold httpAddrLocalhost.
      repeat match goal with |- context [if ?c then _ else _] => destruct c end; auto. }
    split.
    + intros H0 Hl. apply H1 in Hl. congruence.
    + intros Hn. destruct Hb as [Hb|Hb]; [exact Hb|]. apply H1 in Hb. contradiction.
  - split; intros port; unfold httpAddrLocalhost;
      rewrite ntohl_s_addr; reflexivity.
Qed.

(** ** httpAddrLoad *)

(** C10. When the address type of the host entry is none of [AF_INET6],
    [AF_LOCAL] and [AF_INET], [httpAddrLoad] returns with the address as it
    was: no field is written, whatever the entry, the port and the index. *)
Theorem httpAddrLoad_unsupported_family (cg : cups_globals) (host : struct_hostent)
    (port : Z) (n : nat) (addr : http_addr_t) :
  h_addrtype host <> AF_INET6 ->
  h_addrtype host <> AF_LOCAL ->
  h_addrtype host <> AF_INET ->
  httpAddrLoad P cg host port n addr = Some addr.
Proof.
  intros H6 Hl H4. unfold httpAddrLoad.
  destruct (Z.eqb_spec (h_addrtype host) AF_INET6); [contradiction|].
  destruct (Z.eqb_spec (h_addrtype host) AF_LOCAL); [contradiction|].
  destruct (Z.eqb_spec (h_addrtype host) AF_INET); [contradiction|].
  reflexivity.
Qed.

(** ** httpAddrString *)

Lemma take_all (n : nat) (t : string) : (String.length t <= n)%nat -> take n t = t.
Proof.
  revert n. induction t as [|c t IH]; intros n H.
  - destruct n; reflexivity.
  - destruct n; cbn [String.length] in H; [lia|].
    cbn [take]. rewrite IH by lia. reflexivity.
Qed.

Lemma store_str_fits (dst text : string) (size : nat) :
  (String.length text < size)%nat -> store_str dst size text = text.
Proof.
  intros H. destruct size; [lia|]. cbn [store_str]. apply take_all. lia.
Qed.

Lemma ntohl_s6_addr32 (a : http_addr_t) (i : nat) :
  ntohl (host_order P) (s6_addr32 P a i) = group32 (sin6_addr a) i.
Proof. unfold s6_addr32, group32. rewrite ntohl_load32. reflexivity. Qed.

Lemma octet_of_word (b0 b1 b2 b3 : Z) :
  0 <= b0 < 256 -> 0 <= b1 < 256 -> 0 <= b2 < 256 -> 0 <= b3 < 256 ->
  let temp := b0 * 16777216 + b1 * 65536 + b2 * 256 + b3 in
  Z.land (Z.shiftr temp 24) 255 = b0 /\ Z.land (Z.shiftr temp 16) 255 = b1 /\
  Z.land (Z.shiftr temp 8) 255 = b2 /\ Z.land temp 255 = b3.
Proof.
  intros H0 H1 H2 H3 temp.
  change 255 with (Z.ones 8). rewrite !Z.land_ones, !Z.shiftr_div_pow2 by lia.
  change (2 ^ 24) with 16777216; change (2 ^ 16) with 65536; change (2 ^ 8) with 256.
  subst temp. repeat split; Z.div_mod_to_equations; lia.
Qed.

Lemma httpAddrString_unbounded (a : http_addr_t) (s : string) (slen : nat) :
  httpAddrString P a s slen = store_str s slen (addr_text a).
Proof.
  unfold httpAddrString, addr_text.
  destruct (sa_family a =? AF_INET6).
  - unfold snprintf. rewrite !ntohl_s6_addr32. reflexivity.
  - destruct (sa_family a =? AF_LOCAL); [reflexivity|].
    destruct (sa_family a =? AF_INET); [|reflexivity].
    cbv zeta. rewrite ntohl_s_addr.
    destruct (octet_of_word (byte_at (sin_addr a) 0) (byte_at (sin_addr a) 1)
                (byte_at (sin_addr a) 2) (byte_at (sin_addr a) 3))
      as (E0 & E1 & E2 & E3); try apply byte_at_range.
    rewrite E0, E1, E2, E3. reflexivity.
Qed.

Lemma addr_text_address_text (a : http_addr_t) : addr_text a = address_text a.
Proof.
  unfold addr_text, address_text.
  destruct (Z.eqb_spec (sa_family a) AF_INET6) as [E6|E6].
  - rewrite E6. change (AF_INET6 =? AF_INET) with false. cbv iota.
    unfold group32.
    rewrite !fmt_x_hexadecimal by apply be_value32_range. reflexivity.
  - destruct (Z.eqb_spec (sa_family a) AF_LOCAL) as [El|El].
    + rewrite El. reflexivity.
    + destruct (sa_family a =? AF_INET); [|reflexivity].
      unfold quad_text, dotted.
      rewrite !fmt_d_decimal by apply byte_at_range. reflexivity.
Qed.

(** C7. With a buffer longer than the text, [httpAddrString] leaves in it
    the text of the address as the specification words it: for IPv4 the
    four address bytes in decimal with dots between them; for IPv6 the four
    32-bit groups of the address in hexadecimal between brackets, with
    colons between them; for a Unix domain address its path; and for any
    other family the text UNKNOWN.  The decimal and the hexadecimal digits
    are those of the Standard Library's printers. *)
Theorem httpAddrString_text (a : http_addr_t) (s : string) (slen : nat) :
  (String.length (address_text a) < slen)%nat ->
  httpAddrString P a s slen = address_text a /\
  (sa_family a = AF_INET ->
   httpAddrString P a s slen =
     (decimal (byte_at (sin_addr a) 0) ++ "." ++ decimal (byte_at (sin_addr a) 1) ++ "." ++
      decimal (byte_at (sin_addr a) 2) ++ "." ++ decimal (byte_at (sin_addr a) 3))%string) /\
  (sa_family a = AF_INET6 ->
   httpAddrString P a s slen =
     ("[" ++ hexadecimal (group32 (sin6_addr a) 0) ++ ":" ++
      hexadecimal (group32 (sin6_addr a) 1) ++ ":" ++
      hexadecimal (group32 (sin6_addr a) 2) ++ ":" ++
      hexadecimal (group32 (sin6_addr a) 3) ++ "]")%string) /\
  (sa_family a = AF_LOCAL -> httpAddrString P a s slen = cstr (sun_path a)) /\
  (sa_family a <> AF_INET -> sa_family a <> AF_INET6 -> sa_family a <> AF_LOCAL ->
   httpAddrString P a s slen = "UNKNOWN").
Proof.
  intros Hlen.
  assert (E : httpAddrString P a s slen = address_text a).
  { rewrite httpAddrString_unbounded, addr_text_address_text. now apply store_str_fits. }
  rewrite E. unfold address_text. split; [reflexivity|]. split; [|split; [|split]].
  - intros ->. reflexivity.
  - intros ->. reflexivity.
  - intros ->. reflexivity.
  - intros H4 H6 Hl.
    destruct (Z.eqb_spec (sa_family a) AF_INET); [contradiction|].
    destruct (Z.eqb_spec (sa_family a) AF_INET6); [contradiction|].
    destruct (Z.eqb_spec (sa_family a) AF_LOCAL); [contradiction|].
    reflexivity.
Qed.

(** ** httpAddrLookup *)

Lemma addr_text_nonempty (a : http_addr_t) :
  sa_family a <> AF_LOCAL -> exists c t, addr_text a = String c t.
Proof.
  intros Hl. unfold addr_text.
  destruct (sa_family a =? AF_INET6); [cbn [append]; eauto|].
  destruct (Z.eqb_spec (sa_family a) AF_LOCAL); [contradiction|].
  destruct (sa_family a =? AF_INET); [|eauto].
  unfold quad_text, dotted, fmt_d.
  destruct (fmt_nonempty 10 (Z.to_nat (Z.log2 (byte_at (sin_addr a) 0)))
              (byte_at (sin_addr a) 0)) as (c & t & E).
  rewrite E. cbn [append]. eauto.
Qed.

(** C8 (amended). With a name buffer of at least two bytes: for a Unix
    domain address [httpAddrLookup] copies the path and returns the buffer;
    for any other address, when the reverse lookup finds a name it copies
    that name and returns the buffer, and when the reverse lookup fails it
    returns NULL and the buffer holds what [httpAddrString] writes, which is
    not the empty string. *)
Theorem httpAddrLookup_outcomes (a : http_addr_t) (name : string) (namelen : nat) :
  (2 <= namelen)%nat ->
  (sa_family a = AF_LOCAL ->
   httpAddrLookup P a name namelen =
   (Some (strlcpy name (sun_path a) namelen), strlcpy name (sun_path a) namelen)) /\
  (sa_family a <> AF_LOCAL ->
   forall hname, reverse_lookup P a = Some hname ->
   httpAddrLookup P a name namelen =
   (Some (strlcpy name hname namelen), strlcpy name hname namelen)) /\
  (sa_family a <> AF_LOCAL -> reverse_lookup P a = None ->
   httpAddrLookup P a name namelen = (None, httpAddrString P a name namelen) /\
   httpAddrString P a name namelen <> "").
Proof.
  intros Hlen. unfold httpAddrLookup, reverse_lookup.
  repeat split.
  - intros E. rewrite E. reflexivity.
  - intros Hl hname.
    destruct (sa_family a =? AF_INET6); [intros ->; reflexivity|].
    destruct (Z.eqb_spec (sa_family a) AF_LOCAL); [contradiction|].
    destruct (sa_family a =? AF_INET); [intros ->; reflexivity|discriminate].
  - destruct (sa_family a =? AF_INET6); [rewrite H0; reflexivity|].
    destruct (Z.eqb_spec (sa_family a) AF_LOCAL); [contradiction|].
    destruct (sa_family a =? AF_INET); [rewrite H0; reflexivity|reflexivity].
  - rewrite httpAddrString_unbounded.
    destruct (addr_text_nonempty a H) as (c & t & E). rewrite E.
    destruct namelen as [|[|k]]; try lia. discriminate.
Qed.

(** ** Resolving a dotted quad *)

Lemma scan_digits_stop (acc : Z) (rest : string) :
  isdigit (Z_of_byte (peek rest)) = false -> scan_digits acc rest = (acc, rest).
Proof.
  intros H. destruct rest as [|c rest]; [reflexivity|].
  cbn [peek] in H. cbn [scan_digits]. now rewrite H.
Qed.

Lemma ULONG_MAX_32 : 4294967295 <= ULONG_MAX P.
Proof. unfold ULONG_MAX. destruct (long_size P); lia. Qed.

Lemma scan_u_number (s rest : string) :
  is_number s = true ->
  dec_value s <= 4294967295 ->
  isdigit (Z_of_byte (peek rest)) = false ->
  scan_u (ULONG_MAX P) (s ++ rest) = Some (dec_value s, rest).
Proof.
  intros Hs Hv Hrest.
  destruct (number_head s Hs) as (c & t & E & Hc & Ha).
  pose proof (isdigit_range c Hc) as Hr.
  assert (Hsp : skip_space (s ++ rest) = (s ++ rest)%string).
  { rewrite E. cbn [append skip_space]. unfold isspace.
    destruct (Z.eqb_spec (Z_of_byte c) 32); [lia|].
    destruct (Z.leb_spec (Z_of_byte c) 13); [lia|]. now rewrite andb_false_r. }
  assert (Hsg : scan_sign (s ++ rest) = (false, (s ++ rest)%string)).
  { rewrite E. cbn [append scan_sign].
    rewrite !(isdigit_neq c) by (assumption || (left; reflexivity)). reflexivity. }
  assert (Hpk : isdigit (Z_of_byte (peek (s ++ rest))) = true).
  { rewrite E. exact Hc. }
  unfold scan_u. rewrite Hsp, Hsg, Hpk.
  rewrite scan_digits_app by assumption. fold (dec_value s).
  rewrite scan_digits_stop by assumption.
  unfold strtoul_value. pose proof ULONG_MAX_32. pose proof (dec_value_nonneg s).
  destruct (Z.ltb_spec (ULONG_MAX P) (dec_value s)); [lia|].
  unfold u32. rewrite Z.mod_small by lia. reflexivity.
Qed.

Lemma scan_u_number_end (s : string) :
  is_number s = true ->
  dec_value s <= 4294967295 ->
  scan_u (ULONG_MAX P) s = Some (dec_value s, "").
Proof.
  intros Hs Hv. pose proof (scan_u_number s "" Hs Hv eq_refl) as H.
  now rewrite append_nil_r in H.
Qed.

Lemma sscanf_dotted (s0 s1 s2 s3 : string) :
  is_number s0 = true -> is_number s1 = true ->
  is_number s2 = true -> is_number s3 = true ->
  dec_value s0 <= 4294967295 -> dec_value s1 <= 4294967295 ->
  dec_value s2 <= 4294967295 -> dec_value s3 <= 4294967295 ->
  sscanf (ULONG_MAX P) (dotted s0 s1 s2 s3) fmt_dotted_quad =
  (4, [dec_value s0; dec_value s1; dec_value s2; dec_value s3]).
Proof.
  intros H0 H1 H2 H3 V0 V1 V2 V3. unfold sscanf, fmt_dotted_quad, dotted.
  cbn [sscanf_run].
  rewrite scan_u_number by (assumption || reflexivity).
  cbn [append peek advance Ascii.eqb Bool.eqb is_nul NUL zero andb negb].
  rewrite scan_u_number by (assumption || reflexivity).
  cbn [append peek advance Ascii.eqb Bool.eqb is_nul NUL zero andb negb].
  rewrite scan_u_number by (assumption || reflexivity).
  cbn [append peek advance Ascii.eqb Bool.eqb is_nul NUL zero andb negb].
  rewrite scan_u_number_end by assumption.
  reflexivity.
Qed.

Lemma lor_low8 (m y : Z) : 0 <= m -> 0 <= y < 256 -> Z.lor (m * 256) y = m * 256 + y.
Proof.
  intros Hm Hy.
  assert (H : Z.land (m * 256) y = 0).
  { apply Z.bits_inj'. intros n Hn. rewrite Z.land_spec, Z.bits_0.
    destruct (Z.lt_ge_cases n 8).
    - change 256 with (2 ^ 8). rewrite Z.mul_pow2_bits_low by lia. reflexivity.
    - destruct (Z.eq_dec y 0) as [->|Hy0].
      + rewrite Z.bits_0. apply andb_false_r.
      + rewrite (Z.bits_above_log2 y n); [apply andb_false_r|lia|].
        assert (Z.log2 y < 8) by (apply Z.log2_lt_pow2; lia). lia. }
  rewrite <- Z.lxor_lor by exact H. symmetry. now apply Z.add_nocarry_lxor.
Qed.

Lemma pack_octets (a b c d : Z) :
  0 <= a <= 255 -> 0 <= b <= 255 -> 0 <= c <= 255 -> 0 <= d <= 255 ->
  Z.lor (u32 (Z.shiftl (Z.lor (u32 (Z.shiftl (Z.lor (u32 (Z.shiftl a 8)) b) 8)) c) 8)) d
  = a * 16777216 + b * 65536 + c * 256 + d.
Proof.
  intros Ha Hb Hc Hd. unfold u32.
  rewrite !Z.shiftl_mul_pow2 by lia. change (2 ^ 8) with 256.
  rewrite (Z.mod_small (a * 256)) by lia. rewrite (lor_low8 a b) by lia.
  rewrite (Z.mod_small ((a * 256 + b) * 256)) by lia.
  rewrite (lor_low8 (a * 256 + b) c) by lia.
  rewrite (Z.mod_small (((a * 256 + b) * 256 + c) * 256)) by lia.
  rewrite lor_low8 by lia. lia.
Qed.

Lemma be_bytes32_octets (a b c d : Z) :
  0 <= a <= 255 -> 0 <= b <= 255 -> 0 <= c <= 255 -> 0 <= d <= 255 ->
  be_bytes32 (a * 16777216 + b * 65536 + c * 256 + d) =
  [byte_of_Z a; byte_of_Z b; byte_of_Z c; byte_of_Z d].
Proof.
  intros Ha Hb Hc Hd.
  rewrite <- (be_bytes32_value (byte_of_Z a) (byte_of_Z b) (byte_of_Z c) (byte_of_Z d)).
  f_equal. unfold be_value32, byte_at; cbn [nth].
  rewrite !Z_of_byte_of_Z, !Z.mod_small by lia. reflexivity.
Qed.

(** ** The dotted quad branch in general *)

Lemma httpGetHostByName_ipv4 (cg : cups_globals) (name : string) (a b c d : Z) :
  (strcmp name "localhost" =? 0) = false ->
  Ascii.eqb (peek name) "/" = false ->
  Ascii.eqb (peek name) "[" = false ->
  is_nul (peek (skip_digits_dots name)) = true ->
  sscanf (ULONG_MAX P) name fmt_dotted_quad = (4, [a; b; c; d]) ->
  0 <= a <= 255 -> 0 <= b <= 255 -> 0 <= c <= 255 -> 0 <= d <= 255 ->
  httpGetHostByName P cg name = (CgHostent, cg_after_quad P cg name a b c d).
Proof.
  intros H1 H2 H3 H4 H5 Ha Hb Hc Hd.
  unfold httpGetHostByName, httpGetHostByName_run. rewrite H1, H2, H3, H4, H5.
  cbn [Z.eqb Pos.eqb negb nth].
  destruct (Z.ltb_spec 255 a); [lia|]. destruct (Z.ltb_spec 255 b); [lia|].
  destruct (Z.ltb_spec 255 c); [lia|]. destruct (Z.ltb_spec 255 d); [lia|].
  cbn [orb]. rewrite pack_octets by assumption. reflexivity.
Qed.

Lemma httpGetHostByName_ipv4_count (cg : cups_globals) (name : string) (n : Z) (ip : list Z) :
  (strcmp name "localhost" =? 0) = false ->
  Ascii.eqb (peek name) "/" = false ->
  Ascii.eqb (peek name) "[" = false ->
  is_nul (peek (skip_digits_dots name)) = true ->
  sscanf (ULONG_MAX P) name fmt_dotted_quad = (n, ip) ->
  n <> 4 ->
  httpGetHostByName P cg name = (HostNULL, cg).
Proof.
  intros H1 H2 H3 H4 H5 Hn.
  unfold httpGetHostByName, httpGetHostByName_run. rewrite H1, H2, H3, H4, H5.
  destruct (Z.eqb_spec n 4); [contradiction|]. reflexivity.
Qed.

Lemma httpGetHostByName_ipv4_range (cg : cups_globals) (name : string) (a b c d : Z) :
  (strcmp name "localhost" =? 0) = false ->
  Ascii.eqb (peek name) "/" = false ->
  Ascii.eqb (peek name) "[" = false ->
  is_nul (peek (skip_digits_dots name)) = true ->
  sscanf (ULONG_MAX P) name fmt_dotted_quad = (4, [a; b; c; d]) ->
  255 < a \/ 255 < b \/ 255 < c \/ 255 < d ->
  httpGetHostByName P cg name = (HostNULL, cg).
Proof.
  intros H1 H2 H3 H4 H5 Hr.
  unfold httpGetHostByName, httpGetHostByName_run. rewrite H1, H2, H3, H4, H5.
  cbn [Z.eqb Pos.eqb negb nth].
  destruct (Z.ltb_spec 255 a); [reflexivity|]. destruct (Z.ltb_spec 255 b); [reflexivity|].
  destruct (Z.ltb_spec 255 c); [reflexivity|]. destruct (Z.ltb_spec 255 d); [reflexivity|].
  lia.
Qed.

Lemma dotted_guards (s0 s1 s2 s3 : string) :
  is_number s0 = true -> is_number s1 = true ->
  is_number s2 = true -> is_number s3 = true ->
  (strcmp (dotted s0 s1 s2 s3) "localhost" =? 0) = false /\
  Ascii.eqb (peek (dotted s0 s1 s2 s3)) "/" = false /\
  Ascii.eqb (peek (dotted s0 s1 s2 s3)) "[" = false /\
  is_nul (peek (skip_digits_dots (dotted s0 s1 s2 s3))) = true.
Proof.
  intros H0 H1 H2 H3.
  destruct (number_head s0 H0) as (c & t & E & Hc & _).
  pose proof (isdigit_range c Hc) as Hr.
  split; [|split; [|split]].
  - unfold dotted. rewrite E. cbn [append strcmp peek].
    rewrite (isdigit_neq c) by (assumption || (right; reflexivity)).
    apply Z.eqb_neq. change (Z_of_byte "l"%char) with 108. lia.
  - unfold dotted. rewrite E. cbn [append peek].
    apply isdigit_neq; [assumption|left; reflexivity].
  - unfold dotted. rewrite E. cbn [append peek].
    apply isdigit_neq; [assumption|right; reflexivity].
  - now rewrite skip_digits_dots_dotted.
Qed.

Lemma httpGetHostByName_dotted (cg : cups_globals) (s0 s1 s2 s3 : string) :
  is_number s0 = true -> is_number s1 = true ->
  is_number s2 = true -> is_number s3 = true ->
  dec_value s0 <= 255 -> dec_value s1 <= 255 ->
  dec_value s2 <= 255 -> dec_value s3 <= 255 ->
  httpGetHostByName P cg (dotted s0 s1 s2 s3) =
  (CgHostent, cg_after_quad P cg (dotted s0 s1 s2 s3)
                (dec_value s0) (dec_value s1) (dec_value s2) (dec_value s3)).
Proof.
  intros H0 H1 H2 H3 V0 V1 V2 V3.
  destruct (dotted_guards s0 s1 s2 s3 H0 H1 H2 H3) as (G1 & G2 & G3 & G4).
  pose proof (dec_value_nonneg s0). pose proof (dec_value_nonneg s1).
  pose proof (dec_value_nonneg s2). pose proof (dec_value_nonneg s3).
  apply httpGetHostByName_ipv4; try assumption; try lia.
  apply sscanf_dotted; assumption || lia.
Qed.

Lemma httpGetHostByName_dotted_range (cg : cups_globals) (s0 s1 s2 s3 : string) :
  is_number s0 = true -> is_number s1 = true ->
  is_number s2 = true -> is_number s3 = true ->
  dec_value s0 <= 4294967295 -> dec_value s1 <= 4294967295 ->
  dec_value s2 <= 4294967295 -> dec_value s3 <= 4294967295 ->
  255 < dec_value s0 \/ 255 < dec_value s1 \/ 255 < dec_value s2 \/ 255 < dec_value s3 ->
  httpGetHostByName P cg (dotted s0 s1 s2 s3) = (HostNULL, cg).
Proof.
  intros H0 H1 H2 H3 V0 V1 V2 V3 Hr.
  destruct (dotted_guards s0 s1 s2 s3 H0 H1 H2 H3) as (G1 & G2 & G3 & G4).
  apply (httpGetHostByName_ipv4_range cg (dotted s0 s1 s2 s3)
           (dec_value s0) (dec_value s1) (dec_value s2) (dec_value s3));
    try assumption.
  now apply sscanf_dotted.
Qed.

Lemma httpGetHostByName_quad (cg : cups_globals) (a b c d : Z) :
  0 <= a <= 255 -> 0 <= b <= 255 -> 0 <= c <= 255 -> 0 <= d <= 255 ->
  httpGetHostByName P cg (quad_text a b c d) =
  (CgHostent, cg_after_quad P cg (quad_text a b c d) a b c d).
Proof.
  intros Ha Hb Hc Hd. unfold quad_text.
  rewrite httpGetHostByName_dotted by (rewrite ?fmt_d_value by lia; apply fmt_d_number || lia).
  rewrite !fmt_d_value by lia. reflexivity.
Qed.

Lemma pad_to_length (n : nat) (bs : list byte) : (n <= List.length (pad_to n bs))%nat.
Proof. unfold pad_to. rewrite length_app, repeat_length. lia. Qed.

Lemma nth_set_nth_same {A : Type} (d : A) (i : nat) (x : A) (l : list A) :
  nth i (set_nth d i x l) d = x.
Proof.
  revert l. induction i as [|i IH]; intros [|h t]; cbn [set_nth nth]; auto.
Qed.

Lemma nth_set_nth_other {A : Type} (d : A) (i j : nat) (x : A) (l : list A) :
  i <> j -> nth j (set_nth d i x l) d = nth j l d.
Proof.
  revert j l. induction i as [|i IH]; intros [|j] [|h t] H; cbn [set_nth nth]; auto;
    try contradiction.
  - destruct j; reflexivity.
  - rewrite IH by auto. destruct j; reflexivity.
Qed.

Lemma first_address_quad (cg : cups_globals) (name : string) (a b c d : Z) :
  0 <= a <= 255 -> 0 <= b <= 255 -> 0 <= c <= 255 -> 0 <= d <= 255 ->
  first_address (CgHostent, cg_after_quad P cg name a b c d) =
  Some (quad_bytes a b c d).
Proof.
  intros Ha Hb Hc Hd.
  unfold first_address, cg_after_quad.
  cbn [fst snd deref hostent set_ip_ptr set_hostent h_addr_list_nth h_addr_list
       ip_ptrs h_length].
  rewrite nth_set_nth_other by lia. rewrite nth_set_nth_same.
  unfold read_bytes, ip_row, set_ip_word.
  cbn [ip_addrs set_ip_ptr set_hostent set_ip_row].
  rewrite nth_set_nth_same, store32_htonl, be_bytes32_octets by assumption.
  pose proof (pad_to_length 16
    (write_at (4 * 0) (nth 0 (ip_addrs cg) [])
       [byte_of_Z a; byte_of_Z b; byte_of_Z c; byte_of_Z d])) as Hl.
  destruct (Z.leb_spec 4 (Z.of_nat (Datatypes.length (pad_to 16
    (write_at (4 * 0) (nth 0 (ip_addrs cg) [])
       [byte_of_Z a; byte_of_Z b; byte_of_Z c; byte_of_Z d]))))); [|lia].
  reflexivity.
Qed.

Lemma resolve_and_load_ipv4 (cg : cups_globals) (name : string) (a b c d port : Z)
    (addr : http_addr_t) :
  0 <= a <= 255 -> 0 <= b <= 255 -> 0 <= c <= 255 -> 0 <= d <= 255 ->
  httpGetHostByName P cg name = (CgHostent, cg_after_quad P cg name a b c d) ->
  resolve_and_load P cg name port addr =
  Some {| sa_family := AF_INET;
          sin_port := htons (host_order P) port;
          sin_addr := memcpy (sin_addr addr) (quad_bytes a b c d);
          sin6_addr := sin6_addr addr;
          sun_path := sun_path addr |}.
Proof.
  intros Ha Hb Hc Hd E. unfold resolve_and_load. rewrite E.
  pose proof (first_address_quad cg name a b c d Ha Hb Hc Hd) as Hf.
  unfold first_address in Hf. cbn [fst snd deref] in Hf |- *.
  unfold httpAddrLoad.
  change (h_addrtype (hostent (cg_after_quad P cg name a b c d))) with AF_INET.
  cbn [Z.eqb AF_INET AF_INET6 AF_LOCAL Pos.eqb]. rewrite Hf. reflexivity.
Qed.

Lemma resolve_and_load_quad (cg : cups_globals) (a b c d port : Z) (addr : http_addr_t) :
  0 <= a <= 255 -> 0 <= b <= 255 -> 0 <= c <= 255 -> 0 <= d <= 255 ->
  resolve_and_load P cg (quad_text a b c d) port addr =
  Some {| sa_family := AF_INET;
          sin_port := htons (host_order P) port;
          sin_addr := memcpy (sin_addr addr) (quad_bytes a b c d);
          sin6_addr := sin6_addr addr;
          sun_path := sun_path addr |}.
Proof.
  intros Ha Hb Hc Hd. apply resolve_and_load_ipv4; try assumption.
  now apply httpGetHostByName_quad.
Qed.

Lemma addr_text_ipv4 (a b c d port : Z) (addr : http_addr_t) :
  0 <= a <= 255 -> 0 <= b <= 255 -> 0 <= c <= 255 -> 0 <= d <= 255 ->
  addr_text {| sa_family := AF_INET;
               sin_port := port;
               sin_addr := memcpy (sin_addr addr) (quad_bytes a b c d);
               sin6_addr := sin6_addr addr;
               sun_path := sun_path addr |} = quad_text a b c d.
Proof.
  intros Ha Hb Hc Hd.
  unfold addr_text, byte_at, memcpy, quad_bytes. cbn [sa_family sin_addr app nth].
  change (AF_INET =? AF_INET6) with false. change (AF_INET =? AF_LOCAL) with false.
  change (AF_INET =? AF_INET) with true. cbv iota.
  rewrite !Z_of_byte_of_Z, !Z.mod_small by lia. reflexivity.
Qed.

(** C4 (amended). For octets [a], [b], [c] and [d] in [0,255], resolving the
    text that writes each octet in decimal without leading zeros, loading the
    first address of the result with [httpAddrLoad] and formatting it with
    [httpAddrString] into a buffer longer than the text gives that text back,
    whatever the globals, the port and the address were before.  A text that
    writes the same octets with leading zeros gives the text without them. *)
Theorem resolve_then_string_canonical (cg : cups_globals) (a b c d port : Z)
    (addr : http_addr_t) (s : string) (slen : nat) :
  0 <= a <= 255 -> 0 <= b <= 255 -> 0 <= c <= 255 -> 0 <= d <= 255 ->
  (String.length (quad_text a b c d) < slen)%nat ->
  resolve_to_string P cg (quad_text a b c d) port addr s slen = Some (quad_text a b c d) /\
  (forall s0 s1 s2 s3,
     is_number s0 = true -> is_number s1 = true ->
     is_number s2 = true -> is_number s3 = true ->
     dec_value s0 = a -> dec_value s1 = b -> dec_value s2 = c -> dec_value s3 = d ->
     resolve_to_string P cg (dotted s0 s1 s2 s3) port addr s slen =
     Some (quad_text a b c d)).
Proof.
  intros Ha Hb Hc Hd Hlen.
  assert (Hfmt : forall name,
            httpGetHostByName P cg name = (CgHostent, cg_after_quad P cg name a b c d) ->
            resolve_to_string P cg name port addr s slen = Some (quad_text a b c d)).
  { intros name E. unfold resolve_to_string.
    rewrite (resolve_and_load_ipv4 cg name a b c d) by assumption. f_equal.
    rewrite httpAddrString_unbounded, addr_text_ipv4 by assumption.
    now apply store_str_fits. }
  split.
  - apply Hfmt. now apply httpGetHostByName_quad.
  - intros s0 s1 s2 s3 H0 H1 H2 H3 <- <- <- <-. apply Hfmt.
    apply httpGetHostByName_dotted; assumption || lia.
Qed.

(** ** The name localhost *)

Lemma httpGetHostByName_localhost_is_quad (cg : cups_globals) :
  httpGetHostByName P cg "localhost" = httpGetHostByName P cg (quad_text 127 0 0 1).
Proof.
  change (quad_text 127 0 0 1) with "127.0.0.1".
  unfold httpGetHostByName, httpGetHostByName_run.
  change (strcmp "localhost" "localhost" =? 0) with true.
  change (strcmp "127.0.0.1" "localhost" =? 0) with false.
  reflexivity.
Qed.

(** C9. Resolving localhost is resolving 127.0.0.1: the two calls return the
    same pointer and leave the same globals; the result is an IPv4 entry
    whose address bytes are 127.0.0.1; and the addresses loaded from the two
    results, with any ports, are equal for [httpAddrEqual]. *)
Theorem httpGetHostByName_localhost (cg : cups_globals) :
  httpGetHostByName P cg "localhost" = httpGetHostByName P cg "127.0.0.1" /\
  result_family (httpGetHostByName P cg "localhost") = Some AF_INET /\
  first_address (httpGetHostByName P cg "localhost") =
    Some [byte_of_Z 127; byte_of_Z 0; byte_of_Z 0; byte_of_Z 1] /\
  forall (port1 port2 : Z) (addr1 addr2 : http_addr_t),
    exists a1 a2,
      resolve_and_load P cg "localhost" port1 addr1 = Some a1 /\
      resolve_and_load P cg "127.0.0.1" port2 addr2 = Some a2 /\
      sa_family a1 = AF_INET /\
      httpAddrEqual P a1 a2 = 1.
Proof.
  pose proof (httpGetHostByName_localhost_is_quad cg) as E.
  split; [exact E|]. rewrite E.
  rewrite httpGetHostByName_quad by lia.
  split; [reflexivity|]. split; [apply first_address_quad; lia|].
  intros port1 port2 addr1 addr2.
  eexists. eexists. split.
  - unfold resolve_and_load. rewrite E.
    apply (resolve_and_load_quad cg 127 0 0 1 port1 addr1); lia.
  - split; [apply (resolve_and_load_quad cg 127 0 0 1 port2 addr2); lia|].
    split; [reflexivity|].
    apply httpAddrEqual_same_address. unfold same_address, same_bytes, memcpy.
    cbn [sa_family sin_addr app]. split; [reflexivity|].
    change (AF_INET =? AF_LOCAL) with false. change (AF_INET =? AF_INET6) with false.
    cbv iota. intros i Hi. destruct i as [|[|[|[|i]]]]; try lia; reflexivity.
Qed.

Ltac sscanf_compute :=
  unfold ULONG_MAX; destruct (long_size P); vm_compute; reflexivity.

(** C1 (the code at the failing input). The text 1.2.3.4.5, of five
    components, is accepted: the result is an IPv4 entry for 1.2.3.4, the
    fifth component is not looked at.  The texts 1.2.3 and 1.2.3.256 are
    refused and leave the globals as they were.  In general a text of
    exactly four numbers with dots between them is accepted when every value
    is at most 255, with the values as the bytes of the address, first
    component first, and it is refused when a value is above 255 (and fits
    an [unsigned]). *)
Theorem httpGetHostByName_five_components (cg : cups_globals) :
  (fst (httpGetHostByName P cg "1.2.3.4.5") = CgHostent /\
   result_family (httpGetHostByName P cg "1.2.3.4.5") = Some AF_INET /\
   first_address (httpGetHostByName P cg "1.2.3.4.5") = Some (quad_bytes 1 2 3 4)) /\
  httpGetHostByName P cg "1.2.3" = (HostNULL, cg) /\
  httpGetHostByName P cg "1.2.3.256" = (HostNULL, cg) /\
  (forall s0 s1 s2 s3,
     is_number s0 = true -> is_number s1 = true ->
     is_number s2 = true -> is_number s3 = true ->
     dec_value s0 <= 255 -> dec_value s1 <= 255 ->
     dec_value s2 <= 255 -> dec_value s3 <= 255 ->
     fst (httpGetHostByName P cg (dotted s0 s1 s2 s3)) = CgHostent /\
     result_family (httpGetHostByName P cg (dotted s0 s1 s2 s3)) = Some AF_INET /\
     first_address (httpGetHostByName P cg (dotted s0 s1 s2 s3)) =
       Some (quad_bytes (dec_value s0) (dec_value s1) (dec_value s2) (dec_value s3))) /\
  (forall s0 s1 s2 s3,
     is_number s0 = true -> is_number s1 = true ->
     is_number s2 = true -> is_number s3 = true ->
     dec_value s0 <= 4294967295 -> dec_value s1 <= 4294967295 ->
     dec_value s2 <= 4294967295 -> dec_value s3 <= 4294967295 ->
     255 < dec_value s0 \/ 255 < dec_value s1 \/ 255 < dec_value s2 \/ 255 < dec_value s3 ->
     httpGetHostByName P cg (dotted s0 s1 s2 s3) = (HostNULL, cg)).
Proof.
  assert (E : httpGetHostByName P cg "1.2.3.4.5" =
              (CgHostent, cg_after_quad P cg "1.2.3.4.5" 1 2 3 4)).
  { apply httpGetHostByName_ipv4; try reflexivity; try lia. sscanf_compute. }
  rewrite E. split; [|split; [|split; [|split]]].
  - split; [reflexivity|]. split; [reflexivity|]. apply first_address_quad; lia.
  - apply (httpGetHostByName_ipv4_count cg "1.2.3" 3 [1; 2; 3]); try reflexivity; try lia.
    sscanf_compute.
  - apply (httpGetHostByName_ipv4_range cg "1.2.3.256" 1 2 3 256); try reflexivity; try lia.
    sscanf_compute.
  - intros s0 s1 s2 s3 H0 H1 H2 H3 V0 V1 V2 V3.
    rewrite httpGetHostByName_dotted by assumption.
    pose proof (dec_value_nonneg s0). pose proof (dec_value_nonneg s1).
    pose proof (dec_value_nonneg s2). pose proof (dec_value_nonneg s3).
    split; [reflexivity|]. split; [reflexivity|]. apply first_address_quad; lia.
  - intros. now apply httpGetHostByName_dotted_range.
Qed.

(** ** The one host entry of the globals *)

Lemma httpGetHostByName_strcmp_localhost (cg : cups_globals) (name : string) :
  (strcmp name "localhost" =? 0) = true ->
  httpGetHostByName P cg name = httpGetHostByName P cg (quad_text 127 0 0 1).
Proof.
  intros H. change (quad_text 127 0 0 1) with "127.0.0.1".
  unfold httpGetHostByName, httpGetHostByName_run. rewrite H.
  change (strcmp "127.0.0.1" "localhost" =? 0) with false.
  reflexivity.
Qed.

Lemma httpGetHostByName_pointer (cg : cups_globals) (name : string) :
  fst (httpGetHostByName P cg name) = HostNULL \/
  fst (httpGetHostByName P cg name) = CgHostent \/
  fst (httpGetHostByName P cg name) = libc_hostent (gethostbyname P name).
Proof.
  destruct (strcmp name "localhost" =? 0) eqn:E.
  - rewrite httpGetHostByName_strcmp_localhost, httpGetHostByName_quad by (assumption || lia).
    right; left; reflexivity.
  - unfold httpGetHostByName, httpGetHostByName_run. rewrite E.
    repeat match goal with
           | |- context [match ?x with _ => _ end] =>
               lazymatch x with
               | context [match _ with _ => _ end] => fail
               | _ => destruct x
               end
           end; cbn [fst]; auto.
Qed.

(** C2 (amended). Resolution returns no storage of its own: the pointer
    returned is NULL, the address of the one host entry kept in the library
    globals, or what [gethostbyname] returned.  So when a call has returned
    the entry of the globals and a dotted quad is resolved next, the second
    call returns the same pointer, and the entry and the address read
    through the first pointer are now those of the dotted quad. *)
Theorem httpGetHostByName_shares_its_result (cg : cups_globals) (name : string)
    (a b c d : Z) :
  0 <= a <= 255 -> 0 <= b <= 255 -> 0 <= c <= 255 -> 0 <= d <= 255 ->
  (fst (httpGetHostByName P cg name) = HostNULL \/
   fst (httpGetHostByName P cg name) = CgHostent \/
   fst (httpGetHostByName P cg name) = libc_hostent (gethostbyname P name)) /\
  (fst (httpGetHostByName P cg name) = CgHostent ->
   fst (httpGetHostByName P (snd (httpGetHostByName P cg name)) (quad_text a b c d)) =
     fst (httpGetHostByName P cg name) /\
   result_family
     (fst (httpGetHostByName P cg name),
      snd (httpGetHostByName P (snd (httpGetHostByName P cg name)) (quad_text a b c d))) =
     Some AF_INET /\
   first_address
     (fst (httpGetHostByName P cg name),
      snd (httpGetHostByName P (snd (httpGetHostByName P cg name)) (quad_text a b c d))) =
     Some (quad_bytes a b c d)).
Proof.
  intros Ha Hb Hc Hd. split; [apply httpGetHostByName_pointer|].
  intros E. rewrite E, httpGetHostByName_quad by assumption.
  cbn [fst snd]. split; [reflexivity|]. split; [reflexivity|].
  now apply first_address_quad.
Qed.

End Properties.

Lemma read_bytes_ip_row (cg : cups_globals) (i : nat) :
  read_bytes cg (IpAddrsPtr i) 16 = Some (firstn 16 (ip_row cg i)).
Proof.
  unfold read_bytes. pose proof (pad_to_length 16 (nth i (ip_addrs cg) [])).
  unfold ip_row.
  destruct (Z.leb_spec 16 (Z.of_nat (List.length (pad_to 16 (nth i (ip_addrs cg) [])))));
    [reflexivity|lia].
Qed.

(** ** Bracket literals of four groups *)

Lemma xdigit_range (c : Z) (d : Z) :
  xdigit_val c = Some d ->
  0 <= d < 16 /\ (48 <= c <= 57 \/ 97 <= c <= 102 \/ 65 <= c <= 70).
Proof.
  unfold xdigit_val.
  destruct (Z.leb_spec 48 c), (Z.leb_spec c 57); cbn [andb];
    try (intros [= <-]; lia);
    destruct (Z.leb_spec 97 c), (Z.leb_spec c 102); cbn [andb];
    try (intros [= <-]; lia);
    destruct (Z.leb_spec 65 c), (Z.leb_spec c 70); cbn [andb];
    try (intros [= <-]; lia); discriminate.
Qed.

Lemma xdigit_neq (c c' : byte) (d : Z) :
  xdigit_val (Z_of_byte c) = Some d ->
  xdigit_val (Z_of_byte c') = None ->
  Ascii.eqb c c' = false.
Proof.
  intros Hc Hc'. apply Ascii.eqb_neq. intros ->. congruence.
Qed.

Lemma scan_xdigits_app (s rest : string) (acc : Z) :
  all_xdigits s = true ->
  scan_xdigits acc (s ++ rest) = scan_xdigits (fst (scan_xdigits acc s)) rest.
Proof.
  revert acc. induction s as [|c s IH]; intros acc H; [reflexivity|].
  cbn [all_xdigits] in H. cbn [append scan_xdigits].
  destruct (xdigit_val (Z_of_byte c)); [now apply IH|discriminate].
Qed.

Lemma scan_xdigits_nonneg (s : string) (acc : Z) :
  0 <= acc -> 0 <= fst (scan_xdigits acc s).
Proof.
  revert acc. induction s as [|c s IH]; intros acc H; cbn [scan_xdigits]; [assumption|].
  destruct (xdigit_val (Z_of_byte c)) as [d|] eqn:E; [|assumption].
  apply IH. apply xdigit_range in E. lia.
Qed.

Lemma hex_value_nonneg (s : string) : 0 <= hex_value s.
Proof. apply scan_xdigits_nonneg. lia. Qed.

(** The characters that end a group: a colon or a closing bracket. *)
Lemma strtoul16_group (U : Z) (x r : string) (sep : byte) :
  is_hex_number x = true ->
  hex_value x <= U ->
  sep = ":"%char \/ sep = "]"%char ->
  strtoul16 U (x ++ String sep r) = (hex_value x, String sep r).
Proof.
  intros Hx Hv Hsep.
  assert (Hsepx : xdigit_val (Z_of_byte sep) = None) by (destruct Hsep; subst; reflexivity).
  destruct x as [|c0 t]; [discriminate|]. cbn [is_hex_number all_xdigits] in Hx.
  destruct (xdigit_val (Z_of_byte c0)) as [d0|] eqn:E0; [|discriminate].
  destruct (xdigit_range _ _ E0) as [_ Hr].
  assert (Hsp : skip_space (String c0 t ++ String sep r) = (String c0 t ++ String sep r)%string).
  { cbn [append skip_space]. unfold isspace.
    destruct (Z.eqb_spec (Z_of_byte c0) 32); [lia|].
    destruct (Z.leb_spec 9 (Z_of_byte c0)), (Z.leb_spec (Z_of_byte c0) 13);
      cbn [andb orb]; try reflexivity; lia. }
  assert (Hsg : scan_sign (String c0 t ++ String sep r) =
                (false, (String c0 t ++ String sep r)%string)).
  { cbn [append scan_sign].
    rewrite !(xdigit_neq c0 _ d0) by (assumption || reflexivity). reflexivity. }
  assert (H0x : skip_0x (String c0 t ++ String sep r) = (String c0 t ++ String sep r)%string).
  { destruct t as [|c1 t].
    - cbn [append skip_0x]. destruct r; [reflexivity|].
      destruct Hsep; subst sep; cbn [Ascii.eqb Bool.eqb orb]; now rewrite andb_false_r.
    - cbn [all_xdigits] in Hx.
      destruct (xdigit_val (Z_of_byte c1)) as [d1|] eqn:E1; [|discriminate].
      cbn [append skip_0x].
      rewrite !(xdigit_neq c1 _ d1) by (assumption || reflexivity).
      cbn [orb]. rewrite andb_false_r.
      destruct (t ++ String sep r)%string; reflexivity. }
  unfold strtoul16. rewrite Hsp, Hsg, H0x.
  replace (xdigit_val (Z_of_byte (peek (String c0 t ++ String sep r)))) with (Some d0)
    by (cbn [append peek]; now rewrite E0).
  assert (Hall : all_xdigits (String c0 t) = true) by (cbn [all_xdigits]; now rewrite E0).
  rewrite scan_xdigits_app by exact Hall. fold (hex_value (String c0 t)).
  cbn [scan_xdigits]. rewrite Hsepx.
  unfold strtoul_value. destruct (Z.ltb_spec U (hex_value (String c0 t))); [lia|].
  reflexivity.
Qed.

Section BracketLiterals.

Variable P : platform.

Lemma ipv6_loop_group (k i : nat) (x r : string) (sep : byte) (cg : cups_globals) :
  is_hex_number x = true ->
  hex_value x <= 4294967295 ->
  sep = ":"%char \/ sep = "]"%char ->
  ipv6_loop P (S k) i (x ++ String sep r) cg =
  ipv6_loop P k (S i) r
    (set_ip_word P 0 i (htonl (host_order P) (u32 (hex_value x))) cg).
Proof.
  intros Hx Hv Hsep.
  pose proof (strtoul16_group (ULONG_MAX P) x r sep Hx) as Hs.
  pose proof (ULONG_MAX_32 P) as HU. specialize (Hs ltac:(lia) Hsep).
  destruct x as [|c0 t]; [discriminate|]. cbn [is_hex_number all_xdigits] in Hx.
  destruct (xdigit_val (Z_of_byte c0)) as [d0|] eqn:E0; [|discriminate].
  cbn [ipv6_loop].
  replace (peek (String c0 t ++ String sep r)) with c0 by reflexivity.
  unfold is_nul. rewrite !(xdigit_neq c0 _ d0) by (assumption || reflexivity).
  rewrite Hs. cbn [peek advance].
  destruct Hsep; subst sep; reflexivity.
Qed.

Lemma httpGetHostByName_bracketed (cg : cups_globals) (x0 x1 x2 x3 rest : string) :
  is_hex_number x0 = true -> is_hex_number x1 = true ->
  is_hex_number x2 = true -> is_hex_number x3 = true ->
  hex_value x0 <= 4294967295 -> hex_value x1 <= 4294967295 ->
  hex_value x2 <= 4294967295 -> hex_value x3 <= 4294967295 ->
  httpGetHostByName P cg (bracketed x0 x1 x2 x3 rest) =
  (if is_nul (peek rest) then CgHostent else HostNULL,
   cg_after_bracket P cg (bracketed x0 x1 x2 x3 rest)
     (hex_value x0) (hex_value x1) (hex_value x2) (hex_value x3)).
Proof.
  intros H0 H1 H2 H3 V0 V1 V2 V3.
  unfold httpGetHostByName, httpGetHostByName_run.
  change (strcmp (bracketed x0 x1 x2 x3 rest) "localhost" =? 0) with false.
  change (Ascii.eqb (peek (bracketed x0 x1 x2 x3 rest)) "/") with false.
  change (Ascii.eqb (peek (bracketed x0 x1 x2 x3 rest)) "[") with true.
  cbv iota.
  change (advance (bracketed x0 x1 x2 x3 rest))
    with (x0 ++ String ":" (x1 ++ String ":" (x2 ++ String ":" (x3 ++ String "]" rest))))%string.
  rewrite !ipv6_loop_group by (assumption || auto).
  cbn [ipv6_loop Nat.sub zero_fill]. unfold cg_after_bracket.
  destruct (is_nul (peek rest)); reflexivity.
Qed.

Lemma first_address_bracket (cg : cups_globals) (name : string) (g0 g1 g2 g3 : Z) :
  first_address (CgHostent, cg_after_bracket P cg name g0 g1 g2 g3) =
  Some (groups_bytes g0 g1 g2 g3).
Proof.
  unfold first_address, cg_after_bracket, set_ip_word.
  cbn [fst snd deref hostent set_ip_ptr set_hostent set_ip_row h_addr_list_nth
       h_addr_list ip_ptrs ip_addrs h_length].
  rewrite (nth_set_nth_other NULL 1 0) by lia. rewrite (nth_set_nth_same NULL 0).
  rewrite read_bytes_ip_row. f_equal.
  unfold ip_row. cbn [ip_addrs set_ip_row].
  rewrite !nth_set_nth_same, !store32_htonl.
  assert (Hu : forall g, be_bytes32 (u32 g) = be_bytes32 g).
  { intros g. unfold be_bytes32, u32. rewrite !Z.shiftr_div_pow2 by lia.
    f_equal; [|f_equal; [|f_equal; [|f_equal]]];
      apply Z_of_byte_inj; rewrite !Z_of_byte_of_Z;
      change (2 ^ 24) with 16777216; change (2 ^ 16) with 65536; change (2 ^ 8) with 256;
      Z.div_mod_to_equations; lia. }
  rewrite !Hu. unfold groups_bytes, be_bytes32. reflexivity.
Qed.

End BracketLiterals.

(** ** Bracket literals at concrete inputs *)

Ltac split_globals P cg :=
  destruct P as [[|] [|] ? ? ? ? ? ?];
  destruct cg as [? [|? [|? ?]] [|? ?] ?].

(** C3 (the code at the failing inputs). The literal [[2001:db8::1]] gives
    the groups 0x2001, 0xdb8, 0 and 1, and [[::1]x] is refused.  But
    [[::1]a], with a character after the closing bracket, is accepted: the
    bracket is skipped as a colon is and the character is read as a fourth
    group, so the groups are 0, 0, 1 and 0xa.  And [[::]], with nothing after
    its closing bracket, is refused.  A literal of four hexadecimal numbers
    behaves as the specification says: it gives the four values as the
    groups of the address, and it is refused when any character follows its
    closing bracket. *)
Theorem httpGetHostByName_bracket_literals (P : platform) (cg : cups_globals) :
  (fst (httpGetHostByName P cg "[2001:db8::1]") = CgHostent /\
   result_family (httpGetHostByName P cg "[2001:db8::1]") = Some AF_INET6 /\
   first_address (httpGetHostByName P cg "[2001:db8::1]") =
     Some (groups_bytes 0x2001 0xdb8 0 1)) /\
  fst (httpGetHostByName P cg "[::1]x") = HostNULL /\
  (fst (httpGetHostByName P cg "[::1]a") = CgHostent /\
   first_address (httpGetHostByName P cg "[::1]a") = Some (groups_bytes 0 0 1 0xa)) /\
  fst (httpGetHostByName P cg "[::]") = HostNULL /\
  (forall x0 x1 x2 x3,
     is_hex_number x0 = true -> is_hex_number x1 = true ->
     is_hex_number x2 = true -> is_hex_number x3 = true ->
     hex_value x0 <= 4294967295 -> hex_value x1 <= 4294967295 ->
     hex_value x2 <= 4294967295 -> hex_value x3 <= 4294967295 ->
     (fst (httpGetHostByName P cg (bracketed x0 x1 x2 x3 "")) = CgHostent /\
      result_family (httpGetHostByName P cg (bracketed x0 x1 x2 x3 "")) = Some AF_INET6 /\
      first_address (httpGetHostByName P cg (bracketed x0 x1 x2 x3 "")) =
        Some (groups_bytes (hex_value x0) (hex_value x1) (hex_value x2) (hex_value x3))) /\
     (forall c rest, is_nul c = false ->
        fst (httpGetHostByName P cg (bracketed x0 x1 x2 x3 (String c rest))) = HostNULL)).
Proof.
  split; [|split; [|split; [|split]]].
  - assert (E : fst (httpGetHostByName P cg "[2001:db8::1]") = CgHostent)
      by (split_globals P cg; reflexivity).
    split; [exact E|]. unfold result_family, first_address. rewrite E. cbn [deref].
    assert (Hh : hostent (snd (httpGetHostByName P cg "[2001:db8::1]")) =
                 {| h_name := StrPtr "[2001:db8::1]"; h_aliases := None;
                    h_addrtype := AF_INET6; h_length := 16; h_addr_list := IpPtrs |})
      by (split_globals P cg; reflexivity).
    assert (Hp : nth 0 (ip_ptrs (snd (httpGetHostByName P cg "[2001:db8::1]"))) NULL =
                 IpAddrsPtr 0)
      by (split_globals P cg; reflexivity).
    unfold h_addr_list_nth. rewrite Hh. cbn [h_addrtype h_addr_list h_length].
    rewrite Hp, read_bytes_ip_row. split; [reflexivity|]. f_equal.
    split_globals P cg; vm_compute; reflexivity.
  - split_globals P cg; reflexivity.
  - assert (E : fst (httpGetHostByName P cg "[::1]a") = CgHostent)
      by (split_globals P cg; reflexivity).
    split; [exact E|]. unfold first_address. rewrite E. cbn [deref].
    assert (Hh : hostent (snd (httpGetHostByName P cg "[::1]a")) =
                 {| h_name := StrPtr "[::1]a"; h_aliases := None;
                    h_addrtype := AF_INET6; h_length := 16; h_addr_list := IpPtrs |})
      by (split_globals P cg; reflexivity).
    assert (Hp : nth 0 (ip_ptrs (snd (httpGetHostByName P cg "[::1]a"))) NULL =
                 IpAddrsPtr 0)
      by (split_globals P cg; reflexivity).
    unfold h_addr_list_nth. rewrite Hh. cbn [h_addrtype h_addr_list h_length].
    rewrite Hp, read_bytes_ip_row. f_equal.
    split_globals P cg; vm_compute; reflexivity.
  - split_globals P cg; reflexivity.
  - intros x0 x1 x2 x3 H0 H1 H2 H3 V0 V1 V2 V3. split.
    + rewrite httpGetHostByName_bracketed by assumption. cbn [peek is_nul Ascii.eqb NUL].
      change (Ascii.eqb zero zero) with true. cbv iota.
      split; [reflexivity|]. split; [reflexivity|]. apply first_address_bracket.
    + intros c rest Hc. rewrite httpGetHostByName_bracketed by assumption.
      cbn [peek fst]. now rewrite Hc.
Qed.

(** ** Concrete instances

    The statements above at particular inputs, on [linux_x86_64] with the
    globals [cg0]. *)

Lemma httpAddrLoad_unsupported_family_witness :
  httpAddrLoad linux_x86_64 cg0 empty_hostent 631 0 (ipv4_addr 80 10 0 0 1) =
  Some (ipv4_addr 80 10 0 0 1).
Proof.
  apply (httpAddrLoad_unsupported_family linux_x86_64 cg0 empty_hostent 631 0
           (ipv4_addr 80 10 0 0 1));
    unfold AF_INET6, AF_LOCAL, AF_INET; simpl; lia.
Defined.

Lemma httpAddrString_text_witness :
  httpAddrString linux_x86_64 addr0 "" 8 = "UNKNOWN" /\
  httpAddrString linux_x86_64 (ipv4_addr 631 192 0 2 1) "" 16 = "192.0.2.1" /\
  httpAddrString linux_x86_64 (ipv6_addr 631 536939960 0 65535 171) "" 32 =
    "[20010db8:0:ffff:ab]" /\
  httpAddrString linux_x86_64 (unix_addr "/var/run/cups/cups.sock") "" 32 =
    "/var/run/cups/cups.sock".
Proof.
  split; [|split; [|split]].
  - refine (proj2 (proj2 (proj2 (proj2 (httpAddrString_text linux_x86_64 addr0 "" 8 _))))
              _ _ _); vm_compute; (lia || discriminate).
  - refine (proj1 (proj2 (httpAddrString_text linux_x86_64
                            (ipv4_addr 631 192 0 2 1) "" 16 _)) eq_refl).
    vm_compute. lia.
  - refine (proj1 (proj2 (proj2 (httpAddrString_text linux_x86_64
                                   (ipv6_addr 631 536939960 0 65535 171) "" 32 _)))
              eq_refl).
    vm_compute. lia.
  - refine (proj1 (proj2 (proj2 (proj2 (httpAddrString_text linux_x86_64
                                          (unix_addr "/var/run/cups/cups.sock") "" 32 _))))
              eq_refl).
    vm_compute. lia.
Defined.

Lemma httpAddrLookup_outcomes_witness :
  httpAddrLookup linux_x86_64 (ipv4_addr 631 192 0 2 1) "" 16 = (None, "192.0.2.1") /\
  httpAddrString linux_x86_64 (ipv4_addr 631 192 0 2 1) "" 16 <> "".
Proof.
  pose proof (httpAddrLookup_outcomes linux_x86_64 (ipv4_addr 631 192 0 2 1) "" 16
                ltac:(lia)) as (_ & _ & H).
  assert (Hf : sa_family (ipv4_addr 631 192 0 2 1) <> AF_LOCAL)
    by (vm_compute; discriminate).
  exact (H Hf eq_refl).
Defined.

Lemma resolve_then_string_canonical_witness :
  resolve_to_string linux_x86_64 cg0 "192.0.2.1" 631 addr0 "" 16 = Some "192.0.2.1" /\
  resolve_to_string linux_x86_64 cg0 "192.000.02.1" 631 addr0 "" 16 = Some "192.0.2.1".
Proof.
  pose proof (resolve_then_string_canonical linux_x86_64 cg0 192 0 2 1 631 addr0 "" 16
                ltac:(lia) ltac:(lia) ltac:(lia) ltac:(lia)) as H.
  assert (Hlen : (String.length (quad_text 192 0 2 1) < 16)%nat) by (vm_compute; lia).
  destruct (H Hlen) as [H1 H2]. split; [exact H1|].
  apply (H2 "192" "000" "02" "1"); reflexivity.
Defined.

Lemma httpGetHostByName_shares_its_result_witness :
  first_address
    (fst (httpGetHostByName linux_x86_64 cg0 "/var/run/cups/cups.sock"),
     snd (httpGetHostByName linux_x86_64
            (snd (httpGetHostByName linux_x86_64 cg0 "/var/run/cups/cups.sock"))
            "5.6.7.8")) =
  Some (quad_bytes 5 6 7 8).
Proof.
  pose proof (httpGetHostByName_shares_its_result linux_x86_64 cg0
                "/var/run/cups/cups.sock" 5 6 7 8
                ltac:(lia) ltac:(lia) ltac:(lia) ltac:(lia)) as [_ H].
  apply H. reflexivity.
Defined.

(** C2, as stated, fails: two calls return the same pointer, and the
    address read through the pointer of the first call, 1.2.3.4 before the
    second call, is 5.6.7.8 after it. *)
Lemma httpGetHostByName_second_call_overwrites :
  fst (httpGetHostByName linux_x86_64 cg0 "1.2.3.4") =
  fst (httpGetHostByName linux_x86_64
         (snd (httpGetHostByName linux_x86_64 cg0 "1.2.3.4")) "5.6.7.8") /\
  first_address (httpGetHostByName linux_x86_64 cg0 "1.2.3.4") =
    Some (quad_bytes 1 2 3 4) /\
  first_address
    (fst (httpGetHostByName linux_x86_64 cg0 "1.2.3.4"),
     snd (httpGetHostByName linux_x86_64
            (snd (httpGetHostByName linux_x86_64 cg0 "1.2.3.4")) "5.6.7.8")) =
    Some (quad_bytes 5 6 7 8) /\
  quad_bytes 1 2 3 4 <> quad_bytes 5 6 7 8.
Proof.
  split; [reflexivity|]. split; [reflexivity|]. split; [reflexivity|].
  discriminate.
Qed.

(** C4, as stated, fails: 01.2.3.4 is a dotted quad of four octets in
    [0,255] that resolves, and the text formatted from the result is 1.2.3.4,
    not the input. *)
Lemma resolve_then_string_leading_zero :
  fst (httpGetHostByName linux_x86_64 cg0 "01.2.3.4") = CgHostent /\
  resolve_to_string linux_x86_64 cg0 "01.2.3.4" 631 addr0 "" 64 = Some "1.2.3.4" /\
  "1.2.3.4" <> "01.2.3.4".
Proof.
  split; [reflexivity|]. split; [reflexivity|]. discriminate.
Qed.

(** C8, as stated, fails: with a buffer of one byte and a reverse lookup
    that fails, the caller gets NULL and the empty string. *)
Lemma httpAddrLookup_one_byte_buffer :
  reverse_lookup linux_x86_64 (ipv4_addr 631 192 0 2 1) = None /\
  httpAddrLookup linux_x86_64 (ipv4_addr 631 192 0 2 1) "name" 1 = (None, "").
Proof. split; reflexivity. Qed.

(** * More properties of the routines *)

(** ** Facts on strings and buffers *)

Lemma take_length (n : nat) (t : string) : (String.length (take n t) <= n)%nat.
Proof.
  revert t. induction n as [|n IH]; intros [|c t]; cbn [take String.length]; try lia.
  specialize (IH t). lia.
Qed.

Lemma take_length_le (n : nat) (t : string) :
  (String.length (take n t) <= String.length t)%nat.
Proof.
  revert t. induction n as [|n IH]; intros [|c t]; cbn [take String.length]; try lia.
  specialize (IH t). lia.
Qed.

Lemma cstr_idem (s : string) : cstr (cstr s) = cstr s.
Proof.
  induction s as [|c s IH]; [reflexivity|]. cbn [cstr].
  destruct (is_nul c) eqn:E; [reflexivity|]. cbn [cstr]. now rewrite E, IH.
Qed.


Lemma cstr_length (s : string) : (String.length (cstr s) <= String.length s)%nat.
Proof.
  induction s as [|c s IH]; cbn [cstr String.length]; [lia|].
  destruct (is_nul c); cbn [String.length]; lia.
Qed.

Lemma store_str_length (dst text : string) (n : nat) :
  (String.length (store_str dst (S n) text) <= n)%nat.
Proof. apply take_length. Qed.

Lemma forallb_agree (f g : nat -> bool) (l : list nat) :
  (forall i, In i l -> f i = g i) -> forallb f l = forallb g l.
Proof.
  induction l as [|x l IH]; intros H; [reflexivity|]. cbn [forallb].
  rewrite (H x) by (left; reflexivity). rewrite IH; [reflexivity|].
  intros i Hi. apply H. now right.
Qed.

Lemma nth_skipn_add (k j : nat) (l : list byte) :
  nth j (skipn k l) NUL = nth (k + j) l NUL.
Proof.
  revert l. induction k as [|k IH]; intros l; [reflexivity|].
  destruct l as [|x l]; [destruct j; reflexivity|]. cbn [skipn Nat.add nth]. apply IH.
Qed.

Lemma same_bytes_byte_at (n : nat) (a b : list byte) (i : nat) :
  same_bytes n a b -> (i < n)%nat -> byte_at a i = byte_at b i.
Proof. intros H Hi. unfold byte_at. now rewrite (H i Hi). Qed.

Section MoreProperties.

Variable P : platform.

(** ** httpAddrAny *)

Lemma any4_bytes (a : http_addr_t) :
  ntohl (host_order P) (s_addr P a) = 0 <->
  List.map (byte_at (sin_addr a)) [0; 1; 2; 3]%nat = [0; 0; 0; 0].
Proof.
  rewrite ntohl_s_addr. cbn [List.map].
  pose proof (byte_at_range (sin_addr a) 0). pose proof (byte_at_range (sin_addr a) 1).
  pose proof (byte_at_range (sin_addr a) 2). pose proof (byte_at_range (sin_addr a) 3).
  split.
  - intros E.
    assert (byte_at (sin_addr a) 0 = 0) by lia.
    assert (byte_at (sin_addr a) 1 = 0) by lia.
    assert (byte_at (sin_addr a) 2 = 0) by lia.
    assert (byte_at (sin_addr a) 3 = 0) by lia.
    congruence.
  - intros E. injection E as E0 E1 E2 E3. lia.
Qed.

Lemma httpAddrAny_is_any (a : http_addr_t) : httpAddrAny P a = 1 <-> is_any a.
Proof.
  unfold httpAddrAny, is_any.
  pose proof (IN6_IS_ADDR_UNSPECIFIED_spec (sin6_addr a)) as Hu.
  pose proof (any4_bytes a) as H4.
  destruct (Z.eqb_spec (sa_family a) AF_INET6) as [E6|E6];
  destruct (Z.eqb_spec (sa_family a) AF_INET) as [E4|E4];
  try (exfalso; unfold AF_INET6, AF_INET in *; lia); cbn [andb].
  - destruct (IN6_IS_ADDR_UNSPECIFIED (sin6_addr a)).
    + tauto.
    + split; [discriminate|]. intros [[_ H]|[H _]]; [|contradiction].
      apply Hu in H. discriminate.
  - destruct (Z.eqb_spec (ntohl (host_order P) (s_addr P a)) 0) as [E|E].
    + tauto.
    + split; [discriminate|]. intros [[H _]|[_ H]]; [contradiction|].
      apply H4 in H. contradiction.
  - split; [discriminate|]. intros [[H _]|[H _]]; contradiction.
Qed.

Lemma httpAddrAny_bool (a : http_addr_t) : httpAddrAny P a = 0 \/ httpAddrAny P a = 1.
Proof.
  unfold httpAddrAny.
  repeat match goal with |- context [if ?c then _ else _] => destruct c end; auto.
Qed.

(** X1. [httpAddrAny] answers 1 exactly for the IPv6 address whose 16 bytes
    are zero and the IPv4 address whose 4 bytes are zero, and 0 for every
    other address; a Unix domain address is never "any", and an "any"
    address of IPv6 is also a local one for [httpAddrLocalhost] while the
    "any" address of IPv4 is not. *)
Theorem httpAddrAny_only_unspecified (a : http_addr_t) :
  (httpAddrAny P a = 1 <-> is_any a) /\
  (httpAddrAny P a = 0 <-> ~ is_any a) /\
  (sa_family a = AF_LOCAL -> httpAddrAny P a = 0) /\
  (httpAddrAny P a = 1 -> sa_family a = AF_INET6 -> httpAddrLocalhost P a = 1) /\
  (httpAddrAny P a = 1 -> sa_family a = AF_INET -> httpAddrLocalhost P a = 0).
Proof.
  pose proof (httpAddrAny_is_any a) as H1.
  pose proof (httpAddrAny_bool a) as Hb.
  split; [exact H1|]. split; [|split; [|split]].
  - split.
    + intros H0 Ha. apply H1 in Ha. congruence.
    + intros Hn. destruct Hb as [Hb|Hb]; [exact Hb|]. apply H1 in Hb. contradiction.
  - intros El. destruct Hb as [Hb|Hb]; [exact Hb|]. apply H1 in Hb.
    destruct Hb as [[E _]|[E _]]; unfold AF_LOCAL, AF_INET6, AF_INET in *; lia.
  - intros Ha E6. apply httpAddrLocalhost_is_local. left. split; [exact E6|]. right.
    apply H1 in Ha. destruct Ha as [[_ H]|[E _]]; [exact H|].
    unfold AF_INET6, AF_INET in *; lia.
  - intros Ha E4. apply H1 in Ha.
    destruct Ha as [[E _]|[_ H]]; [unfold AF_INET6, AF_INET in *; lia|].
    apply any4_bytes in H. unfold httpAddrLocalhost. rewrite H.
    destruct (Z.eqb_spec (sa_family a) AF_INET6); [unfold AF_INET6, AF_INET in *; lia|].
    destruct (Z.eqb_spec (sa_family a) AF_LOCAL); [unfold AF_LOCAL, AF_INET in *; lia|].
    cbn [andb]. now rewrite andb_false_r.
Qed.

(** ** httpAddrEqual as a relation *)

Lemma same_address_refl (a : http_addr_t) : same_address a a.
Proof.
  unfold same_address, same_bytes. split; [reflexivity|].
  destruct (sa_family a =? AF_LOCAL); [reflexivity|].
  destruct (sa_family a =? AF_INET6); intros; reflexivity.
Qed.

Lemma same_address_sym (a b : http_addr_t) : same_address a b -> same_address b a.
Proof.
  unfold same_address, same_bytes. intros [Ef H]. split; [now symmetry|].
  rewrite <- Ef.
  destruct (sa_family a =? AF_LOCAL); [now symmetry|].
  destruct (sa_family a =? AF_INET6); intros i Hi; symmetry; now apply H.
Qed.

Lemma same_address_trans (a b c : http_addr_t) :
  same_address a b -> same_address b c -> same_address a c.
Proof.
  unfold same_address, same_bytes. intros [Ef H] [Ef' H']. split; [congruence|].
  rewrite <- Ef in H'.
  destruct (sa_family a =? AF_LOCAL); [congruence|].
  destruct (sa_family a =? AF_INET6); intros i Hi; rewrite H by assumption; now apply H'.
Qed.

(** X2. [httpAddrEqual] is an equivalence: every address is equal to
    itself, the answer does not depend on the order of the two arguments,
    and two addresses equal to a third are equal. *)
Theorem httpAddrEqual_equivalence :
  (forall a, httpAddrEqual P a a = 1) /\
  (forall a b, httpAddrEqual P a b = httpAddrEqual P b a) /\
  (forall a b c, httpAddrEqual P a b = 1 -> httpAddrEqual P b c = 1 ->
                 httpAddrEqual P a c = 1).
Proof.
  split; [|split].
  - intros a. apply httpAddrEqual_same_address, same_address_refl.
  - intros a b.
    destruct (httpAddrEqual_bool P a b) as [H|H], (httpAddrEqual_bool P b a) as [H'|H'];
      try congruence.
    + apply httpAddrEqual_same_address, same_address_sym in H'.
      apply (proj2 (httpAddrEqual_same_address P a b)) in H'. congruence.
    + apply httpAddrEqual_same_address, same_address_sym in H.
      apply (proj2 (httpAddrEqual_same_address P b a)) in H. congruence.
  - intros a b c H H'. apply httpAddrEqual_same_address.
    apply httpAddrEqual_same_address in H, H'. now apply (same_address_trans a b c).
Qed.

(** ** Equal addresses cannot be told apart *)

Lemma group32_same (a b : list byte) (i : nat) :
  same_bytes 16 a b -> (i < 4)%nat -> group32 a i = group32 b i.
Proof.
  intros H Hi. unfold group32, be_value32, byte_at.
  rewrite !nth_skipn_add.
  rewrite (H (4 * i + 0)%nat), (H (4 * i + 1)%nat), (H (4 * i + 2)%nat),
          (H (4 * i + 3)%nat) by lia.
  reflexivity.
Qed.

Lemma addr_text_same (a b : http_addr_t) : same_address a b -> addr_text a = addr_text b.
Proof.
  unfold same_address, addr_text. intros [Ef H]. rewrite <- Ef.
  destruct (sa_family a =? AF_INET6) eqn:E6.
  - assert (El : (sa_family a =? AF_LOCAL) = false).
    { apply Z.eqb_eq in E6. rewrite E6. reflexivity. }
    rewrite El in H.
    rewrite !(group32_same (sin6_addr a) (sin6_addr b)) by (assumption || lia).
    reflexivity.
  - destruct (sa_family a =? AF_LOCAL); [exact H|].
    destruct (sa_family a =? AF_INET); [|reflexivity].
    rewrite !(same_bytes_byte_at 4 (sin_addr a) (sin_addr b)) by (assumption || lia).
    reflexivity.
Qed.

(** X3. Two addresses that [httpAddrEqual] finds equal get the same answer
    from [httpAddrAny] and from [httpAddrLocalhost], the same length from
    [httpAddrLength], and the same text from [httpAddrString] in the same
    buffer. *)
Theorem httpAddrEqual_congruence (a b : http_addr_t) :
  httpAddrEqual P a b = 1 ->
  httpAddrAny P a = httpAddrAny P b /\
  httpAddrLocalhost P a = httpAddrLocalhost P b /\
  (forall S, httpAddrLength S a = httpAddrLength S b) /\
  (forall s slen, httpAddrString P a s slen = httpAddrString P b s slen).
Proof.
  intros H. apply httpAddrEqual_same_address in H.
  pose proof (addr_text_same a b H) as Ht.
  destruct H as [Ef H].
  split; [|split; [|split]].
  - unfold httpAddrAny, s_addr. rewrite <- Ef.
    destruct (Z.eqb_spec (sa_family a) AF_LOCAL) as [El|El].
    + rewrite El. reflexivity.
    + destruct (Z.eqb_spec (sa_family a) AF_INET6) as [E6|E6].
      * rewrite E6. change (AF_INET6 =? AF_INET) with false. cbn [andb].
        unfold IN6_IS_ADDR_UNSPECIFIED.
        rewrite (forallb_agree (fun i => byte_at (sin6_addr a) i =? 0)
                   (fun i => byte_at (sin6_addr b) i =? 0)); [reflexivity|].
        intros i Hi. apply in_seq in Hi.
        rewrite (same_bytes_byte_at 16 _ _ i H) by lia. reflexivity.
      * cbn [andb]. apply (load32_eq (host_order P)) in H. now rewrite H.
  - unfold httpAddrLocalhost, s_addr. rewrite <- Ef.
    destruct (Z.eqb_spec (sa_family a) AF_LOCAL) as [El|El].
    + rewrite El. reflexivity.
    + destruct (Z.eqb_spec (sa_family a) AF_INET6) as [E6|E6].
      * rewrite E6. change (AF_INET6 =? AF_INET) with false. cbn [andb].
        unfold IN6_IS_ADDR_LOOPBACK, IN6_IS_ADDR_UNSPECIFIED.
        assert (Hz : forall n, (n <= 16)%nat ->
                  forallb (fun i => byte_at (sin6_addr a) i =? 0) (seq 0 n) =
                  forallb (fun i => byte_at (sin6_addr b) i =? 0) (seq 0 n)).
        { intros n Hn. apply forallb_agree. intros i Hi. apply in_seq in Hi.
          rewrite (same_bytes_byte_at 16 _ _ i H) by lia. reflexivity. }
        rewrite (Hz 15%nat), (Hz 16%nat) by lia.
        rewrite (same_bytes_byte_at 16 _ _ 15%nat H) by lia. reflexivity.
      * cbn [andb]. apply (load32_eq (host_order P)) in H. now rewrite H.
  - intros S. unfold httpAddrLength, strlen. rewrite <- Ef.
    destruct (sa_family a =? AF_INET6); [reflexivity|].
    destruct (sa_family a =? AF_LOCAL); [now rewrite H|reflexivity].
  - intros s slen. rewrite !httpAddrString_unbounded. now rewrite Ht.
Qed.

(** ** Buffers are never overrun *)

(** X4. [httpAddrString] writes at most [slen - 1] characters: what the
    buffer holds afterwards is the text of the address cut to that length,
    and a buffer of size 0 is left as it was. *)
Theorem httpAddrString_truncates (a : http_addr_t) (s : string) (n : nat) :
  httpAddrString P a s (S n) = take n (addr_text a) /\
  (String.length (httpAddrString P a s (S n)) <= n)%nat /\
  (String.length (httpAddrString P a s (S n)) <= String.length (addr_text a))%nat /\
  httpAddrString P a s 0 = s.
Proof.
  rewrite !httpAddrString_unbounded. cbn [store_str].
  split; [reflexivity|]. split; [apply take_length|]. split; [apply take_length_le|].
  reflexivity.
Qed.

(** X5. With a name buffer of at least one byte, [httpAddrLookup] writes at
    most [namelen - 1] characters to it; it returns NULL exactly when the address is not a Unix
    domain address and the reverse lookup finds no name, and otherwise it
    returns the buffer. *)
Theorem httpAddrLookup_result (a : http_addr_t) (name : string) (n : nat) :
  (String.length (snd (httpAddrLookup P a name (S n))) <= n)%nat /\
  (fst (httpAddrLookup P a name (S n)) = None <->
   sa_family a <> AF_LOCAL /\ reverse_lookup P a = None) /\
  (fst (httpAddrLookup P a name (S n)) = None \/
   fst (httpAddrLookup P a name (S n)) = Some (snd (httpAddrLookup P a name (S n)))).
Proof.
  unfold httpAddrLookup, reverse_lookup.
  destruct (Z.eqb_spec (sa_family a) AF_INET6) as [E6|E6].
  - assert (El : sa_family a <> AF_LOCAL) by (rewrite E6; discriminate).
    destruct (gethostbyaddr P (firstn 16 (sin6_addr a)) 16 AF_INET6); cbn [fst snd].
    + split; [apply take_length|]. split; [|now right].
      split; [discriminate|]. intros [_ H]. discriminate.
    + rewrite httpAddrString_unbounded. split; [apply take_length|].
      split; [|now left]. tauto.
  - destruct (Z.eqb_spec (sa_family a) AF_LOCAL) as [El|El]; cbn [fst snd].
    + split; [apply take_length|]. split; [|now right].
      split; [discriminate|]. intros [H _]. contradiction.
    + destruct (sa_family a =? AF_INET).
      * destruct (gethostbyaddr P (firstn 4 (sin_addr a)) 4 AF_INET); cbn [fst snd].
        -- split; [apply take_length|]. split; [|now right].
           split; [discriminate|]. intros [_ H]. discriminate.
        -- rewrite httpAddrString_unbounded. split; [apply take_length|].
           split; [|now left]. tauto.
      * cbn [fst snd]. rewrite httpAddrString_unbounded. split; [apply take_length|].
        split; [|now left]. tauto.
Qed.

(** ** httpAddrLength *)

(** X6. With struct sizes that are positive, [httpAddrLength] is 0 exactly
    for the families other than IPv6, Unix domain and IPv4; for a Unix
    domain address it is the size of the family tag plus the length of the
    path up to its first NUL, the terminator not counted. *)
Theorem httpAddrLength_zero (S : struct_sizes) (a : http_addr_t) :
  0 < sizeof_ipv6 S -> 0 < sizeof_ipv4 S -> 0 < sizeof_sun_family S ->
  (httpAddrLength S a = 0 <->
   sa_family a <> AF_INET6 /\ sa_family a <> AF_LOCAL /\ sa_family a <> AF_INET) /\
  (sa_family a = AF_LOCAL ->
   httpAddrLength S a = sizeof_sun_family S + Z.of_nat (String.length (cstr (sun_path a))) /\
   httpAddrLength S a <= sizeof_sun_family S + Z.of_nat (String.length (sun_path a))).
Proof.
  intros H6 H4 Hf. unfold httpAddrLength, strlen. split.
  - destruct (Z.eqb_spec (sa_family a) AF_INET6); [split; [lia|tauto]|].
    destruct (Z.eqb_spec (sa_family a) AF_LOCAL); [split; [lia|tauto]|].
    destruct (Z.eqb_spec (sa_family a) AF_INET); [split; [lia|tauto]|]. tauto.
  - intros ->. cbn [Z.eqb AF_LOCAL AF_INET6 Pos.eqb]. split; [reflexivity|].
    pose proof (cstr_length (sun_path a)). lia.
Qed.

(** ** httpAddrLoad *)

Lemma read_bytes_length (cg : cups_globals) (p : char_ptr) (n : Z) (src : list byte) :
  read_bytes cg p n = Some src -> Z.of_nat (List.length src) = n.
Proof.
  unfold read_bytes.
  assert (H : forall bs,
            (if (0 <=? n) && (n <=? Z.of_nat (List.length bs))
             then Some (firstn (Z.to_nat n) bs) else None) = Some src ->
            Z.of_nat (List.length src) = n).
  { intros bs. destruct (Z.leb_spec 0 n); [|discriminate].
    destruct (Z.leb_spec n (Z.of_nat (List.length bs))); [|discriminate].
    cbn [andb]. intros [= <-]. rewrite length_firstn. lia. }
  destruct p; try discriminate; apply H.
Qed.

Lemma read_string_cstr (cg : cups_globals) (p : char_ptr) (src : string) :
  read_string cg p = Some src -> cstr src = src.
Proof.
  unfold read_string.
  destruct p; try discriminate; try (intros [= <-]; apply cstr_idem);
    match goal with |- context [existsb is_nul ?bs] => destruct (existsb is_nul bs) end;
    try discriminate; intros [= <-]; apply cstr_idem.
Qed.

Lemma same_bytes_memcpy (n : nat) (d1 d2 src : list byte) :
  (n <= List.length src)%nat -> same_bytes n (memcpy d1 src) (memcpy d2 src).
Proof.
  intros H i Hi. unfold memcpy. rewrite !app_nth1 by lia. reflexivity.
Qed.

(** X7. Loading the same address of a host entry twice gives equal
    addresses, whatever the two ports and whatever the two addresses held
    before: for IPv4 when the entry's length is at least 4, for IPv6 when it
    is at least 16, for a Unix domain entry when the path buffer is not
    empty. *)
Theorem httpAddrLoad_same_entry (cg : cups_globals) (host : struct_hostent) (n : nat)
    (port1 port2 : Z) (addr1 addr2 a1 a2 : http_addr_t) :
  (h_addrtype host = AF_INET /\ 4 <= h_length host) \/
  (h_addrtype host = AF_INET6 /\ 16 <= h_length host) \/
  (h_addrtype host = AF_LOCAL /\ (0 < sun_path_size P)%nat) ->
  httpAddrLoad P cg host port1 n addr1 = Some a1 ->
  httpAddrLoad P cg host port2 n addr2 = Some a2 ->
  httpAddrEqual P a1 a2 = 1.
Proof.
  intros Hf H1 H2. apply httpAddrEqual_same_address.
  unfold httpAddrLoad in H1, H2.
  destruct Hf as [[Ef Hl]|[[Ef Hl]|[Ef Hl]]]; rewrite Ef in H1, H2;
    cbn [Z.eqb AF_INET AF_INET6 AF_LOCAL Pos.eqb] in H1, H2.
  - destruct (read_bytes cg (h_addr_list_nth cg host n) (h_length host)) as [src|] eqn:E;
      [|discriminate].
    apply read_bytes_length in E.
    injection H1 as <-. injection H2 as <-.
    unfold same_address. cbn [sa_family sin_addr]. split; [reflexivity|].
    cbn [Z.eqb AF_INET AF_INET6 AF_LOCAL Pos.eqb]. apply same_bytes_memcpy. lia.
  - destruct (read_bytes cg (h_addr_list_nth cg host n) (h_length host)) as [src|] eqn:E;
      [|discriminate].
    apply read_bytes_length in E.
    injection H1 as <-. injection H2 as <-.
    unfold same_address. cbn [sa_family sin6_addr]. split; [reflexivity|].
    cbn [Z.eqb AF_INET AF_INET6 AF_LOCAL Pos.eqb]. apply same_bytes_memcpy. lia.
  - destruct (read_string cg (h_addr_list_nth cg host n)) as [src|]; [|discriminate].
    injection H1 as <-. injection H2 as <-.
    unfold same_address. cbn [sa_family sun_path]. split; [reflexivity|].
    cbn [Z.eqb AF_INET AF_INET6 AF_LOCAL Pos.eqb].
    unfold strlcpy. destruct (sun_path_size P); [lia|]. reflexivity.
Qed.


Lemma firstn_exact (l1 l2 : list byte) : firstn (List.length l1) (l1 ++ l2) = l1.
Proof.
  rewrite firstn_app, Nat.sub_diag, firstn_all. cbn [firstn]. apply app_nil_r.
Qed.






(** ** httpGetHostByName: domain sockets, failures and the globals *)

(** X9. A name that starts with a slash always resolves: the result is the
    entry of the globals, of family
    Unix domain, with the name itself as canonical name and a length of the
    name plus its terminator.  The address loaded from it holds the name cut
    to the path buffer, is a local address and is not the "any" address; and
    when the name fits the path buffer and the text buffer, formatting the
    loaded address gives the name back. *)
Theorem httpGetHostByName_domain_socket (cg : cups_globals) (t : string) :
  fst (httpGetHostByName P cg (String "/" t)) = CgHostent /\
  hostent (snd (httpGetHostByName P cg (String "/" t))) =
    {| h_name := StrPtr (String "/" t); h_aliases := None; h_addrtype := AF_LOCAL;
       h_length := strlen (String "/" t) + 1; h_addr_list := IpPtrs |} /\
  (forall port addr k, sun_path_size P = S k ->
     exists a,
       resolve_and_load P cg (String "/" t) port addr = Some a /\
       sa_family a = AF_LOCAL /\
       sun_path a = take k (cstr (String "/" t)) /\
       httpAddrLocalhost P a = 1 /\
       httpAddrAny P a = 0) /\
  (forall port addr s slen,
     (String.length (cstr (String "/" t)) < sun_path_size P)%nat ->
     (String.length (cstr (String "/" t)) < slen)%nat ->
     resolve_to_string P cg (String "/" t) port addr s slen =
     Some (cstr (String "/" t))).
Proof.
  assert (E : httpGetHostByName P cg (String "/" t) =
              (CgHostent,
               set_ip_ptr 1 NULL
                 (set_ip_ptr 0 (StrPtr (String "/" t))
                    (set_hostent
                       {| h_name := StrPtr (String "/" t); h_aliases := None;
                          h_addrtype := AF_LOCAL;
                          h_length := strlen (String "/" t) + 1;
                          h_addr_list := IpPtrs |} cg)))).
  { unfold httpGetHostByName, httpGetHostByName_run.
    change (strcmp (String "/" t) "localhost" =? 0) with false. reflexivity. }
  assert (L : forall port addr, exists a,
            resolve_and_load P cg (String "/" t) port addr = Some a /\
            sa_family a = AF_LOCAL /\
            sun_path a = strlcpy (sun_path addr) (cstr (String "/" t)) (sun_path_size P)).
  { intros port addr. unfold resolve_and_load. rewrite E. cbn [fst snd deref].
    unfold httpAddrLoad, h_addr_list_nth.
    cbn [hostent set_ip_ptr set_hostent h_addrtype h_addr_list ip_ptrs].
    cbn [Z.eqb AF_INET AF_INET6 AF_LOCAL Pos.eqb].
    rewrite (nth_set_nth_other NULL 1 0) by lia. rewrite (nth_set_nth_same NULL 0).
    cbn [read_string]. eexists. split; [reflexivity|]. split; reflexivity. }
  rewrite E. split; [reflexivity|]. split; [reflexivity|]. split.
  - intros port addr k Hk. destruct (L port addr) as (a & La & Lf & Lp).
    exists a. split; [exact La|]. split; [exact Lf|].
    unfold httpAddrLocalhost, httpAddrAny. rewrite Lp, Lf.
    cbn [Z.eqb AF_INET AF_INET6 AF_LOCAL Pos.eqb andb].
    unfold strlcpy. rewrite Hk. cbn [store_str].
    rewrite cstr_idem. repeat split.
  - intros port addr s slen H1 H2. unfold resolve_to_string.
    destruct (L port addr) as (a & La & Lf & Lp). rewrite La. f_equal.
    rewrite httpAddrString_unbounded. unfold addr_text. rewrite Lf, Lp.
    cbn [Z.eqb AF_INET AF_INET6 AF_LOCAL Pos.eqb].
    unfold strlcpy. rewrite cstr_idem.
    rewrite (store_str_fits (sun_path addr) (cstr (String "/" t))) by assumption.
    rewrite cstr_idem. now apply store_str_fits.
Qed.

(** X10. Unless the name starts with a bracket, [httpGetHostByName] writes
    the globals only when it returns their host entry: when it returns NULL
    or what [gethostbyname] returned, the globals are as they were. *)
Theorem httpGetHostByName_failure_keeps_globals (cg : cups_globals) (name : string) :
  Ascii.eqb (peek name) "[" = false ->
  fst (httpGetHostByName P cg name) <> CgHostent ->
  snd (httpGetHostByName P cg name) = cg.
Proof.
  intros Hb. destruct (strcmp name "localhost" =? 0) eqn:E.
  - rewrite httpGetHostByName_strcmp_localhost, httpGetHostByName_quad by (assumption || lia).
    cbn [fst]. intros H. now contradiction H.
  - unfold httpGetHostByName, httpGetHostByName_run. rewrite E, Hb.
    repeat match goal with
           | |- context [match ?x with _ => _ end] =>
               lazymatch x with
               | context [match _ with _ => _ end] => fail
               | _ => destruct x
               end
           end; cbn [fst snd]; intros H; try reflexivity; now contradiction H.
Qed.

Lemma set_ip_word_frame (r i : nat) (w : Z) (cg : cups_globals) :
  hostent (set_ip_word P r i w cg) = hostent cg /\
  ip_ptrs (set_ip_word P r i w cg) = ip_ptrs cg /\
  hostname (set_ip_word P r i w cg) = hostname cg.
Proof. repeat split. Qed.

Lemma ipv6_loop_frame (k i : nat) (nameptr : string) (cg : cups_globals) :
  hostent (snd (ipv6_loop P k i nameptr cg)) = hostent cg /\
  ip_ptrs (snd (ipv6_loop P k i nameptr cg)) = ip_ptrs cg /\
  hostname (snd (ipv6_loop P k i nameptr cg)) = hostname cg.
Proof.
  revert i nameptr cg. induction k as [|k IH]; intros i nameptr cg; cbn [ipv6_loop].
  - repeat split.
  - destruct (is_nul (peek nameptr)); [repeat split|].
    destruct (Ascii.eqb (peek nameptr) "]"); [repeat split|].
    destruct (Ascii.eqb (peek nameptr) ":").
    + match goal with |- context [ipv6_loop P k (S i) ?np ?c] =>
        destruct (IH (S i) np c) as (A & B & C) end.
      rewrite A, B, C. repeat split.
    + destruct (strtoul16 (ULONG_MAX P) nameptr) as [v endptr].
      match goal with |- context [ipv6_loop P k (S i) ?np ?c] =>
        destruct (IH (S i) np c) as (A & B & C) end.
      rewrite A, B, C. repeat split.
Qed.

Lemma zero_fill_frame (k i : nat) (cg : cups_globals) :
  hostent (zero_fill P k i cg) = hostent cg /\
  ip_ptrs (zero_fill P k i cg) = ip_ptrs cg /\
  hostname (zero_fill P k i cg) = hostname cg.
Proof.
  revert i cg. induction k as [|k IH]; intros i cg; cbn [zero_fill]; [repeat split|].
  destruct (IH (S i) (set_ip_word P 0 i 0 cg)) as (A & B & C).
  rewrite A, B, C. repeat split.
Qed.

(** X11. A name that starts with a bracket always overwrites the host entry
    of the globals, whether the literal is accepted or refused: after the
    call the entry is an IPv6 entry named by the text, and its address list
    is the first row of addresses followed by NULL.  The result is NULL or
    that entry; the canonical name buffer is not touched. *)
Theorem httpGetHostByName_bracket_overwrites (cg : cups_globals) (t : string) :
  hostent (snd (httpGetHostByName P cg (String "[" t))) =
    {| h_name := StrPtr (String "[" t); h_aliases := None; h_addrtype := AF_INET6;
       h_length := 16; h_addr_list := IpPtrs |} /\
  nth 0 (ip_ptrs (snd (httpGetHostByName P cg (String "[" t)))) NULL = IpAddrsPtr 0 /\
  nth 1 (ip_ptrs (snd (httpGetHostByName P cg (String "[" t)))) NULL = NULL /\
  hostname (snd (httpGetHostByName P cg (String "[" t))) = hostname cg /\
  (fst (httpGetHostByName P cg (String "[" t)) = HostNULL \/
   fst (httpGetHostByName P cg (String "[" t)) = CgHostent).
Proof.
  unfold httpGetHostByName, httpGetHostByName_run.
  change (strcmp (String "[" t) "localhost" =? 0) with false.
  cbn [peek advance Ascii.eqb Bool.eqb].
  match goal with |- context [ipv6_loop P 4 0 t ?c] =>
    pose proof (ipv6_loop_frame 4 0 t c) as F;
    destruct (ipv6_loop P 4 0 t c) as [[i nameptr] cg1] end.
  cbn [snd] in F. destruct F as (A & B & C).
  destruct (zero_fill_frame (4 - i) i cg1) as (A' & B' & C').
  rewrite !returned_if.
  assert (G : forall b : bool,
            snd (if b then (HostNULL, zero_fill P (4 - i) i cg1)
                 else (CgHostent, zero_fill P (4 - i) i cg1)) =
            zero_fill P (4 - i) i cg1) by (intros []; reflexivity).
  rewrite G, A', B', C', A, B, C.
  cbn [hostent ip_ptrs hostname set_ip_ptr set_hostent].
  split; [reflexivity|]. split.
  - rewrite (nth_set_nth_other NULL 1 0) by lia. apply nth_set_nth_same.
  - split; [apply nth_set_nth_same|]. split; [reflexivity|].
    destruct (negb (is_nul (peek nameptr))); auto.
Qed.

(** ** Bracket literals of one to four groups *)

Lemma htonl_zero : htonl (host_order P) (u32 0) = 0.
Proof. destruct (host_order P); reflexivity. Qed.

Lemma ipv6_loop_colon (k i : nat) (x r : string) (cg : cups_globals) :
  is_group x = true ->
  ipv6_loop P (S k) i (x ++ String ":" r) cg =
  ipv6_loop P k (S i) r
    (set_ip_word P 0 i (htonl (host_order P) (u32 (hex_value x))) cg).
Proof.
  intros Hx. destruct x as [|c t].
  - change (hex_value "") with 0. rewrite htonl_zero. reflexivity.
  - cbn [is_group] in Hx. apply andb_true_iff in Hx. destruct Hx as [Hx Hv].
    apply Z.leb_le in Hv. apply ipv6_loop_group; auto.
Qed.

Lemma ipv6_loop_bracket (k i : nat) (x r : string) (cg : cups_globals) :
  is_group x = true -> x <> "" ->
  ipv6_loop P (S k) i (x ++ String "]" r) cg =
  ipv6_loop P k (S i) r
    (set_ip_word P 0 i (htonl (host_order P) (u32 (hex_value x))) cg).
Proof.
  intros Hx Hne. destruct x as [|c t]; [contradiction|].
  cbn [is_group] in Hx. apply andb_true_iff in Hx. destruct Hx as [Hx Hv].
  apply Z.leb_le in Hv. apply ipv6_loop_group; auto.
Qed.

Lemma ipv6_loop_end (k i : nat) (cg : cups_globals) :
  ipv6_loop P k i "" cg = (i, "", cg).
Proof. destruct k; reflexivity. Qed.

Lemma ipv6_loop_break (k i : nat) (r : string) (cg : cups_globals) :
  ipv6_loop P k i (String "]" r) cg = (i, String "]" r, cg).
Proof. destruct k; reflexivity. Qed.

Lemma zero_fill_words (k i : nat) (cg : cups_globals) :
  zero_fill P (S k) i cg =
  zero_fill P k (S i) (set_ip_word P 0 i (htonl (host_order P) (u32 (hex_value ""))) cg).
Proof. change (hex_value "") with 0. rewrite htonl_zero. reflexivity. Qed.

Ltac split_groups H :=
  cbn [forallb] in H;
  repeat match type of H with
         | (_ && _) = true => let G := fresh "G" in
                              apply andb_true_iff in H; destruct H as [G H]
         end.

(** X12. A bracket literal of one to four groups, each of them empty or a
    hexadecimal number that fits 32 bits, with colons between the groups:
    when its last group is a number the literal is accepted, the groups
    give the 32-bit words of the address in order, an empty group gives 0
    and the groups that are missing after the last one are 0; when its last
    group is empty the literal is refused. *)
Theorem httpGetHostByName_bracket_groups (cg : cups_globals) (gs : list string) :
  (1 <= List.length gs <= 4)%nat ->
  forallb is_group gs = true ->
  (last gs "" <> "" ->
   fst (httpGetHostByName P cg (bracket_literal gs)) = CgHostent /\
   result_family (httpGetHostByName P cg (bracket_literal gs)) = Some AF_INET6 /\
   first_address (httpGetHostByName P cg (bracket_literal gs)) =
     Some (groups_bytes (group_value gs 0) (group_value gs 1)
                        (group_value gs 2) (group_value gs 3))) /\
  (last gs "" = "" ->
   fst (httpGetHostByName P cg (bracket_literal gs)) = HostNULL).
Proof.
  intros Hlen Hg.
  assert (E : last gs "" <> "" ->
              httpGetHostByName P cg (bracket_literal gs) =
              (CgHostent,
               cg_after_bracket P cg (bracket_literal gs)
                 (group_value gs 0) (group_value gs 1)
                 (group_value gs 2) (group_value gs 3))).
  { intros Hlast. unfold httpGetHostByName, httpGetHostByName_run, bracket_literal.
    change (strcmp (String "[" (join_groups gs)) "localhost" =? 0) with false.
    cbn [peek advance Ascii.eqb Bool.eqb]. unfold cg_after_bracket, group_value.
    destruct gs as [|x0 [|x1 [|x2 [|x3 [|x4 gs]]]]]; cbn [List.length] in Hlen; try lia;
      cbn [last] in Hlast; split_groups Hg; cbn [join_groups append nth];
      rewrite ?ipv6_loop_colon by assumption;
      rewrite ipv6_loop_bracket by assumption;
      rewrite ipv6_loop_end; cbn [Nat.sub];
      rewrite ?zero_fill_words; reflexivity. }
  split.
  - intros Hlast. rewrite (E Hlast).
    split; [reflexivity|]. split; [reflexivity|]. apply first_address_bracket.
  - intros Hlast. unfold httpGetHostByName, httpGetHostByName_run, bracket_literal.
    change (strcmp (String "[" (join_groups gs)) "localhost" =? 0) with false.
    cbn [peek advance Ascii.eqb Bool.eqb].
    destruct gs as [|x0 [|x1 [|x2 [|x3 [|x4 gs]]]]]; cbn [List.length] in Hlen; try lia;
      cbn [last] in Hlast; subst; split_groups Hg; cbn [join_groups append];
      rewrite ?ipv6_loop_colon by assumption;
      rewrite ipv6_loop_break; reflexivity.
Qed.

(** ** Dotted texts of fewer than four numbers *)

Lemma number_guards (s rest : string) :
  is_number s = true ->
  (strcmp (s ++ rest) "localhost" =? 0) = false /\
  Ascii.eqb (peek (s ++ rest)) "/" = false /\
  Ascii.eqb (peek (s ++ rest)) "[" = false.
Proof.
  intros Hs. destruct (number_head s Hs) as (c & t & E & Hc & _).
  pose proof (isdigit_range c Hc) as Hr. rewrite E. cbn [append strcmp peek].
  split; [|split].
  - rewrite (isdigit_neq c) by (assumption || (right; reflexivity)).
    apply Z.eqb_neq. change (Z_of_byte "l"%char) with 108. lia.
  - apply isdigit_neq; [assumption|left; reflexivity].
  - apply isdigit_neq; [assumption|right; reflexivity].
Qed.

Lemma small_number (s : string) :
  is_small_number s = true ->
  is_number s = true /\ all_digits s = true /\ dec_value s <= 4294967295.
Proof.
  unfold is_small_number. intros H. apply andb_true_iff in H. destruct H as [H1 H2].
  apply Z.leb_le in H2. destruct (number_head s H1) as (? & ? & _ & _ & A). auto.
Qed.

(** X13. A text of no, one, two or three numbers with dots between them is
    refused, and the globals are left as they were. *)
Theorem httpGetHostByName_too_few_components (cg : cups_globals) (ns : list string) :
  (List.length ns <= 3)%nat ->
  forallb is_small_number ns = true ->
  httpGetHostByName P cg (join_dots ns) = (HostNULL, cg).
Proof.
  intros Hlen Hn.
  destruct ns as [|s0 [|s1 [|s2 [|s3 ns]]]]; cbn [List.length] in Hlen; try lia;
    cbn [forallb] in Hn; cbn [join_dots].
  - apply (httpGetHostByName_ipv4_count P cg "" (-1) []); try reflexivity. lia.
  - apply andb_true_iff in Hn. destruct Hn as [K0 _].
    destruct (small_number s0 K0) as (N0 & A0 & V0).
    destruct (number_guards s0 "" N0) as (G1 & G2 & G3). rewrite append_nil_r in G1, G2, G3.
    apply (httpGetHostByName_ipv4_count P cg s0 1 [dec_value s0]); try assumption; try lia.
    + rewrite <- (append_nil_r s0), skip_digits_dots_number by assumption. reflexivity.
    + unfold sscanf, fmt_dotted_quad. cbn [sscanf_run].
      rewrite scan_u_number_end by assumption. reflexivity.
  - apply andb_true_iff in Hn. destruct Hn as [K0 Hn].
    apply andb_true_iff in Hn. destruct Hn as [K1 _].
    destruct (small_number s0 K0) as (N0 & A0 & V0).
    destruct (small_number s1 K1) as (N1 & A1 & V1).
    destruct (number_guards s0 ("." ++ s1) N0) as (G1 & G2 & G3).
    apply (httpGetHostByName_ipv4_count P cg _ 2 [dec_value s0; dec_value s1]);
      try assumption; try lia.
    + rewrite skip_digits_dots_number by assumption.
      cbn [append skip_digits_dots]. rewrite orb_true_r.
      rewrite <- (append_nil_r s1), skip_digits_dots_number by assumption. reflexivity.
    + unfold sscanf, fmt_dotted_quad. cbn [sscanf_run].
      rewrite scan_u_number by (assumption || reflexivity).
      cbn [append peek advance Ascii.eqb Bool.eqb is_nul NUL zero andb negb].
      rewrite scan_u_number_end by assumption. reflexivity.
  - apply andb_true_iff in Hn. destruct Hn as [K0 Hn].
    apply andb_true_iff in Hn. destruct Hn as [K1 Hn].
    apply andb_true_iff in Hn. destruct Hn as [K2 _].
    destruct (small_number s0 K0) as (N0 & A0 & V0).
    destruct (small_number s1 K1) as (N1 & A1 & V1).
    destruct (small_number s2 K2) as (N2 & A2 & V2).
    destruct (number_guards s0 ("." ++ s1 ++ "." ++ s2) N0) as (G1 & G2 & G3).
    apply (httpGetHostByName_ipv4_count P cg _ 3 [dec_value s0; dec_value s1; dec_value s2]);
      try assumption; try lia.
    + rewrite skip_digits_dots_number by assumption.
      cbn [append skip_digits_dots]. rewrite orb_true_r.
      rewrite skip_digits_dots_number by assumption.
      cbn [append skip_digits_dots]. rewrite orb_true_r.
      rewrite <- (append_nil_r s2), skip_digits_dots_number by assumption. reflexivity.
    + unfold sscanf, fmt_dotted_quad. cbn [sscanf_run].
      rewrite scan_u_number by (assumption || reflexivity).
      cbn [append peek advance Ascii.eqb Bool.eqb is_nul NUL zero andb negb].
      rewrite scan_u_number by (assumption || reflexivity).
      cbn [append peek advance Ascii.eqb Bool.eqb is_nul NUL zero andb negb].
      rewrite scan_u_number_end by assumption. reflexivity.
Qed.

(** ** Hexadecimal text: what [%x] prints, [strtoul] reads back *)

Lemma digit_char_xdigit (d : Z) :
  0 <= d < 16 -> xdigit_val (Z_of_byte (digit_char d)) = Some d.
Proof.
  intros H. unfold digit_char, xdigit_val.
  destruct (Z.ltb_spec d 10).
  - rewrite Z_of_byte_of_Z, Z.mod_small by lia.
    destruct (Z.leb_spec 48 (48 + d)); [|lia].
    destruct (Z.leb_spec (48 + d) 57); [|lia]. cbn [andb]. f_equal. lia.
  - rewrite Z_of_byte_of_Z, Z.mod_small by lia.
    destruct (Z.leb_spec (87 + d) 57); [lia|]. rewrite andb_false_r.
    destruct (Z.leb_spec 97 (87 + d)); [|lia].
    destruct (Z.leb_spec (87 + d) 102); [|lia]. cbn [andb]. f_equal. lia.
Qed.

Lemma scan_xdigits_render (f : nat) (n : Z) (tl : string) :
  0 <= n < 2 ^ Z.of_nat f ->
  exists m, 0 <= m /\ forall acc,
    scan_xdigits acc (render 16 f n tl) = scan_xdigits (acc * 16 ^ m + n) tl.
Proof.
  revert n tl. induction f as [|f IH]; intros n tl Hn.
  - exists 0. split; [lia|]. intros acc. cbn [render].
    change (2 ^ Z.of_nat 0) with 1 in Hn. f_equal. lia.
  - cbn [render].
    assert (Hd : 0 <= n mod 16 < 16) by (apply Z.mod_pos_bound; lia).
    assert (Hs : forall acc t,
              scan_xdigits acc (String (digit_char (n mod 16)) t) =
              scan_xdigits (acc * 16 + n mod 16) t).
    { intros acc t. cbn [scan_xdigits]. now rewrite digit_char_xdigit. }
    destruct (Z.eqb_spec (n / 16) 0) as [E|E].
    + exists 1. split; [lia|]. intros acc. rewrite Hs. f_equal.
      change (16 ^ 1) with 16. Z.div_mod_to_equations. lia.
    + assert (H2 : 0 <= n / 16 < 2 ^ Z.of_nat f).
      { rewrite Nat2Z.inj_succ, Z.pow_succ_r in Hn by lia.
        Z.div_mod_to_equations. lia. }
      destruct (IH (n / 16) (String (digit_char (n mod 16)) tl) H2) as (m & Hm & Hr).
      exists (m + 1). split; [lia|]. intros acc. rewrite Hr, Hs. f_equal.
      rewrite Z.pow_add_r by lia. change (16 ^ 1) with 16.
      Z.div_mod_to_equations. lia.
Qed.

Lemma render_all_xdigits (f : nat) (n : Z) (tl : string) :
  all_xdigits tl = true -> all_xdigits (render 16 f n tl) = true.
Proof.
  revert n tl. induction f as [|f IH]; intros n tl Htl; cbn [render]; [assumption|].
  assert (Hd : 0 <= n mod 16 < 16) by (apply Z.mod_pos_bound; lia).
  assert (Hs : all_xdigits (String (digit_char (n mod 16)) tl) = true).
  { cbn [all_xdigits]. now rewrite digit_char_xdigit. }
  destruct (n / 16 =? 0); [exact Hs|]. apply IH. exact Hs.
Qed.

Lemma fmt_x_number (n : Z) : is_hex_number (fmt_x n) = true.
Proof.
  assert (H : all_xdigits (fmt_x n) = true) by (apply render_all_xdigits; reflexivity).
  unfold fmt_x in *.
  destruct (fmt_nonempty 16 (Z.to_nat (Z.log2 n)) n) as (c & t & E).
  rewrite E in *. exact H.
Qed.

Lemma fmt_x_value (n : Z) : 0 <= n -> hex_value (fmt_x n) = n.
Proof.
  intros Hn. unfold hex_value, fmt_x.
  destruct (scan_xdigits_render (S (Z.to_nat (Z.log2 n))) n "" (fmt_d_fuel n Hn))
    as (m & Hm & Hs).
  rewrite Hs. reflexivity.
Qed.

(** ** Formatting an address and resolving the text *)

Lemma be_bytes32_group (bs : list byte) (i : nat) :
  be_bytes32 (group32 bs i) =
  [nth (4 * i + 0) bs NUL; nth (4 * i + 1) bs NUL;
   nth (4 * i + 2) bs NUL; nth (4 * i + 3) bs NUL].
Proof.
  unfold group32. rewrite <- !nth_skipn_add.
  change (be_value32 (skipn (4 * i) bs))
    with (be_value32 [nth 0 (skipn (4 * i) bs) NUL; nth 1 (skipn (4 * i) bs) NUL;
                      nth 2 (skipn (4 * i) bs) NUL; nth 3 (skipn (4 * i) bs) NUL]).
  apply be_bytes32_value.
Qed.

Lemma resolve_and_load_bracket (cg : cups_globals) (name : string) (g0 g1 g2 g3 port : Z)
    (addr : http_addr_t) :
  httpGetHostByName P cg name = (CgHostent, cg_after_bracket P cg name g0 g1 g2 g3) ->
  resolve_and_load P cg name port addr =
  Some {| sa_family := AF_INET6;
          sin_port := htons (host_order P) port;
          sin_addr := sin_addr addr;
          sin6_addr := memcpy (sin6_addr addr) (groups_bytes g0 g1 g2 g3);
          sun_path := sun_path addr |}.
Proof.
  intros E. unfold resolve_and_load. rewrite E.
  pose proof (first_address_bracket P cg name g0 g1 g2 g3) as Hf.
  unfold first_address in Hf. cbn [fst snd deref] in Hf |- *.
  unfold httpAddrLoad.
  change (h_addrtype (hostent (cg_after_bracket P cg name g0 g1 g2 g3))) with AF_INET6.
  cbn [Z.eqb AF_INET AF_INET6 AF_LOCAL Pos.eqb]. rewrite Hf. reflexivity.
Qed.

(** X14. Formatting an IPv4 or an IPv6 address with [httpAddrString], in a
    buffer that holds the whole text, and resolving the text gives the
    address back: the text always resolves, and the address loaded from the
    result, with any port, is equal to the one that was formatted. *)
Theorem httpAddrString_then_resolve (cg : cups_globals) (a : http_addr_t) (port : Z)
    (addr : http_addr_t) (s : string) (slen : nat) :
  sa_family a = AF_INET \/ sa_family a = AF_INET6 ->
  (String.length (addr_text a) < slen)%nat ->
  exists a',
    resolve_and_load P cg (httpAddrString P a s slen) port addr = Some a' /\
    sa_family a' = sa_family a /\
    httpAddrEqual P a' a = 1.
Proof.
  intros Hf Hlen.
  rewrite httpAddrString_unbounded, store_str_fits by assumption.
  unfold addr_text. destruct Hf as [Ef|Ef]; rewrite Ef;
    cbn [Z.eqb AF_INET AF_INET6 AF_LOCAL Pos.eqb].
  - pose proof (byte_at_range (sin_addr a) 0). pose proof (byte_at_range (sin_addr a) 1).
    pose proof (byte_at_range (sin_addr a) 2). pose proof (byte_at_range (sin_addr a) 3).
    eexists. split; [apply resolve_and_load_quad; lia|].
    split; [reflexivity|].
    apply httpAddrEqual_same_address. unfold same_address. cbn [sa_family sin_addr].
    split; [now symmetry|].
    cbn [Z.eqb AF_INET AF_INET6 AF_LOCAL Pos.eqb].
    unfold same_bytes, memcpy, quad_bytes, byte_at. intros i Hi.
    destruct i as [|[|[|[|i]]]]; try lia; cbn [app nth]; apply byte_of_Z_of_byte.
  - assert (Hg : forall i, 0 <= group32 (sin6_addr a) i <= 4294967295).
    { intros i. unfold group32. pose proof (be_value32_range (skipn (4 * i) (sin6_addr a))).
      lia. }
    assert (E : httpGetHostByName P cg
                  (bracketed (fmt_x (group32 (sin6_addr a) 0))
                     (fmt_x (group32 (sin6_addr a) 1))
                     (fmt_x (group32 (sin6_addr a) 2))
                     (fmt_x (group32 (sin6_addr a) 3)) "") =
                (CgHostent,
                 cg_after_bracket P cg
                   (bracketed (fmt_x (group32 (sin6_addr a) 0))
                      (fmt_x (group32 (sin6_addr a) 1))
                      (fmt_x (group32 (sin6_addr a) 2))
                      (fmt_x (group32 (sin6_addr a) 3)) "")
                   (group32 (sin6_addr a) 0) (group32 (sin6_addr a) 1)
                   (group32 (sin6_addr a) 2) (group32 (sin6_addr a) 3))).
    { rewrite httpGetHostByName_bracketed
        by (apply fmt_x_number || (rewrite fmt_x_value; apply Hg)).
      rewrite !fmt_x_value by apply Hg. reflexivity. }
    eexists. split; [exact (resolve_and_load_bracket cg _ _ _ _ _ port addr E)|].
    split; [reflexivity|].
    apply httpAddrEqual_same_address. unfold same_address. cbn [sa_family sin6_addr].
    split; [now symmetry|].
    cbn [Z.eqb AF_INET AF_INET6 AF_LOCAL Pos.eqb].
    unfold same_bytes, memcpy, groups_bytes. rewrite !be_bytes32_group.
    intros i Hi.
    do 16 (destruct i as [|i]; [reflexivity|]). lia.
Qed.

(** X15. For octets in [0,255], the address resolved from the dotted quad
    is a local address for [httpAddrLocalhost] exactly when the quad is
    127.0.0.1, and the "any" address for [httpAddrAny] exactly when it is
    0.0.0.0. *)
Theorem resolved_quad_predicates (cg : cups_globals) (a b c d port : Z)
    (addr : http_addr_t) :
  0 <= a <= 255 -> 0 <= b <= 255 -> 0 <= c <= 255 -> 0 <= d <= 255 ->
  exists x,
    resolve_and_load P cg (quad_text a b c d) port addr = Some x /\
    (httpAddrLocalhost P x = 1 <-> a = 127 /\ b = 0 /\ c = 0 /\ d = 1) /\
    (httpAddrAny P x = 1 <-> a = 0 /\ b = 0 /\ c = 0 /\ d = 0).
Proof.
  intros Ha Hb Hc Hd. eexists. split; [now apply resolve_and_load_quad|].
  match goal with |- (httpAddrLocalhost P ?x = 1 <-> _) /\ _ =>
    assert (Hm : List.map (byte_at (sin_addr x)) [0; 1; 2; 3]%nat = [a; b; c; d]) end.
  { unfold byte_at, memcpy, quad_bytes. cbn [sin_addr List.map app nth].
    rewrite !Z_of_byte_of_Z, !Z.mod_small by lia. reflexivity. }
  split.
  - rewrite httpAddrLocalhost_is_local. unfold is_local. cbn [sa_family]. rewrite Hm.
    split.
    + intros [[E _]|[E|[_ E]]]; try discriminate E. injection E as -> -> -> ->. auto.
    + intros (-> & -> & -> & ->). right; right. split; reflexivity.
  - rewrite httpAddrAny_is_any. unfold is_any. cbn [sa_family]. rewrite Hm.
    split.
    + intros [[E _]|[_ E]]; try discriminate E. injection E as -> -> -> ->. auto.
    + intros (-> & -> & -> & ->). right. split; reflexivity.
Qed.

(** ** httpGetHostByName: names handed to the resolver *)

Lemma needs_lookup_guards (name : string) :
  needs_lookup name = true ->
  (strcmp name "localhost" =? 0) = false /\
  Ascii.eqb (peek name) "/" = false /\
  Ascii.eqb (peek name) "[" = false /\
  is_nul (peek (skip_digits_dots name)) = false.
Proof.
  unfold needs_lookup. intros H.
  apply andb_true_iff in H. destruct H as [H H4].
  apply andb_true_iff in H. destruct H as [H H3].
  apply andb_true_iff in H. destruct H as [H1 H2].
  apply negb_true_iff in H1, H2, H3, H4. auto.
Qed.

Lemma find_family_none (family : Z) (results : list addrinfo) :
  existsb (fun c => ai_family c =? family) results = false ->
  find_family family results = None.
Proof.
  induction results as [|c l IH]; [reflexivity|]. cbn [existsb find_family].
  destruct (ai_family c =? family); [discriminate|]. exact IH.
Qed.

Lemma find_family_some (family : Z) (results : list addrinfo) :
  existsb (fun c => ai_family c =? family) results = true ->
  exists c, find_family family results = Some c /\ ai_family c = family /\
            hd_error (of_family family results) = Some c.
Proof.
  unfold of_family.
  induction results as [|c l IH]; [discriminate|]. cbn [existsb find_family filter].
  destruct (Z.eqb_spec (ai_family c) family) as [E|E].
  - intros _. exists c. auto.
  - exact IH.
Qed.

Lemma bytes_upto_length (n : nat) (bs : list byte) : List.length (bytes_upto n bs) = n.
Proof.
  unfold bytes_upto. rewrite length_firstn. pose proof (pad_to_length n bs). lia.
Qed.

Lemma copy_addrs_spec (results : list addrinfo) (i : nat) (cg : cups_globals) :
  fst (copy_addrs P results i cg) =
    (i + List.length (firstn (CUPS_MAX_ADDRS P - i)
                        (of_family (h_addrtype (hostent cg)) results)))%nat /\
  hostent (snd (copy_addrs P results i cg)) = hostent cg /\
  hostname (snd (copy_addrs P results i cg)) = hostname cg /\
  (forall j, (j < i)%nat ->
     nth j (ip_ptrs (snd (copy_addrs P results i cg))) NULL = nth j (ip_ptrs cg) NULL /\
     nth j (ip_addrs (snd (copy_addrs P results i cg))) [] = nth j (ip_addrs cg) []) /\
  (forall j c,
     nth_error (firstn (CUPS_MAX_ADDRS P - i)
                  (of_family (h_addrtype (hostent cg)) results)) j = Some c ->
     nth (i + j) (ip_ptrs (snd (copy_addrs P results i cg))) NULL = IpAddrsPtr (i + j) /\
     exists rest,
       nth (i + j) (ip_addrs (snd (copy_addrs P results i cg))) [] = ai_bytes c ++ rest).
Proof.
  revert i cg. unfold of_family.
  induction results as [|current next IH]; intros i cg.
  - cbn [copy_addrs filter fst snd]. rewrite firstn_nil. cbn [List.length].
    split; [lia|]. split; [reflexivity|]. split; [reflexivity|]. split; [auto|].
    intros j c H. destruct j; discriminate.
  - cbn [copy_addrs filter].
    destruct (Nat.ltb_spec i (CUPS_MAX_ADDRS P)) as [Hi|Hi].
    + destruct (Z.eqb_spec (ai_family current) (h_addrtype (hostent cg))) as [Ef|Ef].
      * match goal with |- context [copy_addrs P next (S i) ?c] => set (cg1 := c) end.
        assert (Hh : hostent cg1 = hostent cg)
          by (subst cg1; destruct (ai_family current =? AF_INET); reflexivity).
        assert (Hn : hostname cg1 = hostname cg)
          by (subst cg1; destruct (ai_family current =? AF_INET); reflexivity).
        assert (Hp : ip_ptrs cg1 = set_nth NULL i (IpAddrsPtr i) (ip_ptrs cg))
          by (subst cg1; destruct (ai_family current =? AF_INET); reflexivity).
        assert (Hr : ip_addrs cg1 =
                     set_nth [] i (memcpy (nth i (ip_addrs cg) []) (ai_bytes current))
                       (ip_addrs cg)).
        { subst cg1. unfold ai_bytes, bytes_upto.
          destruct (ai_family current =? AF_INET); reflexivity. }
        destruct (IH (S i) cg1) as (A & B & C & D & F).
        rewrite Hh in A, F.
        replace (CUPS_MAX_ADDRS P - i)%nat with (S (CUPS_MAX_ADDRS P - S i)) by lia.
        cbn [firstn List.length].
        split; [rewrite A; lia|]. split; [congruence|]. split; [congruence|]. split.
        -- intros j Hj. destruct (D j ltac:(lia)) as [D1 D2].
           rewrite D1, D2, Hp, Hr. rewrite !nth_set_nth_other by lia. auto.
        -- intros j c Hc. destruct j as [|j].
           ++ cbn [nth_error] in Hc. injection Hc as <-.
              rewrite Nat.add_0_r. destruct (D i ltac:(lia)) as [D1 D2].
              rewrite D1, D2, Hp, Hr, !nth_set_nth_same.
              split; [reflexivity|]. unfold memcpy. eauto.
           ++ cbn [nth_error] in Hc.
              replace (i + S j)%nat with (S i + j)%nat by lia. now apply F.
      * apply IH.
    + replace (CUPS_MAX_ADDRS P - i)%nat with 0%nat by lia.
      cbn [firstn List.length fst snd].
      split; [lia|]. split; [reflexivity|]. split; [reflexivity|]. split; [auto|].
      intros j c H. destruct j; discriminate.
Qed.

Lemma firstn_member {A : Type} (n : nat) (l : list A) (x : A) :
  In x (firstn n l) -> In x l.
Proof.
  intros H. rewrite <- (firstn_skipn n l). apply in_or_app. now left.
Qed.

Lemma of_family_member (family : Z) (results : list addrinfo) (n j : nat) (c : addrinfo) :
  nth_error (firstn n (of_family family results)) j = Some c -> ai_family c = family.
Proof.
  intros H. apply nth_error_In, firstn_member in H. unfold of_family in H.
  apply filter_In in H. destruct H as [_ H]. now apply Z.eqb_eq.
Qed.

Lemma preferred_family_entry (results : list addrinfo) (family : Z) :
  preferred_family results = Some family ->
  exists c,
    (match find_family AF_INET6 results with
     | Some c => Some c
     | None => find_family AF_INET results
     end) = Some c /\
    ai_family c = family /\
    hd_error (of_family family results) = Some c /\
    (family = AF_INET6 \/ family = AF_INET /\ of_family AF_INET6 results = []).
Proof.
  intros Hp. unfold preferred_family in Hp.
  destruct (existsb (fun c => ai_family c =? AF_INET6) results) eqn:E6.
  - injection Hp as <-. destruct (find_family_some _ _ E6) as (c & F & Fa & Fh).
    exists c. rewrite F. auto.
  - destruct (existsb (fun c => ai_family c =? AF_INET) results) eqn:E4; [|discriminate].
    injection Hp as <-. destruct (find_family_some _ _ E4) as (c & F & Fa & Fh).
    exists c. rewrite (find_family_none _ _ E6), F.
    split; [reflexivity|]. split; [assumption|]. split; [assumption|]. right.
    split; [reflexivity|]. unfold of_family.
    clear - E6. induction results as [|x l IH]; [reflexivity|].
    cbn [existsb filter] in *. destruct (ai_family x =? AF_INET6); [discriminate|].
    now apply IH.
Qed.

(** X16. For a name handed to the resolver, when [getaddrinfo] returns
    entries of which one at least is IPv6 or IPv4, the family chosen is
    IPv6 if any entry is IPv6 and IPv4 otherwise, and the canonical name is
    read in the first entry of that family.  When that entry has none (the
    pointer is NULL, as in every entry but the first of the list), the call
    reads through the NULL pointer and does not return.  When it has one,
    the call returns the entry of the globals: its name is the canonical
    name buffer, which holds that canonical name cut to the buffer; its
    length is 16 or 4; its addresses are those of the entries of the family
    chosen, in the order of the list and at most [CUPS_MAX_ADDRS] of them,
    and the pointer after the last one is NULL. *)
Theorem httpGetHostByName_getaddrinfo (cg : cups_globals) (name : string)
    (results : list addrinfo) (family : Z) (c : addrinfo) :
  needs_lookup name = true ->
  getaddrinfo P name = Some results ->
  preferred_family results = Some family ->
  hd_error (of_family family results) = Some c ->
  (family = AF_INET6 \/
   family = AF_INET /\ of_family AF_INET6 results = []) /\
  (ai_canonname c = None -> httpGetHostByName_run P cg name = None) /\
  (forall canonname, ai_canonname c = Some canonname ->
   exists cg',
     httpGetHostByName_run P cg name = Some (CgHostent, cg') /\
     httpGetHostByName P cg name = (CgHostent, cg') /\
     hostent cg' =
       {| h_name := HostnamePtr; h_aliases := None; h_addrtype := family;
          h_length := if family =? AF_INET6 then 16 else 4;
          h_addr_list := IpPtrs |} /\
     hostname cg' = strlcpy (hostname cg) canonname (hostname_size P) /\
     (forall j c',
        nth_error (firstn (CUPS_MAX_ADDRS P) (of_family family results)) j = Some c' ->
        h_addr_list_nth cg' (hostent cg') j = IpAddrsPtr j /\
        read_bytes cg' (IpAddrsPtr j) (h_length (hostent cg')) = Some (ai_bytes c')) /\
     h_addr_list_nth cg' (hostent cg')
       (List.length (firstn (CUPS_MAX_ADDRS P) (of_family family results))) = NULL).
Proof.
  intros Hn Hg Hp Hhd.
  destruct (needs_lookup_guards name Hn) as (G1 & G2 & G3 & G4).
  destruct (preferred_family_entry results family Hp) as (c0 & Hfind & Hfam & Hhd0 & Hcase).
  assert (c0 = c) by congruence. subst c0.
  split; [exact Hcase|]. split.
  { intros Hnull. unfold httpGetHostByName_run.
    rewrite G1, G2, G3, G4, Hg, Hfind, Hnull. reflexivity. }
  intros canonname Hname.
  unfold httpGetHostByName, httpGetHostByName_run.
  rewrite G1, G2, G3, G4, Hg, Hfind, Hname.
  match goal with |- context [copy_addrs P results 0 ?c0] => set (cg2 := c0) end.
  assert (Hh2 : hostent cg2 =
                {| h_name := HostnamePtr; h_aliases := None; h_addrtype := ai_family c;
                   h_length := if ai_family c =? AF_INET6 then 16 else 4;
                   h_addr_list := IpPtrs |}) by reflexivity.
  assert (Hn2 : hostname cg2 = strlcpy (hostname cg) canonname (hostname_size P))
    by reflexivity.
  destruct (copy_addrs_spec results 0 cg2) as (A & B & C & _ & F).
  rewrite Hh2 in A, F. cbn [h_addrtype] in A, F. rewrite Hfam, Nat.sub_0_r in A, F.
  rewrite Hfam in Hh2.
  destruct (copy_addrs P results 0 cg2) as [n cg3]. cbn [fst snd] in *.
  eexists. split; [reflexivity|]. split; [reflexivity|].
  cbn [hostent set_ip_ptr hostname]. rewrite B, Hh2, C, Hn2.
  cbn [h_length h_addr_list].
  split; [reflexivity|]. split; [reflexivity|].
  unfold h_addr_list_nth. cbn [h_addr_list ip_ptrs set_ip_ptr]. split.
  - intros j c' Hj. destruct (F j c' Hj) as (F1 & rest & F2). cbn [Nat.add] in F1, F2.
    assert (Hlt : (j < n)%nat).
    { rewrite A. cbn [Nat.add]. apply nth_error_Some. congruence. }
    rewrite nth_set_nth_other by lia. split; [exact F1|].
    unfold read_bytes, ip_row. cbn [ip_addrs set_ip_ptr]. rewrite F2.
    pose proof (of_family_member _ _ _ _ _ Hj) as Hf'.
    assert (Hlen : Z.of_nat (List.length (ai_bytes c')) =
                   (if family =? AF_INET6 then 16 else 4)).
    { unfold ai_bytes. rewrite Hf'.
      destruct Hcase as [->|[-> _]]; cbn [Z.eqb AF_INET AF_INET6 Pos.eqb];
        rewrite bytes_upto_length; reflexivity. }
    pose proof (pad_to_length 16 (ai_bytes c' ++ rest)) as Hpad.
    rewrite <- Hlen.
    destruct (Z.leb_spec 0 (Z.of_nat (List.length (ai_bytes c')))); [|lia].
    destruct (Z.leb_spec (Z.of_nat (List.length (ai_bytes c')))
                (Z.of_nat (List.length (pad_to 16 (ai_bytes c' ++ rest)))));
      cbn [andb].
    + rewrite Nat2Z.id. unfold pad_to. rewrite <- app_assoc. now rewrite firstn_exact.
    + assert (List.length (ai_bytes c') <= 16)%nat.
      { destruct Hcase as [->|[-> _]]; cbn [Z.eqb AF_INET AF_INET6 Pos.eqb] in Hlen; lia. }
      lia.
  - rewrite A. cbn [Nat.add]. apply nth_set_nth_same.
Qed.

(** X17. For a name handed to the resolver, when [getaddrinfo] fails or
    returns no IPv6 and no IPv4 entry, the result is what [gethostbyname]
    returns for the name, NULL included, and the globals are not written. *)
Theorem httpGetHostByName_fallback (cg : cups_globals) (name : string) :
  needs_lookup name = true ->
  getaddrinfo P name = None \/
  (exists results, getaddrinfo P name = Some results /\ preferred_family results = None) ->
  httpGetHostByName P cg name = (libc_hostent (gethostbyname P name), cg).
Proof.
  intros Hn Hg. destruct (needs_lookup_guards name Hn) as (G1 & G2 & G3 & G4).
  unfold httpGetHostByName, httpGetHostByName_run. rewrite G1, G2, G3, G4.
  destruct Hg as [->|(results & -> & Hp)]; [reflexivity|].
  unfold preferred_family in Hp.
  destruct (existsb (fun c => ai_family c =? AF_INET6) results) eqn:E6; [discriminate|].
  destruct (existsb (fun c => ai_family c =? AF_INET) results) eqn:E4; [discriminate|].
  now rewrite (find_family_none _ _ E6), (find_family_none _ _ E4).
Qed.

(** ** httpGetHostname *)

(** X18. [httpGetHostname] asks [gethostbyname] only for a host name
    without a dot.  A name with a dot is returned as [gethostname] gave it,
    and so is a name that [gethostbyname] does not know.  For a name without
    a dot that [gethostbyname] knows, the result is the name of the entry
    found, cut to [slen - 1] characters, and not what [gethostname] gave;
    when the entry's name cannot be read (a NULL pointer) there is no
    result.  When what [gethostname] wrote fits the buffer, so does the
    result. *)
Theorem httpGetHostname_result (gethostname : string -> nat -> string)
    (cg : cups_globals) (s : string) (n : nat) :
  (String.length (gethostname s (S n)) <= n)%nat ->
  (strchr (gethostname s (S n)) "."%char = true ->
   httpGetHostname P gethostname cg s (S n) = Some (gethostname s (S n))) /\
  (gethostbyname P (gethostname s (S n)) = None ->
   httpGetHostname P gethostname cg s (S n) = Some (gethostname s (S n))) /\
  (forall host hname,
     strchr (gethostname s (S n)) "."%char = false ->
     gethostbyname P (gethostname s (S n)) = Some host ->
     read_string cg (h_name host) = Some hname ->
     httpGetHostname P gethostname cg s (S n) = Some (take n hname)) /\
  (forall host,
     strchr (gethostname s (S n)) "."%char = false ->
     gethostbyname P (gethostname s (S n)) = Some host ->
     read_string cg (h_name host) = None ->
     httpGetHostname P gethostname cg s (S n) = None) /\
  (forall r, httpGetHostname P gethostname cg s (S n) = Some r ->
     (String.length r <= n)%nat).
Proof.
  intros Hfit. unfold httpGetHostname. split; [|split; [|split; [|split]]].
  - intros ->. reflexivity.
  - intros ->. destruct (strchr (gethostname s (S n)) "."%char); reflexivity.
  - intros host hname -> -> Er. cbn [negb]. rewrite Er.
    unfold strlcpy. cbn [store_str]. now rewrite (read_string_cstr _ _ _ Er).
  - intros host -> -> ->. reflexivity.
  - intros r. destruct (strchr (gethostname s (S n)) "."%char); cbn [negb].
    + now intros [= <-].
    + destruct (gethostbyname P (gethostname s (S n))) as [host|].
      * destruct (read_string cg (h_name host)) as [hname|]; [|discriminate].
        intros [= <-]. apply take_length.
      * now intros [= <-].
Qed.

End MoreProperties.

(** ** The properties on concrete inputs *)

Lemma httpAddrEqual_congruence_witness :
  httpAddrEqual linux_x86_64 (ipv4_addr 631 10 0 0 1) (ipv4_addr 80 10 0 0 1) = 1 /\
  httpAddrString linux_x86_64 (ipv4_addr 631 10 0 0 1) "" 16 =
  httpAddrString linux_x86_64 (ipv4_addr 80 10 0 0 1) "" 16.
Proof.
  assert (H : httpAddrEqual linux_x86_64 (ipv4_addr 631 10 0 0 1) (ipv4_addr 80 10 0 0 1) = 1)
    by (vm_compute; reflexivity).
  split; [exact H|].
  destruct (httpAddrEqual_congruence linux_x86_64 _ _ H) as (_ & _ & _ & Hs). apply Hs.
Defined.

Lemma httpAddrLength_zero_witness :
  httpAddrLength linux_sizes addr0 = 0.
Proof.
  apply (proj1 (httpAddrLength_zero linux_sizes addr0 eq_refl eq_refl eq_refl)).
  repeat split; vm_compute; discriminate.
Defined.

Lemma httpAddrLoad_same_entry_witness :
  exists a1 a2,
    httpAddrLoad linux_x86_64 (snd (httpGetHostByName linux_x86_64 cg0 "192.0.2.1"))
      (hostent (snd (httpGetHostByName linux_x86_64 cg0 "192.0.2.1"))) 631 0 addr0 = Some a1 /\
    httpAddrLoad linux_x86_64 (snd (httpGetHostByName linux_x86_64 cg0 "192.0.2.1"))
      (hostent (snd (httpGetHostByName linux_x86_64 cg0 "192.0.2.1"))) 80 0 addr0 = Some a2 /\
    httpAddrEqual linux_x86_64 a1 a2 = 1.
Proof.
  eexists. eexists.
  split; [vm_compute; reflexivity|]. split; [vm_compute; reflexivity|].
  apply (httpAddrLoad_same_entry linux_x86_64
           (snd (httpGetHostByName linux_x86_64 cg0 "192.0.2.1"))
           (hostent (snd (httpGetHostByName linux_x86_64 cg0 "192.0.2.1")))
           0 631 80 addr0 addr0).
  - left. split; [reflexivity|vm_compute; discriminate].
  - vm_compute; reflexivity.
  - vm_compute; reflexivity.
Defined.


Lemma httpGetHostByName_failure_keeps_globals_witness :
  snd (httpGetHostByName linux_x86_64 cg0 "300.1.1.1") = cg0.
Proof.
  apply httpGetHostByName_failure_keeps_globals; [reflexivity|vm_compute; discriminate].
Defined.

Lemma httpGetHostByName_bracket_groups_witness :
  first_address (httpGetHostByName linux_x86_64 cg0 "[fe80:0:0:1]") =
    Some (groups_bytes 65152 0 0 1) /\
  fst (httpGetHostByName linux_x86_64 cg0 "[fe80:0:0:]") = HostNULL.
Proof.
  split.
  - pose proof (httpGetHostByName_bracket_groups linux_x86_64 cg0 ["fe80"; "0"; "0"; "1"]
                  ltac:(cbn; lia) eq_refl) as [H _].
    destruct H as (_ & _ & H); [vm_compute; discriminate|]. exact H.
  - pose proof (httpGetHostByName_bracket_groups linux_x86_64 cg0 ["fe80"; "0"; "0"; ""]
                  ltac:(cbn; lia) eq_refl) as [_ H].
    apply H. reflexivity.
Defined.

Lemma httpGetHostByName_too_few_components_witness :
  httpGetHostByName linux_x86_64 cg0 "192.168.1" = (HostNULL, cg0).
Proof.
  apply (httpGetHostByName_too_few_components linux_x86_64 cg0 ["192"; "168"; "1"]);
    [cbn; lia|reflexivity].
Defined.

Lemma httpAddrString_then_resolve_witness :
  exists a',
    resolve_and_load linux_x86_64 cg0 "192.0.2.1" 80 addr0 = Some a' /\
    httpAddrEqual linux_x86_64 a' (ipv4_addr 631 192 0 2 1) = 1.
Proof.
  destruct (httpAddrString_then_resolve linux_x86_64 cg0 (ipv4_addr 631 192 0 2 1) 80 addr0
              "" 16 (or_introl eq_refl) ltac:(vm_compute; lia)) as (a' & H1 & _ & H2).
  exists a'. split; [exact H1|exact H2].
Defined.

Lemma resolved_quad_predicates_witness :
  exists x,
    resolve_and_load linux_x86_64 cg0 "127.0.0.1" 631 addr0 = Some x /\
    httpAddrLocalhost linux_x86_64 x = 1.
Proof.
  destruct (resolved_quad_predicates linux_x86_64 cg0 127 0 0 1 631 addr0
              ltac:(lia) ltac:(lia) ltac:(lia) ltac:(lia)) as (x & H1 & H2 & _).
  exists x. split; [exact H1|]. apply H2. repeat split; reflexivity.
Defined.

Lemma httpGetHostByName_getaddrinfo_witness :
  (exists cg',
     httpGetHostByName_run lan_resolver cg0 "printer" = Some (CgHostent, cg') /\
     h_addrtype (hostent cg') = AF_INET6 /\
     hostname cg' = "printer.example.com" /\
     h_addr_list_nth cg' (hostent cg') 2 = NULL) /\
  httpGetHostByName_run lan_resolver cg0 "scanner" = None.
Proof.
  split.
  - destruct (httpGetHostByName_getaddrinfo lan_resolver cg0 "printer" lan_entries AF_INET6
                _ eq_refl eq_refl eq_refl eq_refl) as (_ & _ & H).
    destruct (H "printer.example.com" eq_refl) as (cg' & H1 & _ & H2 & H3 & _ & H4).
    exists cg'. split; [exact H1|]. split; [now rewrite H2|]. split; [exact H3|exact H4].
  - destruct (httpGetHostByName_getaddrinfo lan_resolver cg0 "scanner" scanner_entries
                AF_INET6 _ eq_refl eq_refl eq_refl eq_refl) as (_ & H & _).
    apply H. reflexivity.
Defined.

Lemma httpGetHostByName_fallback_witness :
  httpGetHostByName linux_x86_64 cg0 "printer" = (HostNULL, cg0).
Proof.
  exact (httpGetHostByName_fallback linux_x86_64 cg0 "printer" eq_refl (or_introl eq_refl)).
Defined.

Lemma httpGetHostname_result_witness :
  httpGetHostname lan_resolver (fun s n => snprintf s n "printer") cg0 "" 32 =
    Some "printer.example.com" /\
  httpGetHostname linux_x86_64 (fun s n => snprintf s n "printer") cg0 "" 32 =
    Some "printer".
Proof.
  split.
  - refine (proj1 (proj2 (proj2 (httpGetHostname_result lan_resolver
                                   (fun s n => snprintf s n "printer") cg0 "" 31 _)))
              _ "printer.example.com" eq_refl eq_refl eq_refl).
    vm_compute. lia.
  - refine (proj1 (proj2 (httpGetHostname_result linux_x86_64
                            (fun s n => snprintf s n "printer") cg0 "" 31 _)) eq_refl).
    vm_compute. lia.
Defined.
